(** * Phase coordination of a four-way junction

    A shallow embedding of [intelligent_traffic_optimizer.py]
    (class [IntelligentTrafficOptimizer]) and of the lane-worker glue of
    [app.py] (signal-state wrapper, frame clock, crossing-line counter and
    the drop-oldest queues), followed by the properties of the phase
    coordinator that the specification states.

    Numbers.  Green durations, vehicle counts, pixel coordinates and the
    cycle counter are Python [int]s and are modelled by [Z].  Elapsed
    times are Python [float]s ([frame_count / fps], differences of
    [time.time()]); Python compares an int with a finite float exactly,
    so they are modelled by rationals [Q] and compared with [Qle]/[Qlt];
    [min] and [max] return one of their arguments and are exact too.
    A float difference, sum or quotient is rounded.  Where a property
    speaks of such a result the operation is a parameter of the
    definition ([fsub], [fadd], [fdiv]: the number Python computes), and
    what the property needs of it is said in its statement. *)

From Stdlib Require Import ZArith QArith Qminmax Lia Lqa.
From Stdlib Require Ascii.
From stdpp Require Import base option list list_numbers strings gmap.

Local Open Scope Z_scope.

(** ** Python primitives *)

Module Py.

(** The exceptions the modelled code can raise. *)
Inductive exn : Type :=
| IndexError
| QueueFull
| QueueEmpty.

Inductive result (A : Type) : Type :=
| Ok (a : A)
| Raise (e : exn).
Arguments Ok {A} a.
Arguments Raise {A} e.

Definition is_raise {A} (r : result A) : bool :=
  match r with Ok _ => false | Raise _ => true end.

(** [e1 < e2] and [e1 >= e2] on numbers, as booleans. *)
Definition Qlt_bool (x y : Q) : bool := negb (Qle_bool y x).
Definition Qge_bool (x y : Q) : bool := Qle_bool y x.

(** [min(a, b)]: the first argument unless the second is smaller. *)
Definition min (a b : Q) : Q := if Qlt_bool b a then b else a.
(** [max(a, b)]: the first argument unless the second is larger. *)
Definition max (a b : Q) : Q := if Qlt_bool a b then b else a.
Definition maxZ (a b : Z) : Z := if a <? b then b else a.

(** Position denoted by the subscript [i] in a list of length [n]:
    [0 <= i < n] counts from the front, [-n <= i < 0] from the back,
    and anything else is out of range. *)
Definition index (n : nat) (i : Z) : option nat :=
  if (0 <=? i) && (i <? Z.of_nat n) then Some (Z.to_nat i)
  else if (i <? 0) && (0 <=? i + Z.of_nat n) then Some (Z.to_nat (i + Z.of_nat n))
  else None.

(** [l[i]] *)
Definition getitem {A} (l : list A) (i : Z) : result A :=
  match index (length l) i with
  | Some k => match l !! k with Some x => Ok x | None => Raise IndexError end
  | None => Raise IndexError
  end.

(** [l[i] = x] *)
Definition setitem {A} (l : list A) (i : Z) (x : A) : result (list A) :=
  match index (length l) i with
  | Some k => Ok (<[k:=x]> l)
  | None => Raise IndexError
  end.

(** [len(l)] *)
Definition len {A} (l : list A) : Z := Z.of_nat (length l).

(** [all(l)] on a list of booleans. *)
Definition all (l : list bool) : bool := forallb id l.
Global Arguments all : simpl never.

(** [sum(l)] on a list of ints. *)
Definition sum (l : list Z) : Z := foldr Z.add 0 l.

End Py.

Import Py.

(** ** The optimizer object *)

Inductive SignalState : Type := GREEN | YELLOW | RED | OBSERVATION.

Record SignalPhase : Type := mkPhase {
  phase_id : Z;
  duration : Z;
  phase_yellow_time : Z
}.

(** The attributes of [IntelligentTrafficOptimizer] that the phase logic
    reads or writes.  ([lanes], [adaptive_timings], the congestion table
    and the min/max durations are used by none of the operations on this
    record; [lanes] is added by [Junction] further down.) *)
Record Optimizer : Type := mkOptimizer {
  phases : list SignalPhase;
  cycle_number : Z;
  phase_elapsed_times : list Q;
  observation_enabled : bool;
  observation_duration : Z;
  lane_observation_times : list Q;
  observation_vehicle_counts : list Z;
  lanes_ready : list bool;
  current_cycle_timings : list Z;
  yellow_time : Z
}.

(** [IntelligentTrafficOptimizer.__init__] *)
Definition init : Optimizer := {|
  phases := [mkPhase 0 30 3; mkPhase 1 22 3; mkPhase 2 0 0; mkPhase 3 0 0];
  cycle_number := 0;
  phase_elapsed_times := [0%Q; 0%Q; 0%Q; 0%Q];
  observation_enabled := true;
  observation_duration := 30;
  lane_observation_times := [0%Q; 0%Q; 0%Q; 0%Q];
  observation_vehicle_counts := [0; 0; 0; 0];
  lanes_ready := [false; false; false; false];
  current_cycle_timings := [30; 22; 0; 0];
  yellow_time := 3
|}.

Definition with_phase_elapsed_times (v : list Q) (s : Optimizer) : Optimizer :=
  mkOptimizer (phases s) (cycle_number s) v (observation_enabled s)
    (observation_duration s) (lane_observation_times s)
    (observation_vehicle_counts s) (lanes_ready s) (current_cycle_timings s)
    (yellow_time s).

Definition with_lane_observation_times (v : list Q) (s : Optimizer) : Optimizer :=
  mkOptimizer (phases s) (cycle_number s) (phase_elapsed_times s)
    (observation_enabled s) (observation_duration s) v
    (observation_vehicle_counts s) (lanes_ready s) (current_cycle_timings s)
    (yellow_time s).

Definition with_observation_vehicle_counts (v : list Z) (s : Optimizer) : Optimizer :=
  mkOptimizer (phases s) (cycle_number s) (phase_elapsed_times s)
    (observation_enabled s) (observation_duration s) (lane_observation_times s)
    v (lanes_ready s) (current_cycle_timings s) (yellow_time s).

Definition with_lanes_ready (v : list bool) (s : Optimizer) : Optimizer :=
  mkOptimizer (phases s) (cycle_number s) (phase_elapsed_times s)
    (observation_enabled s) (observation_duration s) (lane_observation_times s)
    (observation_vehicle_counts s) v (current_cycle_timings s) (yellow_time s).

Definition with_observation_enabled (v : bool) (s : Optimizer) : Optimizer :=
  mkOptimizer (phases s) (cycle_number s) (phase_elapsed_times s) v
    (observation_duration s) (lane_observation_times s)
    (observation_vehicle_counts s) (lanes_ready s) (current_cycle_timings s)
    (yellow_time s).

Definition with_current_cycle_timings (v : list Z) (s : Optimizer) : Optimizer :=
  mkOptimizer (phases s) (cycle_number s) (phase_elapsed_times s)
    (observation_enabled s) (observation_duration s) (lane_observation_times s)
    (observation_vehicle_counts s) (lanes_ready s) v (yellow_time s).

Definition with_cycle_number (v : Z) (s : Optimizer) : Optimizer :=
  mkOptimizer (phases s) v (phase_elapsed_times s)
    (observation_enabled s) (observation_duration s) (lane_observation_times s)
    (observation_vehicle_counts s) (lanes_ready s) (current_cycle_timings s)
    (yellow_time s).

(** ** Methods that mutate the object

    A method is a function from the object before the call to the outcome
    of the call and the object after it.  An exception leaves behind
    whatever had been written before it was raised. *)

Definition M (A : Type) : Type := Optimizer -> result A * Optimizer.

Definition ret {A} (a : A) : M A := fun s => (Ok a, s).
Definition raise {A} (e : exn) : M A := fun s => (Raise e, s).
Definition bind {A B} (m : M A) (k : A -> M B) : M B :=
  fun s => match m s with
           | (Ok a, s') => k a s'
           | (Raise e, s') => (Raise e, s')
           end.
Definition read {A} (f : Optimizer -> A) : M A := fun s => (Ok (f s), s).
Definition write (f : Optimizer -> Optimizer) : M unit := fun s => (Ok tt, f s).
Definition lift {A} (r : result A) : M A :=
  match r with Ok a => ret a | Raise e => raise e end.

Notation "x <- m ;; k" := (bind m (fun x => k))
  (at level 100, m at next level, right associativity).
Notation "m ;;; k" := (bind m (fun _ => k))
  (at level 100, right associativity).

(** [update_phase_elapsed_time(self, phase_id, elapsed_time)] *)
Definition update_phase_elapsed_time (phase_id : Z) (elapsed_time : Q) : M unit :=
  times <- read phase_elapsed_times ;;
  if phase_id <? len times then
    times' <- lift (setitem times phase_id elapsed_time) ;;
    write (with_phase_elapsed_times times')
  else ret tt.

(** [get_signal_state(self, lane_id)] *)
Definition get_signal_state (s : Optimizer) (lane_id : Z) : result SignalState :=
  if lane_id >=? len (phases s) then Ok RED
  else
    match (if lane_id <? len (current_cycle_timings s)
           then getitem (current_cycle_timings s) lane_id else Ok 0) with
    | Raise e => Raise e
    | Ok green_duration =>
      match getitem (phase_elapsed_times s) lane_id with
      | Raise e => Raise e
      | Ok elapsed_time =>
        if green_duration =? 0 then Ok RED
        else if Qlt_bool elapsed_time (inject_Z green_duration) then Ok GREEN
        else if Qlt_bool elapsed_time (inject_Z (green_duration + yellow_time s))
             then Ok YELLOW
        else Ok RED
      end
    end.

(** [get_green_time(self, lane_id)] *)
Definition get_green_time (s : Optimizer) (lane_id : Z) : result Q :=
  if lane_id >=? len (current_cycle_timings s) then Ok 0%Q
  else
    match getitem (current_cycle_timings s) lane_id with
    | Raise e => Raise e
    | Ok green_duration =>
      match getitem (phase_elapsed_times s) lane_id with
      | Raise e => Raise e
      | Ok elapsed_time =>
        if Qlt_bool elapsed_time (inject_Z green_duration)
        then Ok (max 0%Q (inject_Z green_duration - elapsed_time)%Q)
        else Ok 0%Q
      end
    end.

(** [get_green_time(self, lane_id)] with its one arithmetic step named.
    An elapsed time is a float, so [green_duration - elapsed_time] is a
    rounded difference: [fsub a b] stands for the number Python computes
    for [a - b].  [get_green_time] above is the instance in which the
    difference is exact, as it is at elapsed time 0 and in every path
    that does not reach the subtraction. *)
Definition get_green_time_rounded (fsub : Q -> Q -> Q) (s : Optimizer)
    (lane_id : Z) : result Q :=
  if lane_id >=? len (current_cycle_timings s) then Ok 0%Q
  else
    match getitem (current_cycle_timings s) lane_id with
    | Raise e => Raise e
    | Ok green_duration =>
      match getitem (phase_elapsed_times s) lane_id with
      | Raise e => Raise e
      | Ok elapsed_time =>
        if Qlt_bool elapsed_time (inject_Z green_duration)
        then Ok (max 0%Q (fsub (inject_Z green_duration) elapsed_time))
        else Ok 0%Q
      end
    end.

(** [set_cycle_timing(self, cycle_timings)] *)
Definition set_cycle_timing (cycle_timings : list Z) : M unit :=
  if len cycle_timings =? 4 then
    write (with_current_cycle_timings cycle_timings) ;;;
    write (with_phase_elapsed_times [0%Q; 0%Q; 0%Q; 0%Q]) ;;;
    n <- read cycle_number ;;
    write (with_cycle_number (n + 1))
  else ret tt.

(** The bucket chain in the body of the loop of
    [predict_next_cycle_timings]. *)
Definition bucket_duration (vehicle_count : Z) : Z :=
  if vehicle_count =? 0 then 0
  else if vehicle_count <? 5 then 15
  else if vehicle_count <? 10 then 25
  else if vehicle_count <? 15 then 35
  else 55.

(** [predict_next_cycle_timings(self, lane_metrics_dict)]: one duration
    appended per [lane_id in range(4)], from [lane_metrics_dict.get(lane_id, 0)]. *)
Definition predict_next_cycle_timings (lane_metrics_dict : gmap Z Z) : list Z :=
  foldl (fun predicted lane_id =>
           predicted ++ [bucket_duration (default 0 (lane_metrics_dict !! lane_id))])
        [] (seqZ 0 4).

(** [update_observation_time(self, lane_id, elapsed_seconds)] *)
Definition update_observation_time (lane_id : Z) (elapsed_seconds : Q) : M unit :=
  if lane_id <? 4 then
    times <- read lane_observation_times ;;
    window <- read observation_duration ;;
    times' <- lift (setitem times lane_id (min elapsed_seconds (inject_Z window))) ;;
    write (with_lane_observation_times times') ;;;
    if Qge_bool elapsed_seconds (inject_Z window) then
      ready <- read lanes_ready ;;
      r <- lift (getitem ready lane_id) ;;
      if negb r then
        ready' <- lift (setitem ready lane_id true) ;;
        write (with_lanes_ready ready') ;;;
        (* the log line formats observation_vehicle_counts[lane_id] *)
        counts <- read observation_vehicle_counts ;;
        _ <- lift (getitem counts lane_id) ;;
        if all ready' then write (with_observation_enabled false)
        else ret tt
      else ret tt
    else ret tt
  else ret tt.

(** [record_observation_vehicle_count(self, lane_id, vehicle_count)] *)
Definition record_observation_vehicle_count (lane_id : Z) (vehicle_count : Z) : M unit :=
  if lane_id <? 4 then
    counts <- read observation_vehicle_counts ;;
    c <- lift (getitem counts lane_id) ;;
    counts' <- lift (setitem counts lane_id (maxZ c vehicle_count)) ;;
    write (with_observation_vehicle_counts counts')
  else ret tt.

(** ** The lane worker ([app.py], class [VehicleDetector]) *)

Module VehicleDetector.

(** [self.fps] and [self.YELLOW_TIME] are set once in [__init__] and never
    reassigned. *)
Definition fps : Z := 15.
Definition YELLOW_TIME : Z := 3.

(** A crossing line [[x_start, y, x_end, y]]. *)
Definition Line : Type := (Z * Z * Z * Z)%type.

(** One row of the tracker's output, [x1, y1, x2, y2, id], after the
    coordinates went through [int()]. *)
Definition Track : Type := (Z * Z * Z * Z * Z)%type.

(** The attributes of a detector that the clock and the counter use.
    ([cycle_start_time] is written but never read.) *)
Record Detector : Type := mkDetector {
  lane_id : Z;
  frame_count : Z;
  observation_start_time : option Q;
  observation_elapsed : Q;
  total_count : list Z;
  limit_lines : list Line
}.

Definition with_frame_count (v : Z) (d : Detector) : Detector :=
  mkDetector (lane_id d) v (observation_start_time d)
    (observation_elapsed d) (total_count d) (limit_lines d).
Definition with_observation_start_time (v : option Q) (d : Detector) : Detector :=
  mkDetector (lane_id d) (frame_count d) v
    (observation_elapsed d) (total_count d) (limit_lines d).
Definition with_observation_elapsed (v : Q) (d : Detector) : Detector :=
  mkDetector (lane_id d) (frame_count d) (observation_start_time d)
    v (total_count d) (limit_lines d).

(** [VehicleDetector.get_signal_state(self)]; [global_optimizer] is the
    module-level variable, [None] until it is initialised. *)
Definition get_signal_state (global_optimizer : option Optimizer)
    (lane : Z) : SignalState :=
  match global_optimizer with
  | None => OBSERVATION
  | Some o =>
    if observation_enabled o then OBSERVATION
    else match get_signal_state o lane with
         | Ok st => st
         | Raise _ => OBSERVATION
         end
  end.

(** Truth value of [self.observation_start_time] in a condition. *)
Definition started (t : option Q) : bool :=
  match t with Some v => negb (Qeq_bool v 0) | None => false end.

(** The clock of [process_frame], from the observation test on: the
    observation tick or the switch to signal control, then the frame
    counter, the elapsed-time update and the end-of-cycle check.  [now]
    is the value of [time.time()].  What [process_frame] does before, on
    a detector's first frame, is in [process_frame_timing] below. *)
Definition process_frame_clock (now : Q) (d : Detector)
    (global_optimizer : option Optimizer)
    : result unit * Detector * option Optimizer :=
  match global_optimizer with
  | None => (Ok tt, with_frame_count (frame_count d + 1) d, None)
  | Some o =>
    let '(r1, d1, o1) :=
      if observation_enabled o && started (observation_start_time d) then
        let elapsed := (now - default 0%Q (observation_start_time d))%Q in
        let '(r, o') := update_observation_time (lane_id d) elapsed o in
        (r, with_observation_elapsed elapsed d, o')
      else if negb (observation_enabled o) && started (observation_start_time d) then
        (Ok tt, with_observation_start_time None (with_frame_count 0 d), o)
      else (Ok tt, d, o) in
    match r1 with
    | Raise e => (Raise e, d1, Some o1)
    | Ok _ =>
      let d2 := with_frame_count (frame_count d1 + 1) d1 in
      let elapsed_time := (inject_Z (frame_count d2) / inject_Z fps)%Q in
      let '(r2, o2) := update_phase_elapsed_time (lane_id d) elapsed_time o1 in
      match r2 with
      | Raise e => (Raise e, d2, Some o2)
      | Ok _ =>
        let total_cycle_time := sum (current_cycle_timings o2) + YELLOW_TIME * 4 in
        if Qge_bool elapsed_time (inject_Z total_cycle_time) then
          let estimate := len (total_count d2) `div` 30 in
          let predicted_timings :=
            predict_next_cycle_timings
              (<[0:=estimate]> (<[1:=estimate]> (<[2:=estimate]> (<[3:=estimate]> ∅)))) in
          let '(r3, o3) :=
            if lane_id d =? 0 then set_cycle_timing predicted_timings o2
            else (Ok tt, o2) in
          match r3 with
          | Raise e => (Raise e, d2, Some o3)
          | Ok _ => (Ok tt, with_frame_count 0 d2, Some o3)
          end
        else (Ok tt, d2, Some o2)
      end
    end
  end.

(** The band test of the counting loop:
    [limit[0] < cx < limit[2] and limit[1] - 15 < cy < limit[1] + 15]. *)
Definition in_band (limit : Line) (cx cy : Z) : bool :=
  let '(l0, l1, l2, _) := limit in
  (l0 <? cx) && (cx <? l2) && (l1 - 15 <? cy) && (cy <? l1 + 15).

(** Centre of a tracked box: [cx, cy = x1 + w // 2, y1 + h // 2]. *)
Definition centre (t : Track) : Z * Z :=
  let '(x1, y1, x2, y2, _) := t in
  let w := x2 - x1 in
  let h := y2 - y1 in
  (x1 + w `div` 2, y1 + h `div` 2).

Definition track_id (t : Track) : Z := let '(_, _, _, _, id) := t in id.

(** The inner loop over [self.limit_lines] for one tracked box. *)
Definition count_crossing (lines : list Line) (counted : list Z) (t : Track)
    : list Z :=
  let '(cx, cy) := centre t in
  foldl (fun total limit =>
           if in_band limit cx cy && negb (bool_decide (track_id t ∈ total))
           then total ++ [track_id t] else total)
        counted lines.

(** The outer loop over [tracked_objects] for one frame. *)
Definition count_frame (lines : list Line) (counted : list Z)
    (tracked_objects : list Track) : list Z :=
  foldl (count_crossing lines) counted tracked_objects.

(** [self.ALL_RED_TIME], set once in [__init__]. *)
Definition ALL_RED_TIME : Z := 2.

(** The loop of [get_next_green_time] over the opposite lanes: the largest
    remaining green seen so far, starting from 0; a query that raises
    ends the loop.  The remaining greens are the optimizer's, computed
    with the float subtraction [fsub]. *)
Definition max_opposite_green (fsub : Q -> Q -> Q) (o : Optimizer)
    (opposite_lanes : list Z) : result Q :=
  foldl (fun acc lane =>
           match acc with
           | Raise e => Raise e
           | Ok max_opposite =>
             match get_green_time_rounded fsub o lane with
             | Raise e => Raise e
             | Ok opp_green =>
               Ok (if Qlt_bool max_opposite opp_green then opp_green else max_opposite)
             end
           end)
        (Ok 0%Q) opposite_lanes.

(** [VehicleDetector.get_next_green_time(self)]; [fadd a b] stands for
    the number Python computes for [a + b] on a float [a], and the sum
    [max_opposite_green + self.YELLOW_TIME + self.ALL_RED_TIME] is formed
    left to right. *)
Definition get_next_green_time (fsub fadd : Q -> Q -> Q)
    (global_optimizer : option Optimizer) (lane : Z) : Q :=
  match get_signal_state global_optimizer lane with
  | GREEN | YELLOW => 0%Q
  | RED =>
    match global_optimizer with
    | Some o =>
      let opposite_lanes :=
        if (lane =? 0) || (lane =? 2) then [1; 3] else [0; 2] in
      match max_opposite_green fsub o opposite_lanes with
      | Ok max_opposite =>
        max 0%Q (fadd (fadd max_opposite (inject_Z YELLOW_TIME))
                   (inject_Z ALL_RED_TIME))
      | Raise _ => 0%Q
      end
    | None => 0%Q
    end
  | OBSERVATION => 0%Q
  end.

(** [VehicleDetector.get_green_time(self)] *)
Definition get_green_time (global_optimizer : option Optimizer)
    (lane : Z) : Q :=
  match global_optimizer with
  | None => 30%Q
  | Some o => match get_green_time o lane with
              | Ok t => t
              | Raise _ => 30%Q
              end
  end.

Definition with_limit_lines (v : list Line) (d : Detector) : Detector :=
  mkDetector (lane_id d) (frame_count d) (observation_start_time d)
    (observation_elapsed d) (total_count d) v.

(** The timing part of [process_frame] from its first line, with its
    float arithmetic named: [fsub a b] and [fdiv a b] stand for the
    numbers Python computes for [a - b] and [a / b].  On the first frame
    of a detector ([frame_analyzed] false) the frame is analysed, which
    sets the crossing lines ([frame_lines], what [analyze_video_frame]
    derives from the frame), and, when there is an optimizer and no
    observation start yet, the observation start is stamped
    ([started_at], that reading of [time.time()]) and the frame count
    reset; then the clock runs as in [process_frame_clock], [now] being
    its reading of [time.time()].  Returned with the value of
    [frame_analyzed] the frame leaves behind. *)
Definition process_frame_timing (fsub fdiv : Q -> Q -> Q) (frame_analyzed : bool)
    (frame_lines : list Line) (started_at now : Q) (d : Detector)
    (global_optimizer : option Optimizer)
    : bool * (result unit * Detector * option Optimizer) :=
  let d0 :=
    if frame_analyzed then d
    else
      let da := with_limit_lines frame_lines d in
      match global_optimizer, observation_start_time da with
      | Some _, None =>
        with_frame_count 0 (with_observation_start_time (Some started_at) da)
      | _, _ => da
      end in
  (true,
   match global_optimizer with
   | None => (Ok tt, with_frame_count (frame_count d0 + 1) d0, None)
   | Some o =>
     let '(r1, d1, o1) :=
       if observation_enabled o && started (observation_start_time d0) then
         let elapsed := fsub now (default 0%Q (observation_start_time d0)) in
         let '(r, o') := update_observation_time (lane_id d0) elapsed o in
         (r, with_observation_elapsed elapsed d0, o')
       else if negb (observation_enabled o) && started (observation_start_time d0) then
         (Ok tt, with_observation_start_time None (with_frame_count 0 d0), o)
       else (Ok tt, d0, o) in
     match r1 with
     | Raise e => (Raise e, d1, Some o1)
     | Ok _ =>
       let d2 := with_frame_count (frame_count d1 + 1) d1 in
       let elapsed_time := fdiv (inject_Z (frame_count d2)) (inject_Z fps) in
       let '(r2, o2) := update_phase_elapsed_time (lane_id d0) elapsed_time o1 in
       match r2 with
       | Raise e => (Raise e, d2, Some o2)
       | Ok _ =>
         let total_cycle_time := sum (current_cycle_timings o2) + YELLOW_TIME * 4 in
         if Qge_bool elapsed_time (inject_Z total_cycle_time) then
           let estimate := len (total_count d2) `div` 30 in
           let predicted_timings :=
             predict_next_cycle_timings
               (<[0:=estimate]> (<[1:=estimate]> (<[2:=estimate]> (<[3:=estimate]> ∅)))) in
           let '(r3, o3) :=
             if lane_id d0 =? 0 then set_cycle_timing predicted_timings o2
             else (Ok tt, o2) in
           match r3 with
           | Raise e => (Raise e, d2, Some o3)
           | Ok _ => (Ok tt, with_frame_count 0 d2, Some o3)
           end
         else (Ok tt, d2, Some o2)
       end
     end
   end).

End VehicleDetector.

(** ** The per-lane queues ([queue.Queue(maxsize=n)], oldest item first) *)

Module Queue.

Record t (A : Type) : Type := mk {
  maxsize : Z;
  items : list A
}.
Arguments mk {A} maxsize items.
Arguments maxsize {A} _.
Arguments items {A} _.

Definition qsize {A} (q : t A) : Z := len (items q).

(** [q.put(x, block=False)]: a bound applies only when [maxsize > 0]. *)
Definition put_nowait {A} (q : t A) (x : A) : result unit * t A :=
  if (0 <? maxsize q) && (qsize q >=? maxsize q) then (Raise QueueFull, q)
  else (Ok tt, mk (maxsize q) (items q ++ [x])).

(** [q.get_nowait()] *)
Definition get_nowait {A} (q : t A) : result A * t A :=
  match items q with
  | [] => (Raise QueueEmpty, q)
  | x :: rest => (Ok x, mk (maxsize q) rest)
  end.

(** The producer's push in [video_processing_thread]:
    [try: q.put(x, block=False)
     except queue.Full:
         try: q.get_nowait(); q.put(x, block=False)
         except queue.Empty: pass] *)
Definition push {A} (q : t A) (x : A) : result unit * t A :=
  match put_nowait q x with
  | (Raise QueueFull, q1) =>
    match get_nowait q1 with
    | (Ok _, q2) => put_nowait q2 x
    | (Raise QueueEmpty, q2) => (Ok tt, q2)
    | (Raise e, q2) => (Raise e, q2)
    end
  | r => r
  end.

(** Pushing a run of items, stopping at the first escaping exception. *)
Fixpoint push_all {A} (q : t A) (xs : list A) : result unit * t A :=
  match xs with
  | [] => (Ok tt, q)
  | x :: xs' =>
    match push q x with
    | (Ok _, q') => push_all q' xs'
    | r => r
    end
  end.

(** [frame_queues] and [data_queues] as created at module load. *)
Definition frame_queue {A} : t A := mk 2 [].
Definition data_queue {A} : t A := mk 5 [].

End Queue.

(** ** Frame pacing ([should_process_frame] of [app.py]) *)

(** [should_process_frame(feed_id)], the one-argument form the worker
    uses: [fps_limit] is then [VIDEO_QUALITY['fps_limit']], 15.  [now] is
    the value of [time.time()], [last_frame_time] the module-level list.
    Both arithmetic steps are on floats: [fdiv a b] and [fsub a b] stand
    for the numbers Python computes for [a / b] and [a - b]. *)
Definition should_process_frame (fsub fdiv : Q -> Q -> Q) (now : Q) (feed_id : Z)
    (last_frame_time : list Q) : result bool * list Q :=
  let min_interval := fdiv 1%Q (inject_Z 15) in
  match getitem last_frame_time feed_id with
  | Raise e => (Raise e, last_frame_time)
  | Ok last =>
    if Qge_bool (fsub now last) min_interval then
      match setitem last_frame_time feed_id now with
      | Ok l => (Ok true, l)
      | Raise e => (Raise e, last_frame_time)
      end
    else (Ok false, last_frame_time)
  end.

(** ** Signal phases and lane metrics *)

Module Phase.

(** [SignalPhase.get_state(self, elapsed_time)] *)
Definition get_state (p : SignalPhase) (elapsed_time : Q) : SignalState :=
  if Qlt_bool elapsed_time (inject_Z (duration p)) then GREEN
  else if Qlt_bool elapsed_time (inject_Z (duration p + phase_yellow_time p))
       then YELLOW
  else RED.

(** [SignalPhase.get_remaining_green_time(self, elapsed_time)]; the
    difference [self.duration - elapsed_time] is a float's, [fsub a b]
    standing for the number Python computes for [a - b]. *)
Definition get_remaining_green_time (fsub : Q -> Q -> Q) (p : SignalPhase)
    (elapsed_time : Q) : Q :=
  if Qlt_bool elapsed_time (inject_Z (duration p))
  then fsub (inject_Z (duration p)) elapsed_time
  else 0%Q.

Definition with_duration (v : Z) (p : SignalPhase) : SignalPhase :=
  mkPhase (phase_id p) v (phase_yellow_time p).

End Phase.

Record VehicleData : Type := mkVehicleData {
  vehicle_id : Z;
  vehicle_type : string;
  vehicle_lane_id : Z;
  timestamp : option Q
}.

Record LaneMetrics : Type := mkLaneMetrics {
  metrics_lane_id : Z;
  vehicle_count : Z;
  congestion_level : string;
  average_wait_time : Z;
  vehicles : list VehicleData
}.

(** [LaneMetrics(lane_id, vehicle_count, congestion_level)] *)
Definition new_lane_metrics (lane_id vehicle_count : Z) (level : string)
    : LaneMetrics :=
  mkLaneMetrics lane_id vehicle_count level 0 [].

(** The level chosen by [LaneMetrics.update_congestion]. *)
Definition congestion_of (vehicle_count : Z) : string :=
  if vehicle_count <? 5 then "low"
  else if vehicle_count <? 10 then "medium"
  else if vehicle_count <? 15 then "high"
  else "severe".

(** [LaneMetrics.update_congestion(self, vehicle_count)]: the object after
    the call; the value returned is its [congestion_level]. *)
Definition update_congestion (count : Z) (m : LaneMetrics) : LaneMetrics :=
  mkLaneMetrics (metrics_lane_id m) count (congestion_of count)
    (average_wait_time m) (vehicles m).

Definition with_vehicles (v : list VehicleData) (m : LaneMetrics) : LaneMetrics :=
  mkLaneMetrics (metrics_lane_id m) (vehicle_count m) (congestion_level m)
    (average_wait_time m) v.

(** The optimizer together with its [lanes] dictionary, which only
    [analyze_lane_conditions] and [optimize_phase_timing] touch. *)
Record Junction : Type := mkJunction {
  optimizer : Optimizer;
  lanes : gmap Z LaneMetrics
}.

Definition init_junction : Junction :=
  mkJunction init
    (<[0:=new_lane_metrics 0 0 "low"]>
       (<[1:=new_lane_metrics 1 0 "low"]>
          (<[2:=new_lane_metrics 2 0 "low"]>
             (<[3:=new_lane_metrics 3 0 "low"]> ∅)))).

(** [self.base_phase_duration], [self.min_phase_duration],
    [self.max_phase_duration] and [self.congestion_multiplier], set once
    in [__init__].  The factors 1.0, 1.2, 1.5 and 2.0 are taken as the
    rationals they denote; their products with 30 are exact in binary
    floating point. *)
Definition base_phase_duration : Z := 30.
Definition min_phase_duration : Z := 7.
Definition max_phase_duration : Z := 120.
Definition congestion_multiplier : gmap string Q :=
  <["low":=1%Q]> (<["medium":=(12 # 10)%Q]>
    (<["high":=(15 # 10)%Q]> (<["severe":=2%Q]> ∅))).

(** [int(x)] on a number: truncation towards zero. *)
Definition int_of (x : Q) : Z := Z.quot (Qnum x) (Z.pos (Qden x)).

(** [min(a, b)] on ints. *)
Definition minZ (a b : Z) : Z := if b <? a then b else a.

Definition with_phases (v : list SignalPhase) (s : Optimizer) : Optimizer :=
  mkOptimizer v (cycle_number s) (phase_elapsed_times s)
    (observation_enabled s) (observation_duration s) (lane_observation_times s)
    (observation_vehicle_counts s) (lanes_ready s) (current_cycle_timings s)
    (yellow_time s).

(** [analyze_lane_conditions(self, vehicles)]: the metrics returned and
    the junction after the call.  The metrics object of a lane found in
    [self.lanes] is updated in place, so the dictionary sees the update;
    for a lane not found a fresh object is returned and not stored. *)
Definition analyze_lane_conditions (vs : list VehicleData) (j : Junction)
    : LaneMetrics * Junction :=
  match vs with
  | [] => (new_lane_metrics 0 0 "low", j)
  | v :: _ =>
    let lane_id := vehicle_lane_id v in
    match lanes j !! lane_id with
    | Some stored =>
      let lane_metrics := with_vehicles vs (update_congestion (len vs) stored) in
      (lane_metrics, mkJunction (optimizer j) (<[lane_id:=lane_metrics]> (lanes j)))
    | None =>
      (with_vehicles vs (update_congestion (len vs) (new_lane_metrics lane_id 0 "low")), j)
    end
  end.

(** The body of the loop of [optimize_phase_timing] for one
    [(lane_id, metrics)] item. *)
Definition optimize_lane (j : Junction) (item : Z * LaneMetrics)
    : result unit * Junction :=
  let '(lane_id, metrics) := item in
  if lane_id <? len (phases (optimizer j)) then
    let congestion_factor :=
      default 1%Q (congestion_multiplier !! congestion_level metrics) in
    let new_duration := int_of (inject_Z base_phase_duration * congestion_factor)%Q in
    let new_duration :=
      maxZ min_phase_duration (minZ new_duration max_phase_duration) in
    match getitem (phases (optimizer j)) lane_id with
    | Raise e => (Raise e, j)
    | Ok p =>
      match setitem (phases (optimizer j)) lane_id
              (Phase.with_duration new_duration p) with
      | Raise e => (Raise e, j)
      | Ok phases' =>
        (Ok tt, mkJunction (with_phases phases' (optimizer j))
                  (<[lane_id:=metrics]> (lanes j)))
      end
    end
  else (Ok tt, j).

(** [optimize_phase_timing(self, lane_metrics_dict)]; the dictionary is
    given by its items in iteration order. *)
Fixpoint optimize_lanes (items : list (Z * LaneMetrics)) (j : Junction)
    : result unit * Junction :=
  match items with
  | [] => (Ok tt, j)
  | item :: rest =>
    match optimize_lane j item with
    | (Ok _, j') => optimize_lanes rest j'
    | (Raise e, j') => (Raise e, j')
    end
  end.

Definition optimize_phase_timing (items : list (Z * LaneMetrics)) (j : Junction)
    : result (list Z) * Junction :=
  match optimize_lanes items j with
  | (Ok _, j') => (Ok (duration <$> phases (optimizer j')), j')
  | (Raise e, j') => (Raise e, j')
  end.

(** [finalize_observation_phase(self)]: [Some next_timings], or [None]
    when some lane has not finished observing. *)
Definition finalize_observation_phase : M (option (list Z)) :=
  ready <- read lanes_ready ;;
  if all ready then
    counts <- read observation_vehicle_counts ;;
    (* the log line formats observation_vehicle_counts[0..3] *)
    _ <- lift (getitem counts 0) ;;
    _ <- lift (getitem counts 1) ;;
    _ <- lift (getitem counts 2) ;;
    _ <- lift (getitem counts 3) ;;
    write (with_phase_elapsed_times [0%Q; 0%Q; 0%Q; 0%Q]) ;;;
    c0 <- lift (getitem counts 0) ;;
    c1 <- lift (getitem counts 1) ;;
    c2 <- lift (getitem counts 2) ;;
    c3 <- lift (getitem counts 3) ;;
    let next_timings :=
      predict_next_cycle_timings
        (<[3:=c3]> (<[2:=c2]> (<[1:=c1]> (<[0:=c0]> ∅)))) in
    write (with_observation_enabled false) ;;;
    ret (Some next_timings)
  else ret None.

(** ** Metrics of a detector's lane ([calculate_lane_metrics] of [app.py]) *)

(** [self.vehicle_type_map] *)
Definition vehicle_type_map : gmap string string :=
  <["car":="car"]> (<["truck":="truck"]> (<["bus":="bus"]>
    (<["motorbike":="bike"]> (<["bicycle":="bike"]> ∅)))).

(** [l[:n]]: the first [n] items, or all but the last [-n] for a
    negative [n]. *)
Definition slice_to {A} (l : list A) (n : Z) : list A :=
  if 0 <=? n then take (Z.to_nat n) l
  else take (Z.to_nat (len l + n)) l.

(** [VehicleDetector.calculate_lane_metrics(self, vehicle_count,
    vehicle_types)] for the detector of lane [lane] whose optimizer is
    [j]; a missing or empty [vehicle_types] is the empty list, and
    [clock i] is the value of [time.time()] read for the [i]-th vehicle. *)
Definition calculate_lane_metrics (clock : nat -> Q) (lane : Z)
    (count : Z) (vehicle_types : list string) (j : Junction)
    : LaneMetrics * Junction :=
  let vehicle_types :=
    match vehicle_types with
    | [] => replicate (Z.to_nat count) "car"
    | _ => vehicle_types
    end in
  let batch :=
    imap (fun i v_type =>
            mkVehicleData (Z.of_nat i)
              (default "car" (vehicle_type_map !! v_type)) lane
              (Some (clock i)))
         (slice_to vehicle_types count) in
  analyze_lane_conditions batch j.

(** ** Upload file names ([allowed_file] and
    [VideoUploadHandler.is_allowed_file] of [app.py]) *)

(** A file name is the string of its characters; the theorems below are
    about names whose extension is plain ASCII, where [str.lower] only
    maps [A]..[Z] to [a]..[z]. *)
Definition ALLOWED_EXTENSIONS : list string :=
  ["mp4"; "avi"; "mov"; "mkv"; "flv"; "wmv"].

(** Whether a character is the dot, code 46. *)
Definition is_dot (c : Ascii.ascii) : bool := Ascii.eqb c (Ascii.ascii_of_nat 46).

Definition plain (c : Ascii.ascii) : bool := (Ascii.nat_of_ascii c <? 128)%nat.

Definition lower_char (c : Ascii.ascii) : Ascii.ascii :=
  let n := Ascii.nat_of_ascii c in
  if (65 <=? n)%nat && (n <=? 90)%nat then Ascii.ascii_of_nat (n + 32) else c.

(** [s.lower()] *)
Fixpoint lower (s : string) : string :=
  match s with
  | EmptyString => EmptyString
  | String c rest => String (lower_char c) (lower rest)
  end.

(** ['.' in s] *)
Fixpoint has_dot (s : string) : bool :=
  match s with
  | EmptyString => false
  | String c rest => is_dot c || has_dot rest
  end.

(** [s.rsplit('.', 1)[1]] for a string that holds a dot: what follows
    the last dot; [None] when there is no dot. *)
Fixpoint after_last_dot (s : string) : option string :=
  match s with
  | EmptyString => None
  | String c rest =>
    match after_last_dot rest with
    | Some ext => Some ext
    | None => if is_dot c then Some rest else None
    end
  end.

(** [allowed_file(filename)], which [is_allowed_file] repeats word for
    word: ['.' in filename and
    filename.rsplit('.', 1)[1].lower() in ALLOWED_EXTENSIONS]. *)
Definition allowed_file (filename : string) : bool :=
  has_dot filename &&
  match after_last_dot filename with
  | Some ext => bool_decide (lower ext ∈ ALLOWED_EXTENSIONS)
  | None => false
  end.

Fixpoint all_plain (s : string) : bool :=
  match s with
  | EmptyString => true
  | String c rest => plain c && all_plain rest
  end.

(** ** Specification-side definitions *)

(** The shape every reachable optimizer has: six parallel arrays of four
    slots, a 30-second window and a 3-second yellow. *)
Record well_formed (s : Optimizer) : Prop := mkWf {
  wf_phases : length (phases s) = 4%nat;
  wf_elapsed : length (phase_elapsed_times s) = 4%nat;
  wf_obs_times : length (lane_observation_times s) = 4%nat;
  wf_obs_counts : length (observation_vehicle_counts s) = 4%nat;
  wf_ready : length (lanes_ready s) = 4%nat;
  wf_timings : length (current_cycle_timings s) = 4%nat;
  wf_window : observation_duration s = 30;
  wf_yellow : yellow_time s = 3
}.

(** The state table of the phase coordinator as the specification words
    it: OBSERVATION while observing; otherwise RED for a zero green,
    GREEN before [g], YELLOW for the next three seconds, RED afterwards. *)
Definition spec_signalState (observing : bool) (g : Z) (e : Q) : SignalState :=
  if observing then OBSERVATION
  else if g =? 0 then RED
  else if Qlt_bool e (inject_Z g) then GREEN
  else if Qlt_bool e (inject_Z (g + 3)) then YELLOW
  else RED.

(** The public mutating calls of the optimizer, and a run of them.  A
    call that raises is abandoned by its caller and the run goes on with
    the object as the call left it. *)
Inductive Call : Type :=
| UpdatePhaseElapsedTime (phase : Z) (elapsed_time : Q)
| SetCycleTiming (cycle_timings : list Z)
| UpdateObservationTime (lane : Z) (elapsed_seconds : Q)
| RecordObservationVehicleCount (lane : Z) (vehicle_count : Z).

Definition exec (c : Call) : M unit :=
  match c with
  | UpdatePhaseElapsedTime p e => update_phase_elapsed_time p e
  | SetCycleTiming l => set_cycle_timing l
  | UpdateObservationTime lane e => update_observation_time lane e
  | RecordObservationVehicleCount lane n => record_observation_vehicle_count lane n
  end.

Definition after (c : Call) (s : Optimizer) : Optimizer := snd (exec c s).

Definition run (cs : list Call) (s : Optimizer) : Optimizer :=
  foldl (fun s c => after c s) s cs.

(** The states a run passes through, the starting one first. *)
Fixpoint trace (cs : list Call) (s : Optimizer) : list Optimizer :=
  match cs with
  | [] => [s]
  | c :: cs' => s :: trace cs' (after c s)
  end.

(** A run of observation-time updates only. *)
Definition observation_updates (us : list (Z * Q)) : list Call :=
  (fun u => UpdateObservationTime u.1 u.2) <$> us.

(** Number of places where a sequence of mode flags goes from observing
    ([true]) to controlling ([false]). *)
Fixpoint mode_flips (modes : list bool) : nat :=
  match modes with
  | m :: (m' :: _) as rest =>
    ((if m && negb m' then 1 else 0) + mode_flips rest)%nat
  | _ => 0%nat
  end.

(** The last [n] elements of a list. *)
Definition last_n {A} (n : nat) (l : list A) : list A := drop (length l - n) l.

(** Every public mutator, [finalize_observation_phase] included, and a
    run of them. *)
Inductive Op : Type :=
| Public (c : Call)
| FinalizeObservationPhase.

Definition apply_op (o : Op) (s : Optimizer) : Optimizer :=
  match o with
  | Public c => after c s
  | FinalizeObservationPhase => snd (finalize_observation_phase s)
  end.

Definition run_ops (ops : list Op) (s : Optimizer) : Optimizer :=
  foldl (fun s o => apply_op o s) s ops.

(** Whether an operation is a cycle install that takes effect. *)
Definition is_install (o : Op) : bool :=
  match o with
  | Public (SetCycleTiming l) => len l =? 4
  | _ => false
  end.

(** Position of a signal state in the order a cycle passes through. *)
Definition stage (st : SignalState) : Z :=
  match st with
  | OBSERVATION => 0
  | GREEN => 1
  | YELLOW => 2
  | RED => 3
  end.

(** [k] successive [get_nowait()] calls on a queue, stopping early when
    it is empty: the items obtained, oldest first, and the queue left. *)
Fixpoint drain {A} (k : nat) (q : Queue.t A) : list A * Queue.t A :=
  match k with
  | O => ([], q)
  | S k' =>
    match Queue.get_nowait q with
    | (Ok x, q') => let '(xs, q'') := drain k' q' in (x :: xs, q'')
    | (Raise _, q') => ([], q')
    end
  end.

(** Sample data: the seed cycle in controlling mode with every lane at
    elapsed time [t], and the two crossing lines of a 480x360 frame (60%
    and 65% of the height, 20% to 80% of the width). *)
Definition controlling_at (t : Q) : Optimizer :=
  with_observation_enabled false (with_phase_elapsed_times [t; t; t; t] init).

Definition sample_lines : list VehicleDetector.Line :=
  [(96, 216, 384, 216); (96, 234, 384, 234)].

(** ** Python subscripts on a list of known length *)

Section Subscripts.
Context {A : Type}.
Implicit Types (l : list A) (i : Z) (x : A).

Lemma index_inside (n : nat) i :
  0 <= i < Z.of_nat n -> index n i = Some (Z.to_nat i).
Proof.
  intros Hi. unfold index.
  destruct (Z.leb_spec 0 i), (Z.ltb_spec i (Z.of_nat n)); simpl; (done || lia).
Qed.

Lemma index_above (n : nat) i : Z.of_nat n <= i -> index n i = None.
Proof.
  intros Hi. unfold index.
  destruct (Z.leb_spec 0 i), (Z.ltb_spec i (Z.of_nat n)),
    (Z.ltb_spec i 0), (Z.leb_spec 0 (i + Z.of_nat n)); simpl; (done || lia).
Qed.

Lemma index_below (n : nat) i : i < - Z.of_nat n -> index n i = None.
Proof.
  intros Hi. unfold index.
  destruct (Z.leb_spec 0 i), (Z.ltb_spec i (Z.of_nat n)),
    (Z.ltb_spec i 0), (Z.leb_spec 0 (i + Z.of_nat n)); simpl; (done || lia).
Qed.

Lemma index_wraps (n : nat) i :
  - Z.of_nat n <= i < 0 -> index n i = Some (Z.to_nat (i + Z.of_nat n)).
Proof.
  intros Hi. unfold index.
  destruct (Z.leb_spec 0 i), (Z.ltb_spec i (Z.of_nat n)),
    (Z.ltb_spec i 0), (Z.leb_spec 0 (i + Z.of_nat n)); simpl; (done || lia).
Qed.

Lemma getitem_inside l i :
  0 <= i < len l -> exists x, l !! Z.to_nat i = Some x /\ getitem l i = Ok x.
Proof.
  intros Hi. unfold getitem, len in *. rewrite index_inside by done.
  destruct (lookup_lt_is_Some_2 l (Z.to_nat i)) as [x Hx]; [lia|].
  exists x. by rewrite Hx.
Qed.

Lemma getitem_lookup l i x :
  0 <= i -> l !! Z.to_nat i = Some x -> getitem l i = Ok x.
Proof.
  intros Hi Hx. unfold getitem.
  rewrite index_inside, Hx; [done|].
  apply lookup_lt_Some in Hx. lia.
Qed.

Lemma setitem_inside l i x :
  0 <= i < len l -> setitem l i x = Ok (<[Z.to_nat i:=x]> l).
Proof. intros Hi. unfold setitem, len in *. by rewrite index_inside. Qed.

Lemma getitem_below l i : i < - len l -> getitem l i = Raise IndexError.
Proof. intros Hi. unfold getitem, len in *. by rewrite index_below. Qed.

Lemma setitem_below l i x : i < - len l -> setitem l i x = Raise IndexError.
Proof. intros Hi. unfold setitem, len in *. by rewrite index_below. Qed.

Lemma setitem_length l i x l' : setitem l i x = Ok l' -> length l' = length l.
Proof.
  unfold setitem. destruct (index (length l) i); [|done].
  intros [= <-]. apply length_insert.
Qed.
End Subscripts.

(** ** Comparisons *)

Lemma Qlt_bool_iff (x y : Q) : Qlt_bool x y = true <-> (x < y)%Q.
Proof.
  unfold Qlt_bool. rewrite negb_true_iff, <- not_true_iff_false, Qle_bool_iff.
  split; [apply Qnot_le_lt | apply Qlt_not_le].
Qed.

Lemma Qlt_bool_false_iff (x y : Q) : Qlt_bool x y = false <-> (y <= x)%Q.
Proof.
  unfold Qlt_bool. rewrite negb_false_iff. apply Qle_bool_iff.
Qed.

Lemma Qge_bool_iff (x y : Q) : Qge_bool x y = true <-> (y <= x)%Q.
Proof. apply Qle_bool_iff. Qed.

Lemma min_is_Qmin (a b : Q) : min a b = Qmin a b.
Proof.
  unfold min, Qmin, GenericMinMax.gmin.
  destruct (Qlt_bool b a) eqn:H.
  - apply Qlt_bool_iff in H. rewrite Qgt_alt in H. by rewrite H.
  - apply Qlt_bool_false_iff in H. rewrite Qle_alt in H.
    by destruct (a ?= b)%Q.
Qed.

Lemma min_le_r (a b : Q) : (min a b <= b)%Q.
Proof. rewrite min_is_Qmin. apply Q.le_min_r. Qed.

(** ** Signal state *)

Lemma len_4 {A} (l : list A) : length l = 4%nat -> len l = 4.
Proof. unfold len. lia. Qed.

Lemma get_signal_state_inside (s : Optimizer) (lane : Z) (g : Z) (e : Q) :
  well_formed s -> 0 <= lane < 4 ->
  current_cycle_timings s !! Z.to_nat lane = Some g ->
  phase_elapsed_times s !! Z.to_nat lane = Some e ->
  get_signal_state s lane = Ok (spec_signalState false g e).
Proof.
  intros Hwf Hlane Hg He. unfold get_signal_state, spec_signalState.
  rewrite (len_4 _ (wf_phases _ Hwf)), (len_4 _ (wf_timings _ Hwf)).
  destruct (Z.geb_spec lane 4); [lia|].
  destruct (Z.ltb_spec lane 4); [|lia].
  rewrite (getitem_lookup _ _ _ (proj1 Hlane) Hg).
  rewrite (getitem_lookup _ _ _ (proj1 Hlane) He).
  rewrite (wf_yellow _ Hwf).
  destruct (g =? 0); [done|].
  destruct (Qlt_bool e (inject_Z g)); [done|].
  by destruct (Qlt_bool e (inject_Z (g + 3))).
Qed.

Lemma detector_signal_state_inside (s : Optimizer) (lane : Z) (g : Z) (e : Q) :
  well_formed s -> 0 <= lane < 4 ->
  current_cycle_timings s !! Z.to_nat lane = Some g ->
  phase_elapsed_times s !! Z.to_nat lane = Some e ->
  VehicleDetector.get_signal_state (Some s) lane
  = spec_signalState (observation_enabled s) g e.
Proof.
  intros Hwf Hlane Hg He. unfold VehicleDetector.get_signal_state.
  destruct (observation_enabled s); [done|].
  by rewrite (get_signal_state_inside s lane g e).
Qed.

Lemma spec_signalState_table (observing : bool) (g : Z) (e : Q) :
  let st := spec_signalState observing g e in
  (observing = true -> st = OBSERVATION) /\
  (observing = false -> g = 0 -> st = RED) /\
  (observing = false -> g <> 0 -> (e < inject_Z g)%Q -> st = GREEN) /\
  (observing = false -> g <> 0 ->
     (inject_Z g <= e)%Q -> (e < inject_Z (g + 3))%Q -> st = YELLOW) /\
  (observing = false -> g <> 0 ->
     (inject_Z g <= e)%Q -> (inject_Z (g + 3) <= e)%Q -> st = RED).
Proof.
  unfold spec_signalState. repeat split.
  - by intros ->.
  - intros -> ->. done.
  - intros -> Hg Hlt. apply Z.eqb_neq in Hg. apply Qlt_bool_iff in Hlt.
    by rewrite Hg, Hlt.
  - intros -> Hg Hge Hlt. apply Z.eqb_neq in Hg.
    apply Qlt_bool_false_iff in Hge. apply Qlt_bool_iff in Hlt.
    by rewrite Hg, Hge, Hlt.
  - intros -> Hg Hge Hge'. apply Z.eqb_neq in Hg.
    apply Qlt_bool_false_iff in Hge. apply Qlt_bool_false_iff in Hge'.
    by rewrite Hg, Hge, Hge'.
Qed.

(** C1.  For a lane in 0..3 the signal state shown by the lane worker is a
    function of the lane's green duration [g], the lane's elapsed time [e]
    and the observation flag alone: OBSERVATION while the flag is set;
    otherwise (where it is also what the optimizer's own query returns)
    RED when [g = 0], GREEN when [e < g], YELLOW when [g <= e < g + 3] and
    RED from [g + 3] on.  With timings [30,22,0,0] in controlling mode the
    four lanes show GREEN, GREEN, RED, RED at elapsed time 10 and YELLOW,
    RED, RED, RED at elapsed time 31. *)
Theorem signal_state_pure_function (s : Optimizer) (lane : Z) :
  well_formed s -> 0 <= lane < 4 ->
  exists (g : Z) (e : Q),
    current_cycle_timings s !! Z.to_nat lane = Some g /\
    phase_elapsed_times s !! Z.to_nat lane = Some e /\
    let st := VehicleDetector.get_signal_state (Some s) lane in
    st = spec_signalState (observation_enabled s) g e /\
    (observation_enabled s = true -> st = OBSERVATION) /\
    (observation_enabled s = false -> get_signal_state s lane = Ok st) /\
    (observation_enabled s = false -> g = 0 -> st = RED) /\
    (observation_enabled s = false -> g <> 0 -> (e < inject_Z g)%Q -> st = GREEN) /\
    (observation_enabled s = false -> g <> 0 ->
       (inject_Z g <= e)%Q -> (e < inject_Z (g + 3))%Q -> st = YELLOW) /\
    (observation_enabled s = false -> g <> 0 ->
       (inject_Z g <= e)%Q -> (inject_Z (g + 3) <= e)%Q -> st = RED) /\
    (observation_enabled s = false -> current_cycle_timings s = [30; 22; 0; 0] ->
       (phase_elapsed_times s = [10%Q; 10%Q; 10%Q; 10%Q] ->
          VehicleDetector.get_signal_state (Some s) <$> seqZ 0 4
          = [GREEN; GREEN; RED; RED]) /\
       (phase_elapsed_times s = [31%Q; 31%Q; 31%Q; 31%Q] ->
          VehicleDetector.get_signal_state (Some s) <$> seqZ 0 4
          = [YELLOW; RED; RED; RED])).
Proof.
  intros Hwf Hlane.
  destruct (getitem_inside (current_cycle_timings s) lane) as (g & Hg & _).
  { rewrite (len_4 _ (wf_timings _ Hwf)). lia. }
  destruct (getitem_inside (phase_elapsed_times s) lane) as (e & He & _).
  { rewrite (len_4 _ (wf_elapsed _ Hwf)). lia. }
  exists g, e. split; [done|]. split; [done|]. cbv zeta.
  rewrite (detector_signal_state_inside s lane g e) by done.
  destruct (spec_signalState_table (observation_enabled s) g e)
    as (T1 & T2 & T3 & T4 & T5).
  repeat (split; [done|]). split.
  - intros Hobs. rewrite Hobs. by apply get_signal_state_inside.
  - repeat (split; [done|]).
    intros Hobs Htim. split; intros Hel.
    + change (seqZ 0 4) with [0; 1; 2; 3]. cbn [fmap list_fmap].
      rewrite (detector_signal_state_inside s 0 30 10%Q Hwf),
        (detector_signal_state_inside s 1 22 10%Q Hwf),
        (detector_signal_state_inside s 2 0 10%Q Hwf),
        (detector_signal_state_inside s 3 0 10%Q Hwf);
        rewrite ?Htim, ?Hel, ?Hobs; try done; lia.
    + change (seqZ 0 4) with [0; 1; 2; 3]. cbn [fmap list_fmap].
      rewrite (detector_signal_state_inside s 0 30 31%Q Hwf),
        (detector_signal_state_inside s 1 22 31%Q Hwf),
        (detector_signal_state_inside s 2 0 31%Q Hwf),
        (detector_signal_state_inside s 3 0 31%Q Hwf);
        rewrite ?Htim, ?Hel, ?Hobs; try done; lia.
Qed.

(** ** Cycle timing predictor *)

Lemma predict_next_cycle_timings_unfold (counts : gmap Z Z) :
  predict_next_cycle_timings counts
  = (fun lane => bucket_duration (default 0 (counts !! lane))) <$> [0; 1; 2; 3].
Proof. reflexivity. Qed.

Lemma bucket_duration_table (c : Z) :
  (c = 0 -> bucket_duration c = 0) /\
  (1 <= c <= 4 -> bucket_duration c = 15) /\
  (5 <= c <= 9 -> bucket_duration c = 25) /\
  (10 <= c <= 14 -> bucket_duration c = 35) /\
  (15 <= c -> bucket_duration c = 55).
Proof.
  unfold bucket_duration.
  destruct (Z.eqb_spec c 0), (Z.ltb_spec c 5), (Z.ltb_spec c 10),
    (Z.ltb_spec c 15); repeat split; intros; (done || lia).
Qed.

(** C3.  The predictor returns four durations, the one of lane [lane]
    being the bucket of that lane's count alone (a missing count reads as
    0): 0 for count 0, 15 for 1..4, 25 for 5..9, 35 for 10..14 and 55 from
    15 on.  Changing another lane's count leaves it unchanged, and counts
    [0,4,9,20] give [0,15,25,55]. *)
Theorem predict_bucket_table (counts : gmap Z Z) (lane : Z) :
  0 <= lane < 4 ->
  let c := default 0 (counts !! lane) in
  length (predict_next_cycle_timings counts) = 4%nat /\
  predict_next_cycle_timings counts !! Z.to_nat lane = Some (bucket_duration c) /\
  (c = 0 -> bucket_duration c = 0) /\
  (1 <= c <= 4 -> bucket_duration c = 15) /\
  (5 <= c <= 9 -> bucket_duration c = 25) /\
  (10 <= c <= 14 -> bucket_duration c = 35) /\
  (15 <= c -> bucket_duration c = 55) /\
  (forall (other v : Z), other <> lane ->
     predict_next_cycle_timings (<[other:=v]> counts) !! Z.to_nat lane
     = predict_next_cycle_timings counts !! Z.to_nat lane) /\
  predict_next_cycle_timings (<[0:=0]> (<[1:=4]> (<[2:=9]> (<[3:=20]> ∅))))
  = [0; 15; 25; 55].
Proof.
  intros Hlane c.
  assert (Hat : forall m : gmap Z Z,
    predict_next_cycle_timings m !! Z.to_nat lane
    = Some (bucket_duration (default 0 (m !! lane)))).
  { intros m. rewrite predict_next_cycle_timings_unfold.
    assert (lane = 0 \/ lane = 1 \/ lane = 2 \/ lane = 3) as [->|[->|[->| ->]]]
      by lia; reflexivity. }
  split; [done|]. split; [apply Hat|].
  destruct (bucket_duration_table c) as (B0 & B1 & B2 & B3 & B4).
  repeat (split; [done|]). split; [|done].
  intros other v Hne. rewrite !Hat. by rewrite lookup_insert_ne.
Qed.

(** ** Installing a cycle *)

(** C6.  Installing a list of exactly four durations returns normally and
    yields the object whose timing vector is that list, whose four
    elapsed counters are 0 and whose cycle counter is one more than
    before, every other attribute being as it was. *)
Theorem set_cycle_timing_installs (s : Optimizer) (durations : list Z) :
  length durations = 4%nat ->
  set_cycle_timing durations s
  = (Ok tt,
     {| phases := phases s;
        cycle_number := cycle_number s + 1;
        phase_elapsed_times := [0%Q; 0%Q; 0%Q; 0%Q];
        observation_enabled := observation_enabled s;
        observation_duration := observation_duration s;
        lane_observation_times := lane_observation_times s;
        observation_vehicle_counts := observation_vehicle_counts s;
        lanes_ready := lanes_ready s;
        current_cycle_timings := durations;
        yellow_time := yellow_time s |}) /\
  current_cycle_timings (snd (set_cycle_timing durations s)) = durations /\
  (forall lane : nat, (lane < 4)%nat ->
     phase_elapsed_times (snd (set_cycle_timing durations s)) !! lane = Some 0%Q) /\
  cycle_number (snd (set_cycle_timing durations s)) = cycle_number s + 1.
Proof.
  intros Hlen. unfold set_cycle_timing, len. rewrite Hlen. cbn.
  repeat split. intros lane Hl.
  by destruct lane as [|[|[|[|]]]]; [..|lia].
Qed.

(** C10.  A list whose length is not four is ignored: the call returns
    normally and the object (timing vector, elapsed counters, cycle
    counter and all the rest) is the one before the call.  Hence a timing
    vector of length four has length four after any call. *)
Theorem set_cycle_timing_wrong_length (s : Optimizer) (cycle_timings : list Z) :
  (length cycle_timings <> 4%nat ->
     set_cycle_timing cycle_timings s = (Ok tt, s)) /\
  (length (current_cycle_timings s) = 4%nat ->
     length (current_cycle_timings (snd (set_cycle_timing cycle_timings s))) = 4%nat).
Proof.
  unfold set_cycle_timing, len.
  destruct (Z.eqb_spec (Z.of_nat (length cycle_timings)) 4) as [Heq|Hne].
  - split; [lia|]. intros _. cbn. lia.
  - split; [done|]. intros H. exact H.
Qed.

(** ** Observation gate *)

Lemma index_Some_lt (n : nat) (i : Z) (k : nat) : index n i = Some k -> (k < n)%nat.
Proof.
  unfold index.
  destruct (Z.leb_spec 0 i), (Z.ltb_spec i (Z.of_nat n)),
    (Z.ltb_spec i 0), (Z.leb_spec 0 (i + Z.of_nat n)); simpl;
    intros [= <-]; lia.
Qed.

Lemma update_observation_time_above (s : Optimizer) (lane : Z) (e : Q) :
  4 <= lane -> update_observation_time lane e s = (Ok tt, s).
Proof.
  intros H. unfold update_observation_time.
  by destruct (Z.ltb_spec lane 4); [lia|].
Qed.

Lemma update_observation_time_below (s : Optimizer) (lane : Z) (e : Q) :
  well_formed s -> lane < -4 ->
  update_observation_time lane e s = (Raise IndexError, s).
Proof.
  intros Hwf H. unfold update_observation_time.
  destruct (Z.ltb_spec lane 4); [|lia].
  unfold bind, read, lift. rewrite setitem_below; [done|].
  rewrite (len_4 _ (wf_obs_times _ Hwf)). lia.
Qed.

Lemma update_observation_time_slot (s : Optimizer) (lane : Z) (e : Q) (k : nat) :
  well_formed s -> lane < 4 -> index 4 lane = Some k ->
  exists r : bool,
    lanes_ready s !! k = Some r /\
    update_observation_time lane e s
    = (Ok tt,
       let s1 := with_lane_observation_times
                   (<[k:=min e (inject_Z 30)]> (lane_observation_times s)) s in
       if Qge_bool e (inject_Z 30) && negb r then
         let s2 := with_lanes_ready (<[k:=true]> (lanes_ready s)) s1 in
         if all (<[k:=true]> (lanes_ready s))
         then with_observation_enabled false s2 else s2
       else s1).
Proof.
  intros Hwf Hlt Hk. pose proof (index_Some_lt _ _ _ Hk) as Hk4.
  destruct (lookup_lt_is_Some_2 (lanes_ready s) k) as [r Hr].
  { rewrite (wf_ready _ Hwf). lia. }
  destruct (lookup_lt_is_Some_2 (observation_vehicle_counts s) k) as [c Hc].
  { rewrite (wf_obs_counts _ Hwf). lia. }
  exists r. split; [done|].
  unfold update_observation_time.
  destruct (Z.ltb_spec lane 4); [|lia].
  unfold bind, read, write, lift, ret, setitem, getitem. cbn [fst snd].
  rewrite (wf_obs_times _ Hwf), Hk, (wf_window _ Hwf). cbn.
  destruct (Qge_bool e (inject_Z 30)); [|done]. cbn.
  rewrite (wf_ready _ Hwf), Hk, Hr. cbn.
  destruct r; [done|]. cbn.
  rewrite (wf_obs_counts _ Hwf), Hk, Hc. cbn.
  by destruct (all (<[k:=true]> (lanes_ready s))).
Qed.

Lemma update_observation_time_wf (s : Optimizer) (lane : Z) (e : Q) :
  well_formed s -> well_formed (snd (update_observation_time lane e s)).
Proof.
  intros Hwf.
  destruct (Z.ltb_spec lane 4) as [Hlt|Hge];
    [|by rewrite update_observation_time_above].
  destruct (index 4 lane) as [k|] eqn:Hk.
  - destruct (update_observation_time_slot s lane e k Hwf Hlt Hk) as (r & _ & ->).
    destruct Hwf. cbn.
    destruct (Qge_bool e (inject_Z 30) && negb r);
      [destruct (all _)|]; constructor; cbn; rewrite ?length_insert; done.
  - rewrite update_observation_time_below; [done..|].
    unfold index in Hk.
    destruct (Z.leb_spec 0 lane), (Z.ltb_spec lane (Z.of_nat 4)),
      (Z.ltb_spec lane 0), (Z.leb_spec 0 (lane + Z.of_nat 4));
      simpl in Hk; (done || lia).
Qed.

Lemma update_observation_time_times (s : Optimizer) (lane : Z) (e : Q) (k : nat) :
  well_formed s -> lane < 4 -> index 4 lane = Some k ->
  lane_observation_times (snd (update_observation_time lane e s))
  = <[k:=min e (inject_Z 30)]> (lane_observation_times s).
Proof.
  intros Hwf Hlt Hk.
  destruct (update_observation_time_slot s lane e k Hwf Hlt Hk) as (r & _ & ->).
  cbn. by destruct (Qge_bool e (inject_Z 30) && negb r); [destruct (all _)|].
Qed.

Lemma update_observation_time_ready (s : Optimizer) (lane : Z) (e : Q) (k : nat) :
  well_formed s -> lane < 4 -> index 4 lane = Some k ->
  exists r : bool,
    lanes_ready s !! k = Some r /\
    lanes_ready (snd (update_observation_time lane e s))
    = (if Qge_bool e (inject_Z 30) && negb r
       then <[k:=true]> (lanes_ready s) else lanes_ready s) /\
    observation_enabled (snd (update_observation_time lane e s))
    = (if Qge_bool e (inject_Z 30) && negb r && all (<[k:=true]> (lanes_ready s))
       then false else observation_enabled s).
Proof.
  intros Hwf Hlt Hk.
  destruct (update_observation_time_slot s lane e k Hwf Hlt Hk) as (r & Hr & ->).
  exists r. split; [done|]. cbn.
  by destruct (Qge_bool e (inject_Z 30) && negb r); [destruct (all _)|].
Qed.

(** C9.  For a lane in 0..3 and a non-negative input the update returns
    normally and the observation time stored for the lane is
    [min(input, 30)], which is at most the 30-second window. *)
Theorem observation_time_capped (s : Optimizer) (lane : Z) (e : Q) :
  well_formed s -> 0 <= lane < 4 -> (0 <= e)%Q ->
  fst (update_observation_time lane e s) = Ok tt /\
  lane_observation_times (snd (update_observation_time lane e s)) !! Z.to_nat lane
  = Some (Qmin e 30%Q) /\
  (forall t : Q,
     lane_observation_times (snd (update_observation_time lane e s)) !! Z.to_nat lane
     = Some t -> (t <= 30)%Q).
Proof.
  intros Hwf Hlane _.
  assert (Hk : index 4 lane = Some (Z.to_nat lane)) by (apply index_inside; lia).
  rewrite (update_observation_time_times s lane e _ Hwf (proj2 Hlane) Hk).
  destruct (update_observation_time_slot s lane e _ Hwf (proj2 Hlane) Hk)
    as (r & _ & ->).
  rewrite list_lookup_insert_eq, min_is_Qmin
    by (rewrite (wf_obs_times _ Hwf); lia).
  split; [done|]. split; [done|].
  intros t [= <-]. apply Q.le_min_r.
Qed.

(** ** Every call keeps the object well formed *)

Lemma init_well_formed : well_formed init.
Proof. by constructor. Qed.

Lemma update_phase_elapsed_time_above (s : Optimizer) (lane : Z) (e : Q) :
  len (phase_elapsed_times s) <= lane ->
  update_phase_elapsed_time lane e s = (Ok tt, s).
Proof.
  intros H. unfold update_phase_elapsed_time, bind, read. cbn.
  by destruct (Z.ltb_spec lane (len (phase_elapsed_times s))); [lia|].
Qed.

Lemma update_phase_elapsed_time_below (s : Optimizer) (lane : Z) (e : Q) :
  lane < - len (phase_elapsed_times s) ->
  update_phase_elapsed_time lane e s = (Raise IndexError, s).
Proof.
  intros H. unfold update_phase_elapsed_time, bind, read, lift. cbn.
  destruct (Z.ltb_spec lane (len (phase_elapsed_times s))); [|unfold len in *; lia].
  by rewrite setitem_below.
Qed.

Lemma update_phase_elapsed_time_slot (s : Optimizer) (lane : Z) (e : Q) (k : nat) :
  lane < len (phase_elapsed_times s) ->
  index (length (phase_elapsed_times s)) lane = Some k ->
  update_phase_elapsed_time lane e s
  = (Ok tt, with_phase_elapsed_times (<[k:=e]> (phase_elapsed_times s)) s).
Proof.
  intros Hlt Hk. unfold update_phase_elapsed_time, bind, read, lift, setitem. cbn.
  destruct (Z.ltb_spec lane (len (phase_elapsed_times s))); [|lia].
  by rewrite Hk.
Qed.

Lemma index_cases (n : nat) (i : Z) :
  (Z.of_nat n <= i /\ index n i = None) \/
  (i < - Z.of_nat n /\ index n i = None) \/
  (i < Z.of_nat n /\ exists k, index n i = Some k /\ (k < n)%nat).
Proof.
  destruct (Z.le_gt_cases (Z.of_nat n) i) as [H|H];
    [left; split; [done|by apply index_above]|].
  destruct (Z.lt_ge_cases i (- Z.of_nat n)) as [H'|H'];
    [right; left; split; [done|by apply index_below]|].
  right; right. split; [done|].
  destruct (Z.lt_ge_cases i 0).
  - eexists. split; [apply index_wraps; lia|lia].
  - eexists. split; [apply index_inside; lia|lia].
Qed.

Lemma update_phase_elapsed_time_wf (s : Optimizer) (lane : Z) (e : Q) :
  well_formed s -> well_formed (snd (update_phase_elapsed_time lane e s)).
Proof.
  intros Hwf.
  destruct (index_cases (length (phase_elapsed_times s)) lane)
    as [[H _]|[[H _]|[H (k & Hk & _)]]].
  - by rewrite update_phase_elapsed_time_above.
  - by rewrite update_phase_elapsed_time_below.
  - rewrite (update_phase_elapsed_time_slot s lane e k) by done.
    destruct Hwf. constructor; cbn; rewrite ?length_insert; done.
Qed.

Lemma set_cycle_timing_wf (s : Optimizer) (l : list Z) :
  well_formed s -> well_formed (snd (set_cycle_timing l s)).
Proof.
  intros Hwf. unfold set_cycle_timing, len.
  destruct (Z.eqb_spec (Z.of_nat (length l)) 4) as [Heq|Hne]; [|done].
  destruct Hwf. constructor; cbn; (done || lia).
Qed.

Lemma record_observation_vehicle_count_wf (s : Optimizer) (lane n : Z) :
  well_formed s -> well_formed (snd (record_observation_vehicle_count lane n s)).
Proof.
  intros Hwf. unfold record_observation_vehicle_count.
  destruct (lane <? 4); [|done].
  unfold bind, read, write, lift. cbn.
  destruct (getitem (observation_vehicle_counts s) lane) as [c|]; [|done]. cbn.
  destruct (setitem (observation_vehicle_counts s) lane (maxZ c n)) as [l'|] eqn:Hset;
    [|done]. cbn.
  apply setitem_length in Hset.
  destruct Hwf. constructor; cbn; congruence.
Qed.

Lemma after_well_formed (c : Call) (s : Optimizer) :
  well_formed s -> well_formed (after c s).
Proof.
  destruct c; unfold after; cbn [exec].
  - apply update_phase_elapsed_time_wf.
  - apply set_cycle_timing_wf.
  - apply update_observation_time_wf.
  - apply record_observation_vehicle_count_wf.
Qed.

(** Every object reachable from [__init__] by public calls is well formed. *)
Lemma run_well_formed (cs : list Call) : well_formed (run cs init).
Proof.
  unfold run. generalize init_well_formed. generalize init.
  induction cs as [|c cs IH]; intros s Hwf; cbn [foldl]; [done|].
  by apply IH, after_well_formed.
Qed.

Lemma trace_invariant (P : Optimizer -> Prop) :
  (forall c s, P s -> P (after c s)) ->
  forall cs s0, P s0 -> forall s, s ∈ trace cs s0 -> P s.
Proof.
  intros Hstep cs. induction cs as [|c cs IH]; intros s0 H0 s Hs; cbn in Hs.
  - apply list_elem_of_singleton in Hs. by subst.
  - apply elem_of_cons in Hs as [->|Hs]; [done|].
    eapply IH; [|exact Hs]. by apply Hstep.
Qed.

Lemma trace_lookup_elem (cs : list Call) (s0 s : Optimizer) (i : nat) :
  trace cs s0 !! i = Some s -> s ∈ trace cs s0.
Proof. intros H. apply list_elem_of_lookup. by exists i. Qed.

(** ** The junction-wide barrier *)

(** The mode is "controlling" exactly when all four lanes are ready. *)
Lemma all_false_at (l : list bool) (k : nat) : l !! k = Some false -> all l = false.
Proof.
  unfold all. revert k.
  induction l as [|b l IH]; intros [|k] H; cbn in *; try done.
  - by injection H as ->.
  - rewrite (IH k H). apply andb_false_r.
Qed.

Lemma barrier_step (c : Call) (s : Optimizer) :
  well_formed s /\ observation_enabled s = negb (all (lanes_ready s)) ->
  well_formed (after c s) /\
  observation_enabled (after c s) = negb (all (lanes_ready (after c s))).
Proof.
  intros [Hwf Hb]. split; [by apply after_well_formed|].
  destruct c as [p e|l|lane e|lane n]; unfold after; cbn [exec].
  - destruct (index_cases (length (phase_elapsed_times s)) p)
      as [[H _]|[[H _]|[H (k & Hk & _)]]].
    + by rewrite update_phase_elapsed_time_above.
    + by rewrite update_phase_elapsed_time_below.
    + by rewrite (update_phase_elapsed_time_slot s p e k).
  - unfold set_cycle_timing. by destruct (len l =? 4).
  - destruct (index_cases 4 lane) as [[H _]|[[H _]|[H (k & Hk & _)]]].
    + by rewrite update_observation_time_above.
    + by rewrite update_observation_time_below.
    + destruct (update_observation_time_ready s lane e k Hwf H Hk)
        as (r & Hr & -> & ->).
      destruct (Qge_bool e (inject_Z 30)), r; cbn; try done.
      destruct (all (<[k:=true]> (lanes_ready s))); [done|].
      by rewrite Hb, (all_false_at _ _ Hr).
  - unfold record_observation_vehicle_count.
    destruct (lane <? 4); [|done].
    unfold bind, read, write, lift. cbn.
    destruct (getitem (observation_vehicle_counts s) lane) as [c|]; [|done]. cbn.
    by destruct (setitem (observation_vehicle_counts s) lane (maxZ c n)).
Qed.

Lemma controlling_stays (c : Call) (s : Optimizer) :
  well_formed s -> observation_enabled s = false ->
  observation_enabled (after c s) = false.
Proof.
  intros Hwf Hobs.
  destruct c as [p e|l|lane e|lane n]; unfold after; cbn [exec].
  - destruct (index_cases (length (phase_elapsed_times s)) p)
      as [[H _]|[[H _]|[H (k & Hk & _)]]].
    + by rewrite update_phase_elapsed_time_above.
    + by rewrite update_phase_elapsed_time_below.
    + by rewrite (update_phase_elapsed_time_slot s p e k).
  - unfold set_cycle_timing. by destruct (len l =? 4).
  - destruct (index_cases 4 lane) as [[H _]|[[H _]|[H (k & Hk & _)]]].
    + by rewrite update_observation_time_above.
    + by rewrite update_observation_time_below.
    + destruct (update_observation_time_ready s lane e k Hwf H Hk)
        as (r & Hr & _ & ->).
      by destruct (_ && _).
  - unfold record_observation_vehicle_count.
    destruct (lane <? 4); [|done].
    unfold bind, read, write, lift. cbn.
    destruct (getitem (observation_vehicle_counts s) lane) as [c|]; [|done]. cbn.
    by destruct (setitem (observation_vehicle_counts s) lane (maxZ c n)).
Qed.

Lemma mode_flips_cons (cs : list Call) (s s' : Optimizer) :
  mode_flips (observation_enabled s :: (observation_enabled <$> trace cs s'))
  = ((if observation_enabled s && negb (observation_enabled s') then 1 else 0)
     + mode_flips (observation_enabled <$> trace cs s'))%nat.
Proof. by destruct cs. Qed.

Lemma mode_flips_controlling (cs : list Call) (s : Optimizer) :
  well_formed s -> observation_enabled s = false ->
  mode_flips (observation_enabled <$> trace cs s) = 0%nat.
Proof.
  revert s. induction cs as [|c cs IH]; intros s Hwf Hobs; [done|].
  cbn [trace fmap list_fmap]. rewrite mode_flips_cons, Hobs. cbn.
  apply IH; [by apply after_well_formed|by apply controlling_stays].
Qed.

Lemma mode_flips_at_most_once (cs : list Call) (s : Optimizer) :
  well_formed s -> (mode_flips (observation_enabled <$> trace cs s) <= 1)%nat.
Proof.
  revert s. induction cs as [|c cs IH]; intros s Hwf; [cbn; lia|].
  cbn [trace fmap list_fmap]. rewrite mode_flips_cons.
  pose proof (after_well_formed c s Hwf) as Hwf'.
  destruct (observation_enabled s); cbn [andb];
    [destruct (observation_enabled (after c s)) eqn:Hobs'; cbn [negb]|].
  - apply (IH _ Hwf').
  - rewrite (mode_flips_controlling cs _ Hwf' Hobs'). lia.
  - apply (IH _ Hwf').
Qed.

Lemma observation_run_invariant (us : list (Z * Q)) (s : Optimizer) :
  s ∈ trace (observation_updates us) init ->
  well_formed s /\ observation_enabled s = negb (all (lanes_ready s)).
Proof.
  apply (trace_invariant
           (fun s => well_formed s /\
                     observation_enabled s = negb (all (lanes_ready s)))).
  - intros c s'. apply barrier_step.
  - split; [apply init_well_formed|done].
Qed.

(** The barrier test of the specification: three lanes ready keep the
    junction observing, the fourth one switches it to controlling. *)
Example three_ready_then_fourth :
  observation_enabled
    (run (observation_updates [(0, 30%Q); (1, 31%Q); (2, 45%Q)]) init) = true /\
  observation_enabled
    (run (observation_updates [(0, 30%Q); (1, 31%Q); (2, 45%Q); (3, 30%Q)]) init)
  = false.
Proof. split; reflexivity. Qed.

(** A later update of a lane that is already ready rewrites the lane's
    stored observation time: after [update_observation_time(0, 30)] lane 0
    is ready with 30 seconds stored, and [update_observation_time(0, 5)]
    then leaves 5 seconds there, so the call is not a no-op. *)
Lemma ready_lane_update_rewrites_time :
  let s := run (observation_updates [(0, 30%Q)]) init in
  lanes_ready s !! 0%nat = Some true /\
  lane_observation_times s !! 0%nat = Some 30%Q /\
  lane_observation_times (snd (update_observation_time 0 5%Q s)) !! 0%nat
  = Some 5%Q /\
  snd (update_observation_time 0 5%Q s) <> s.
Proof.
  cbv zeta. repeat split; try reflexivity.
  intros Heq. apply (f_equal (fun s => lane_observation_times s !! 0%nat)) in Heq.
  vm_compute in Heq. discriminate Heq.
Qed.

(** C2 (amended).  Along every run of observation-time updates from the
    initial object: the mode goes from observing to controlling at most
    once; in every state the mode is controlling exactly when all four
    lanes are ready, so a lane that is not ready keeps the junction
    observing and the mode flips in the very step in which the last lane
    becomes ready; and an update for a lane that is already ready changes
    neither a readiness flag nor the mode: it only overwrites that lane's
    stored observation time with [min(input, 30)]. *)
Theorem observation_barrier (us : list (Z * Q)) :
  let states := trace (observation_updates us) init in
  (mode_flips (observation_enabled <$> states) <= 1)%nat /\
  (forall s, s ∈ states ->
     observation_enabled s = negb (all (lanes_ready s))) /\
  (forall s (k : nat), s ∈ states ->
     lanes_ready s !! k = Some false -> observation_enabled s = true) /\
  (forall (i : nat) s s', states !! i = Some s -> states !! S i = Some s' ->
     (observation_enabled s = true /\ observation_enabled s' = false) <->
     (all (lanes_ready s) = false /\ all (lanes_ready s') = true)) /\
  (forall s (lane : Z) (e : Q), s ∈ states -> 0 <= lane < 4 ->
     lanes_ready s !! Z.to_nat lane = Some true ->
     update_observation_time lane e s
     = (Ok tt,
        with_lane_observation_times
          (<[Z.to_nat lane:=min e (inject_Z 30)]> (lane_observation_times s)) s)).
Proof.
  intros states. split; [|split; [|split; [|split]]].
  - apply mode_flips_at_most_once, init_well_formed.
  - intros s Hs. by apply (observation_run_invariant us).
  - intros s k Hs Hk.
    destruct (observation_run_invariant us s Hs) as [_ ->].
    by rewrite (all_false_at _ _ Hk).
  - intros i s s' Hs Hs'.
    destruct (observation_run_invariant us s (trace_lookup_elem _ _ _ _ Hs))
      as [_ ->].
    destruct (observation_run_invariant us s' (trace_lookup_elem _ _ _ _ Hs'))
      as [_ ->].
    destruct (all (lanes_ready s)), (all (lanes_ready s')); cbn; intuition.
  - intros s lane e Hs Hlane Hready.
    destruct (observation_run_invariant us s Hs) as [Hwf _].
    assert (Hk : index 4 lane = Some (Z.to_nat lane)) by (apply index_inside; lia).
    destruct (update_observation_time_slot s lane e _ Hwf (proj2 Hlane) Hk)
      as (r & Hr & ->).
    rewrite Hready in Hr. injection Hr as <-.
    by rewrite andb_false_r.
Qed.

(** ** Elapsed time of a lane *)

(** The elapsed-time update stores an absolute value: after
    [update_phase_elapsed_time(0, 10)] a call
    [update_phase_elapsed_time(0, 5)] lowers the stored value from 10 to 5
    although no cycle was installed in between. *)
Lemma elapsed_update_can_decrease :
  let s1 := after (UpdatePhaseElapsedTime 0 10%Q) init in
  let s2 := after (UpdatePhaseElapsedTime 0 5%Q) s1 in
  phase_elapsed_times s1 !! 0%nat = Some 10%Q /\
  phase_elapsed_times s2 !! 0%nat = Some 5%Q /\
  cycle_number s2 = cycle_number s1 /\
  ~ (10 <= 5)%Q.
Proof. cbv zeta. repeat split. intros H. by vm_compute in H. Qed.

(** The same happens in the lane worker.  Lane 1 has spent 450 frames (30
    seconds) observing; on its first frame after the junction switched to
    controlling the worker restarts its frame counter, and the value it
    stores for the lane drops from 30 to 1/15 while the cycle counter
    stays at 0. *)
Lemma frame_clock_restarts_elapsed :
  let o := run (observation_updates [(0, 30%Q); (1, 30%Q); (2, 30%Q); (3, 30%Q)]
                ++ [UpdatePhaseElapsedTime 1 30%Q]) init in
  let d := VehicleDetector.mkDetector 1 450 (Some 100%Q) 30%Q [] [] in
  let '(r, d', o') := VehicleDetector.process_frame_clock 131%Q d (Some o) in
  observation_enabled o = false /\
  phase_elapsed_times o !! 1%nat = Some 30%Q /\
  r = Ok tt /\
  VehicleDetector.frame_count d' = 1 /\
  (phase_elapsed_times <$> o') = Some [0%Q; (1 # 15)%Q; 0%Q; 0%Q] /\
  (cycle_number <$> o') = Some (cycle_number o).
Proof. vm_compute. repeat split. Qed.

(** C4 (amended).  For a lane in 0..3 the elapsed-time update returns
    normally and overwrites the lane's stored elapsed time with the value
    supplied, leaving the other lanes' values alone; the stored value is
    therefore at least its previous value exactly when the supplied value
    is. *)
Theorem update_phase_elapsed_time_overwrites (s : Optimizer) (lane : Z) (e : Q) :
  well_formed s -> 0 <= lane < 4 ->
  let s' := snd (update_phase_elapsed_time lane e s) in
  exists old : Q,
    phase_elapsed_times s !! Z.to_nat lane = Some old /\
    update_phase_elapsed_time lane e s
    = (Ok tt,
       with_phase_elapsed_times (<[Z.to_nat lane:=e]> (phase_elapsed_times s)) s) /\
    phase_elapsed_times s' !! Z.to_nat lane = Some e /\
    (forall other : nat, other <> Z.to_nat lane ->
       phase_elapsed_times s' !! other = phase_elapsed_times s !! other) /\
    ((old <= e)%Q <->
     exists new : Q,
       phase_elapsed_times s' !! Z.to_nat lane = Some new /\ (old <= new)%Q).
Proof.
  intros Hwf Hlane s'.
  pose proof (len_4 _ (wf_elapsed _ Hwf)) as Hlen.
  destruct (getitem_inside (phase_elapsed_times s) lane) as (old & Hold & _);
    [lia|].
  assert (Hcall : update_phase_elapsed_time lane e s
    = (Ok tt,
       with_phase_elapsed_times (<[Z.to_nat lane:=e]> (phase_elapsed_times s)) s)).
  { apply update_phase_elapsed_time_slot; [lia|].
    apply index_inside. unfold len in Hlen. lia. }
  assert (Hnew : phase_elapsed_times s' !! Z.to_nat lane = Some e).
  { subst s'. rewrite Hcall. cbn. apply list_lookup_insert_eq.
    by apply lookup_lt_Some in Hold. }
  exists old. repeat (split; [done|]). split.
  - intros other Hne. subst s'. rewrite Hcall. cbn.
    by apply list_lookup_insert_ne.
  - rewrite Hnew. split.
    + intros Hle. by exists e.
    + by intros (new & [= <-] & Hle).
Qed.

(** ** Lane identifiers outside 0..3 *)

(** Lane 4 is not rejected: the queries answer RED and 0, and the update
    returns normally. *)
Lemma lane_four_not_rejected :
  get_signal_state init 4 = Ok RED /\
  get_green_time init 4 = Ok 0%Q /\
  update_observation_time 4 30%Q init = (Ok tt, init) /\
  is_raise (get_signal_state init 4) = false.
Proof. repeat split. Qed.

(** Identifiers -4..-1 are read from the back of the arrays: an
    observation tick for lane -1 lands in lane 3's slot. *)
Lemma negative_lane_reaches_other_slot :
  fst (update_observation_time (-1) 7%Q init) = Ok tt /\
  lane_observation_times (snd (update_observation_time (-1) 7%Q init))
  = [0%Q; 0%Q; 0%Q; 7%Q].
Proof. split; reflexivity. Qed.

Lemma record_observation_vehicle_count_above (s : Optimizer) (lane n : Z) :
  4 <= lane -> record_observation_vehicle_count lane n s = (Ok tt, s).
Proof.
  intros H. unfold record_observation_vehicle_count.
  by destruct (Z.ltb_spec lane 4); [lia|].
Qed.

Lemma record_observation_vehicle_count_below (s : Optimizer) (lane n : Z) :
  well_formed s -> lane < -4 ->
  record_observation_vehicle_count lane n s = (Raise IndexError, s).
Proof.
  intros Hwf H. unfold record_observation_vehicle_count.
  destruct (Z.ltb_spec lane 4); [|lia].
  unfold bind, read, lift. cbn. rewrite getitem_below; [done|].
  rewrite (len_4 _ (wf_obs_counts _ Hwf)). lia.
Qed.

(** C5 (amended).  On a well-formed object a lane identifier of 4 or more
    is not rejected: the signal-state query answers RED, the
    remaining-green query answers 0, and the three updates return
    normally with the object unchanged, so no lane's slot is read or
    written.  An identifier below -4 makes each of the five operations
    raise [IndexError] and leaves the object unchanged. *)
Theorem lane_out_of_range (s : Optimizer) (lane : Z) (e : Q) (n : Z) :
  well_formed s ->
  (4 <= lane ->
     get_signal_state s lane = Ok RED /\
     get_green_time s lane = Ok 0%Q /\
     update_observation_time lane e s = (Ok tt, s) /\
     record_observation_vehicle_count lane n s = (Ok tt, s) /\
     update_phase_elapsed_time lane e s = (Ok tt, s)) /\
  (lane < -4 ->
     get_signal_state s lane = Raise IndexError /\
     get_green_time s lane = Raise IndexError /\
     update_observation_time lane e s = (Raise IndexError, s) /\
     record_observation_vehicle_count lane n s = (Raise IndexError, s) /\
     update_phase_elapsed_time lane e s = (Raise IndexError, s)).
Proof.
  intros Hwf.
  pose proof (len_4 _ (wf_phases _ Hwf)) as Hp.
  pose proof (len_4 _ (wf_timings _ Hwf)) as Ht.
  pose proof (len_4 _ (wf_elapsed _ Hwf)) as He.
  split; intros Hlane.
  - split; [|split; [|split; [|split]]].
    + unfold get_signal_state. rewrite Hp.
      by destruct (Z.geb_spec lane 4); [|lia].
    + unfold get_green_time. rewrite Ht.
      by destruct (Z.geb_spec lane 4); [|lia].
    + by apply update_observation_time_above.
    + by apply record_observation_vehicle_count_above.
    + apply update_phase_elapsed_time_above. lia.
  - split; [|split; [|split; [|split]]].
    + unfold get_signal_state. rewrite Hp, Ht.
      destruct (Z.geb_spec lane 4); [lia|].
      destruct (Z.ltb_spec lane 4); [|lia].
      rewrite getitem_below; [done|lia].
    + unfold get_green_time. rewrite Ht.
      destruct (Z.geb_spec lane 4); [lia|].
      rewrite getitem_below; [done|lia].
    + by apply update_observation_time_below.
    + by apply record_observation_vehicle_count_below.
    + apply update_phase_elapsed_time_below. lia.
Qed.

(** ** Crossing-line counter *)

Section Counter.
Import VehicleDetector.
Variable lines : list Line.

Lemma in_band_iff (x0 y x1 y1 cx cy : Z) :
  in_band (x0, y, x1, y1) cx cy = true
  <-> x0 < cx < x1 /\ y - 15 < cy < y + 15.
Proof.
  unfold in_band. rewrite !andb_true_iff, !Z.ltb_lt. lia.
Qed.

(** One tracked box: nothing happens for an id already counted; an id
    not yet counted is appended once if some line's band holds the
    centre. *)
Lemma count_crossing_eq (counted : list Z) (t : Track) :
  count_crossing lines counted t
  = if bool_decide (track_id t ∈ counted) then counted
    else if existsb (fun limit => in_band limit (centre t).1 (centre t).2) lines
         then counted ++ [track_id t]
         else counted.
Proof.
  unfold count_crossing. destruct (centre t) as [cx cy]. cbn [fst snd].
  revert counted. induction lines as [|limit ls IH]; intros counted.
  - cbn. by case_bool_decide.
  - cbn [foldl existsb]. rewrite IH. clear IH.
    destruct (in_band limit cx cy); cbn [andb orb]; [|done].
    destruct (bool_decide (track_id t ∈ counted)) eqn:Hin; cbn [negb].
    + by rewrite Hin.
    + rewrite bool_decide_eq_true_2; [done|].
      apply elem_of_app. right. by apply list_elem_of_singleton.
Qed.

Lemma count_crossing_prefix (counted : list Z) (t : Track) :
  counted `prefix_of` count_crossing lines counted t.
Proof.
  rewrite count_crossing_eq.
  case_bool_decide; [done|].
  destruct (existsb _ lines); [by apply prefix_app_r|done].
Qed.

Lemma count_crossing_NoDup (counted : list Z) (t : Track) :
  NoDup counted -> NoDup (count_crossing lines counted t).
Proof.
  intros Hnd. rewrite count_crossing_eq.
  case_bool_decide as Hin; [done|].
  destruct (existsb _ lines); [|done].
  apply NoDup_app. split; [done|]. split; [|apply NoDup_singleton].
  intros x Hx Hx'. apply list_elem_of_singleton in Hx'. by subst.
Qed.

Lemma count_frame_prefix (counted : list Z) (frame : list Track) :
  counted `prefix_of` count_frame lines counted frame.
Proof.
  unfold count_frame. revert counted.
  induction frame as [|t frame IH]; intros counted; cbn [foldl]; [done|].
  etrans; [apply (count_crossing_prefix counted t)|apply IH].
Qed.

Lemma count_frame_NoDup (counted : list Z) (frame : list Track) :
  NoDup counted -> NoDup (count_frame lines counted frame).
Proof.
  unfold count_frame. revert counted.
  induction frame as [|t frame IH]; intros counted Hnd; cbn [foldl]; [done|].
  by apply IH, count_crossing_NoDup.
Qed.

Lemma count_frames_NoDup (counted : list Z) (frames : list (list Track)) :
  NoDup counted -> NoDup (foldl (count_frame lines) counted frames).
Proof.
  revert counted.
  induction frames as [|f frames IH]; intros counted Hnd; cbn [foldl]; [done|].
  by apply IH, count_frame_NoDup.
Qed.

Lemma crossing_exists (cx cy : Z) :
  existsb (fun limit => in_band limit cx cy) lines = true
  <-> exists limit, limit ∈ lines /\ in_band limit cx cy = true.
Proof.
  rewrite existsb_exists. split; intros (limit & Hl & Hb); exists limit;
    (split; [by apply list_elem_of_In|done]).
Qed.

Lemma count_crossing_elem (counted : list Z) (t : Track) (id : Z) :
  id ∈ count_crossing lines counted t
  <-> id ∈ counted \/
      (track_id t = id /\
       exists limit, limit ∈ lines /\
                     in_band limit (centre t).1 (centre t).2 = true).
Proof.
  rewrite count_crossing_eq, <- crossing_exists.
  case_bool_decide as Hin.
  - split; [by left|]. intros [H|[<- _]]; done.
  - destruct (existsb _ lines).
    + rewrite elem_of_app, list_elem_of_singleton. split.
      * intros [H| ->]; [by left|by right].
      * intros [H|[<- _]]; [by left|by right].
    + split; [by left|]. intros [H|[_ Hf]]; done.
Qed.

Lemma count_frame_elem (frame : list Track) : forall (counted : list Z) (id : Z),
  id ∈ count_frame lines counted frame
  <-> id ∈ counted \/
      exists t, t ∈ frame /\ track_id t = id /\
        exists limit, limit ∈ lines /\
                      in_band limit (centre t).1 (centre t).2 = true.
Proof.
  unfold count_frame.
  induction frame as [|t frame IH]; intros counted id; cbn [foldl].
  - split; [by left|]. intros [H|(t & Ht & _)]; [done|].
    by apply elem_of_nil in Ht.
  - rewrite IH, count_crossing_elem. split.
    + intros [[H|[Hid Hb]]|(t' & Ht' & Hid & Hb)].
      * by left.
      * right. exists t. split; [apply list_elem_of_here|done].
      * right. exists t'. split; [by apply list_elem_of_further|done].
    + intros [H|(t' & Ht' & Hid & Hb)]; [by left; left|].
      apply elem_of_cons in Ht' as [->|Ht'].
      * left. right. done.
      * right. by exists t'.
Qed.

Lemma count_frames_elem (frames : list (list Track)) :
  forall (counted : list Z) (id : Z),
  id ∈ foldl (count_frame lines) counted frames
  <-> id ∈ counted \/
      exists frame t, frame ∈ frames /\ t ∈ frame /\ track_id t = id /\
        exists limit, limit ∈ lines /\
                      in_band limit (centre t).1 (centre t).2 = true.
Proof.
  induction frames as [|f frames IH]; intros counted id; cbn [foldl].
  - split; [by left|]. intros [H|(f & t & Hf & _)]; [done|].
    by apply elem_of_nil in Hf.
  - rewrite IH, count_frame_elem. split.
    + intros [[H|(t & Ht & Hid & Hb)]|(f' & t & Hf' & Ht & Hid & Hb)].
      * by left.
      * right. exists f, t. split; [apply list_elem_of_here|done].
      * right. exists f', t. split; [by apply list_elem_of_further|done].
    + intros [H|(f' & t & Hf' & Ht & Hid & Hb)]; [by left; left|].
      apply elem_of_cons in Hf' as [->|Hf'].
      * left. right. by exists t.
      * right. by exists f', t.
Qed.

(** A box whose centre is exactly 15 pixels below the line, with its
    centre's x strictly between the line ends and an id not yet counted,
    is not credited: the band is open. *)
Lemma band_edge_not_counted :
  centre (100, 211, 140, 251, 7) = (120, 231) /\
  96 < 120 < 384 /\ 216 - 15 <= 231 <= 216 + 15 /\
  (7 ∉ @nil Z) /\
  count_frame [(96, 216, 384, 216)] [] [(100, 211, 140, 251, 7)] = [].
Proof.
  split; [reflexivity|]. split; [lia|]. split; [lia|].
  split; [apply not_elem_of_nil|reflexivity].
Qed.

(** C7 (amended).  Let [counted] be the list of credited ids after any
    sequence of frames, starting from the empty list.  It holds no id
    twice, and it holds exactly the ids of the boxes that lay, in some
    frame, in the band of at least one of the lane's lines; the band is
    open: [x_start < cx < x_end] and [y - 15 < cy < y + 15], so a centre
    exactly 15 pixels from the line is outside.  For one tracked box:
    an id already in [counted] changes nothing; an id not in [counted]
    whose centre lies in some band is appended, the count growing by
    exactly 1; an id in no band changes nothing.  For a whole frame:
    the new list is [counted] followed by the newly credited ids, each
    once and none of them counted before, and an id is in the new list
    exactly when it was counted already or some box of the frame with
    that id lies in some band. *)
Theorem crossing_counted_once (frames : list (list Track)) (t : Track)
    (frame : list Track) :
  let counted := foldl (count_frame lines) [] frames in
  let cx := (centre t).1 in
  let cy := (centre t).2 in
  NoDup counted /\
  (track_id t ∈ counted -> count_crossing lines counted t = counted) /\
  (track_id t ∉ counted ->
     (exists limit, limit ∈ lines /\ in_band limit cx cy = true) ->
     count_crossing lines counted t = counted ++ [track_id t] /\
     len (count_crossing lines counted t) = len counted + 1) /\
  (track_id t ∉ counted ->
     (forall limit, limit ∈ lines -> in_band limit cx cy = false) ->
     count_crossing lines counted t = counted) /\
  counted `prefix_of` count_frame lines counted frame /\
  NoDup (count_frame lines counted frame) /\
  (forall x0 y x1 y1 : Z,
     in_band (x0, y, x1, y1) cx cy = true
     <-> x0 < cx < x1 /\ y - 15 < cy < y + 15) /\
  (forall id : Z,
     id ∈ counted
     <-> exists f b, f ∈ frames /\ b ∈ f /\ track_id b = id /\
           exists limit, limit ∈ lines /\
                         in_band limit (centre b).1 (centre b).2 = true) /\
  (forall id : Z,
     id ∈ count_frame lines counted frame
     <-> id ∈ counted \/
         exists b, b ∈ frame /\ track_id b = id /\
           exists limit, limit ∈ lines /\
                         in_band limit (centre b).1 (centre b).2 = true) /\
  (exists news : list Z,
     count_frame lines counted frame = counted ++ news /\
     NoDup news /\
     (forall id : Z, id ∈ news -> id ∉ counted) /\
     len (count_frame lines counted frame) = len counted + len news).
Proof.
  intros counted cx cy. subst cx cy.
  assert (Hnd : NoDup counted) by (apply count_frames_NoDup, NoDup_nil_2).
  split; [done|].
  split; [|split; [|split; [|split; [|split; [|split; [|split; [|split]]]]]]].
  - intros Hin. rewrite count_crossing_eq. by rewrite bool_decide_eq_true_2.
  - intros Hnin (limit & Hl & Hband). rewrite count_crossing_eq.
    rewrite bool_decide_eq_false_2 by done.
    assert (existsb (fun limit => in_band limit (centre t).1 (centre t).2) lines
            = true) as ->.
    { apply existsb_exists. exists limit. split; [|done].
      by apply list_elem_of_In. }
    split; [done|]. unfold len. rewrite length_app. cbn. lia.
  - intros Hnin Hnone. rewrite count_crossing_eq.
    rewrite bool_decide_eq_false_2 by done.
    destruct (existsb _ lines) eqn:Hex; [|done].
    apply existsb_exists in Hex as (limit & Hl & Hband).
    apply list_elem_of_In in Hl. by rewrite (Hnone limit Hl) in Hband.
  - apply count_frame_prefix.
  - by apply count_frame_NoDup.
  - intros. apply in_band_iff.
  - intros id. unfold counted. rewrite count_frames_elem. split.
    + intros [H|H]; [by apply elem_of_nil in H|done].
    + intros H. by right.
  - intros id. apply count_frame_elem.
  - destruct (count_frame_prefix counted frame) as [news Hnews].
    pose proof (count_frame_NoDup counted frame Hnd) as Hnd'.
    rewrite Hnews in Hnd'. apply NoDup_app in Hnd' as (_ & Hdisj & Hnews').
    exists news. split; [done|]. split; [done|]. split.
    + intros id Hin Hc. by apply (Hdisj id).
    + rewrite Hnews. unfold len. rewrite length_app. lia.
Qed.
End Counter.

(** ** Drop-oldest queues *)

Section BoundedQueue.
Context {A : Type}.
Implicit Types (q : Queue.t A) (x : A) (xs : list A).

Lemma last_n_short (n : nat) (l : list A) :
  (length l <= n)%nat -> last_n n l = l.
Proof.
  intros H. unfold last_n. by replace (length l - n)%nat with 0%nat by lia.
Qed.

Lemma last_n_length (n : nat) (l : list A) :
  length (last_n n l) = Nat.min n (length l).
Proof. unfold last_n. rewrite length_drop. lia. Qed.

Lemma last_n_absorb (n : nat) (a b : list A) :
  last_n n (last_n n a ++ b) = last_n n (a ++ b).
Proof.
  destruct (Nat.le_gt_cases (length a) n) as [Hle|Hgt];
    [by rewrite (last_n_short n a)|].
  unfold last_n. rewrite !length_app, length_drop.
  replace (length a - (length a - n) + length b - n)%nat
    with (length b) by lia.
  replace (length a + length b - n)%nat
    with ((length a - n) + length b)%nat by lia.
  rewrite <- drop_drop. by rewrite (drop_app_le a b) by lia.
Qed.

Lemma push_bounded q x :
  0 < Queue.maxsize q -> Queue.qsize q <= Queue.maxsize q ->
  Queue.push q x
  = (Ok tt,
     Queue.mk (Queue.maxsize q)
       (if Queue.qsize q =? Queue.maxsize q
        then drop 1 (Queue.items q) ++ [x]
        else Queue.items q ++ [x])).
Proof.
  intros Hpos Hle. destruct q as [n l].
  unfold Queue.push, Queue.put_nowait, Queue.get_nowait, Queue.qsize, len in *.
  cbn [Queue.maxsize Queue.items] in *.
  destruct (Z.ltb_spec 0 n); [|lia]. cbn [andb].
  destruct (Z.geb_spec (Z.of_nat (length l)) n) as [Hfull|Hroom].
  - destruct (Z.eqb_spec (Z.of_nat (length l)) n); [|lia].
    destruct l as [|y rest]; [cbn in *; lia|].
    cbn [Queue.maxsize Queue.items length drop] in *.
    destruct (Z.ltb_spec 0 n); [|lia]. cbn [andb].
    by destruct (Z.geb_spec (Z.of_nat (length rest)) n); [lia|].
  - by destruct (Z.eqb_spec (Z.of_nat (length l)) n); [lia|].
Qed.

Lemma push_keeps_last q x :
  0 < Queue.maxsize q -> Queue.qsize q <= Queue.maxsize q ->
  Queue.push q x
  = (Ok tt,
     Queue.mk (Queue.maxsize q)
       (last_n (Z.to_nat (Queue.maxsize q)) (Queue.items q ++ [x]))).
Proof.
  intros Hpos Hle. rewrite push_bounded by done. do 2 f_equal.
  unfold Queue.qsize, len in *.
  destruct (Z.eqb_spec (Z.of_nat (length (Queue.items q))) (Queue.maxsize q))
    as [Heq|Hne].
  - unfold last_n. rewrite length_app. cbn [length].
    replace (length (Queue.items q) + 1 - Z.to_nat (Queue.maxsize q))%nat
      with 1%nat by lia.
    rewrite drop_app_le; [done|lia].
  - rewrite last_n_short; [done|]. rewrite length_app. cbn [length]. lia.
Qed.

Lemma push_all_keeps_last xs : forall q,
  0 < Queue.maxsize q -> Queue.qsize q <= Queue.maxsize q ->
  Queue.push_all q xs
  = (Ok tt,
     Queue.mk (Queue.maxsize q)
       (last_n (Z.to_nat (Queue.maxsize q)) (Queue.items q ++ xs))).
Proof.
  induction xs as [|x xs IH]; intros q Hpos Hle.
  - cbn [Queue.push_all]. rewrite app_nil_r, last_n_short.
    + by destruct q.
    + unfold Queue.qsize, len in Hle. lia.
  - cbn [Queue.push_all]. rewrite push_keeps_last by done.
    rewrite IH; cbn [Queue.maxsize Queue.items]; [|done|].
    + by rewrite last_n_absorb, <- app_assoc.
    + unfold Queue.qsize, len. cbn [Queue.items].
      rewrite last_n_length. lia.
Qed.

(** C8.  For a queue created with a positive capacity and holding no
    more than that: a push always returns normally; on a full queue it
    drops the oldest item and appends the new one, otherwise it just
    appends; after any run of pushes the queue holds the most recent
    items up to its capacity and never more.  So pushing N+2 items into
    an empty queue of capacity N leaves the last N of them. *)
Theorem queue_drop_oldest q xs :
  0 < Queue.maxsize q -> Queue.qsize q <= Queue.maxsize q ->
  (forall x,
     Queue.push q x
     = (Ok tt,
        Queue.mk (Queue.maxsize q)
          (if Queue.qsize q =? Queue.maxsize q
           then drop 1 (Queue.items q) ++ [x]
           else Queue.items q ++ [x]))) /\
  Queue.push_all q xs
  = (Ok tt,
     Queue.mk (Queue.maxsize q)
       (last_n (Z.to_nat (Queue.maxsize q)) (Queue.items q ++ xs))) /\
  Queue.qsize (snd (Queue.push_all q xs)) <= Queue.maxsize q /\
  (Queue.items q = [] -> length xs = (Z.to_nat (Queue.maxsize q) + 2)%nat ->
     Queue.items (snd (Queue.push_all q xs)) = drop 2 xs /\
     length (Queue.items (snd (Queue.push_all q xs)))
     = Z.to_nat (Queue.maxsize q)).
Proof.
  intros Hpos Hle.
  split; [intros x; by apply push_bounded|].
  rewrite push_all_keeps_last by done. cbn [snd Queue.items].
  split; [done|]. split.
  - unfold Queue.qsize, len. cbn [Queue.items]. rewrite last_n_length. lia.
  - intros -> Hlen. cbn [app]. unfold last_n. rewrite Hlen.
    replace (Z.to_nat (Queue.maxsize q) + 2 - Z.to_nat (Queue.maxsize q))%nat
      with 2%nat by lia.
    split; [done|]. rewrite length_drop. lia.
Qed.
End BoundedQueue.

(** The two queues of the application, capacities 2 and 5, on four and
    seven pushes. *)
Example frame_queue_keeps_two :
  Queue.push_all Queue.frame_queue [1; 2; 3; 4] = (Ok tt, Queue.mk 2 [3; 4]).
Proof. reflexivity. Qed.

Example data_queue_keeps_five :
  Queue.push_all Queue.data_queue [1; 2; 3; 4; 5; 6; 7]
  = (Ok tt, Queue.mk 5 [3; 4; 5; 6; 7]).
Proof. reflexivity. Qed.

(** ** The statements at concrete inputs *)

Lemma signal_state_pure_function_witness :
  well_formed (controlling_at 31%Q) /\ 0 <= 0 < 4 /\
  VehicleDetector.get_signal_state (Some (controlling_at 31%Q)) 0 = YELLOW.
Proof.
  assert (Hwf : well_formed (controlling_at 31%Q)) by (by constructor).
  assert (Hlane : 0 <= 0 < 4) by lia.
  split; [exact Hwf|]. split; [exact Hlane|].
  destruct (signal_state_pure_function (controlling_at 31%Q) 0 Hwf Hlane)
    as (g & e & Hg & He & Hst & _).
  injection Hg as <-. injection He as <-. exact Hst.
Defined.

Lemma predict_bucket_table_witness :
  0 <= 2 < 4 /\
  predict_next_cycle_timings (<[0:=0]> (<[1:=4]> (<[2:=9]> (<[3:=20]> ∅))))
    !! 2%nat = Some 25.
Proof.
  assert (Hlane : 0 <= 2 < 4) by lia.
  split; [exact Hlane|].
  destruct (predict_bucket_table
              (<[0:=0]> (<[1:=4]> (<[2:=9]> (<[3:=20]> ∅)))) 2 Hlane)
    as (_ & Hat & _).
  exact Hat.
Defined.

Lemma set_cycle_timing_installs_witness :
  length [15; 25; 0; 55] = 4%nat /\
  current_cycle_timings (snd (set_cycle_timing [15; 25; 0; 55] init))
  = [15; 25; 0; 55] /\
  cycle_number (snd (set_cycle_timing [15; 25; 0; 55] init)) = cycle_number init + 1.
Proof.
  assert (Hlen : length [15; 25; 0; 55] = 4%nat) by reflexivity.
  split; [exact Hlen|].
  destruct (set_cycle_timing_installs init [15; 25; 0; 55] Hlen)
    as (_ & Htim & _ & Hnum).
  split; [exact Htim|exact Hnum].
Defined.

Lemma set_cycle_timing_wrong_length_witness :
  length [40; 20; 10] <> 4%nat /\
  set_cycle_timing [40; 20; 10] init = (Ok tt, init) /\
  length (current_cycle_timings (snd (set_cycle_timing [40; 20; 10] init))) = 4%nat.
Proof.
  assert (Hlen : length [40; 20; 10] <> 4%nat) by (cbn; lia).
  split; [exact Hlen|].
  destruct (set_cycle_timing_wrong_length init [40; 20; 10]) as [Hnoop Hkeep].
  split; [exact (Hnoop Hlen)|exact (Hkeep eq_refl)].
Defined.

Lemma observation_time_capped_witness :
  well_formed init /\ 0 <= 2 < 4 /\ (0 <= 45)%Q /\
  lane_observation_times (snd (update_observation_time 2 45%Q init)) !! 2%nat
  = Some (Qmin 45%Q 30%Q).
Proof.
  assert (Hlane : 0 <= 2 < 4) by lia.
  assert (Hpos : (0 <= 45)%Q) by (by vm_compute).
  split; [exact init_well_formed|]. split; [exact Hlane|]. split; [exact Hpos|].
  destruct (observation_time_capped init 2 45%Q init_well_formed Hlane Hpos)
    as (_ & Hstored & _).
  exact Hstored.
Defined.

Lemma observation_barrier_witness :
  let s := run (observation_updates [(0, 30%Q)]) init in
  lanes_ready s !! 0%nat = Some true /\
  update_observation_time 0 5%Q s
  = (Ok tt,
     with_lane_observation_times
       (<[0%nat:=min 5%Q (inject_Z 30)]> (lane_observation_times s)) s).
Proof.
  cbv zeta.
  assert (Hready : lanes_ready (run (observation_updates [(0, 30%Q)]) init)
                   !! Z.to_nat 0 = Some true) by reflexivity.
  split; [exact Hready|].
  destruct (observation_barrier [(0, 30%Q)]) as (_ & _ & _ & _ & Hnoop).
  apply (Hnoop _ 0 5%Q); [|lia|exact Hready].
  apply list_elem_of_lookup. by exists 1%nat.
Defined.

Lemma update_phase_elapsed_time_overwrites_witness :
  well_formed init /\ 0 <= 0 < 4 /\
  phase_elapsed_times (snd (update_phase_elapsed_time 0 10%Q init)) !! 0%nat
  = Some 10%Q.
Proof.
  assert (Hlane : 0 <= 0 < 4) by lia.
  split; [exact init_well_formed|]. split; [exact Hlane|].
  destruct (update_phase_elapsed_time_overwrites init 0 10%Q init_well_formed Hlane)
    as (old & _ & _ & Hnew & _).
  exact Hnew.
Defined.

Lemma lane_out_of_range_witness :
  well_formed init /\ 4 <= 7 /\ -5 < -4 /\
  get_signal_state init 7 = Ok RED /\
  update_observation_time (-5) 1%Q init = (Raise IndexError, init).
Proof.
  assert (Habove : 4 <= 7) by lia.
  assert (Hbelow : -5 < -4) by lia.
  split; [exact init_well_formed|]. split; [exact Habove|]. split; [exact Hbelow|].
  destruct (lane_out_of_range init 7 1%Q 0 init_well_formed) as [Ha _].
  destruct (lane_out_of_range init (-5) 1%Q 0 init_well_formed) as [_ Hb].
  destruct (Ha Habove) as (Hst & _).
  destruct (Hb Hbelow) as (_ & _ & Hobs & _).
  split; [exact Hst|exact Hobs].
Defined.

(** Overlapping bands credit a box once: the centre (120, 220) lies in
    the bands of both sample lines. *)
Example overlapping_bands_count_once :
  VehicleDetector.count_frame sample_lines [] [(100, 200, 140, 240, 7)] = [7].
Proof. reflexivity. Qed.

Lemma crossing_counted_once_witness :
  8 ∈ VehicleDetector.count_frame sample_lines
        (foldl (VehicleDetector.count_frame sample_lines) []
           [[(100, 200, 140, 240, 7)]])
        [(100, 205, 140, 245, 7); (200, 210, 260, 250, 8)] /\
  VehicleDetector.count_crossing sample_lines
    (foldl (VehicleDetector.count_frame sample_lines) []
       [[(100, 200, 140, 240, 7)]])
    (200, 210, 260, 250, 8)
  = [7; 8].
Proof.
  destruct (crossing_counted_once sample_lines [[(100, 200, 140, 240, 7)]]
              (200, 210, 260, 250, 8)
              [(100, 205, 140, 245, 7); (200, 210, 260, 250, 8)])
    as (_ & _ & Hadd & _ & _ & _ & _ & _ & Hframe & _).
  split.
  - apply Hframe. right. exists (200, 210, 260, 250, 8).
    split; [apply list_elem_of_further, list_elem_of_here|].
    split; [reflexivity|].
    exists (96, 216, 384, 216). split; [apply list_elem_of_here|reflexivity].
  - apply Hadd.
    + intros Hin. apply list_elem_of_singleton in Hin. discriminate Hin.
    + exists (96, 216, 384, 216). split; [|reflexivity].
      apply list_elem_of_here.
Defined.

Lemma queue_drop_oldest_witness :
  0 < Queue.maxsize (@Queue.frame_queue Z) /\
  Queue.qsize (@Queue.frame_queue Z) <= Queue.maxsize (@Queue.frame_queue Z) /\
  Queue.items (snd (Queue.push_all Queue.frame_queue [1; 2; 3; 4])) = [3; 4].
Proof.
  assert (Hpos : 0 < Queue.maxsize (@Queue.frame_queue Z)) by (cbn; lia).
  assert (Hle : Queue.qsize (@Queue.frame_queue Z)
                <= Queue.maxsize (@Queue.frame_queue Z)) by (by vm_compute).
  split; [exact Hpos|]. split; [exact Hle|].
  destruct (queue_drop_oldest Queue.frame_queue [1; 2; 3; 4] Hpos Hle)
    as (_ & _ & _ & Hlast).
  destruct (Hlast eq_refl eq_refl) as [Hitems _].
  exact Hitems.
Defined.

(** ** What each mutator can touch *)

Lemma update_phase_elapsed_time_shape (s : Optimizer) (p : Z) (e : Q) :
  exists times : list Q,
    snd (update_phase_elapsed_time p e s) = with_phase_elapsed_times times s /\
    length times = length (phase_elapsed_times s).
Proof.
  unfold update_phase_elapsed_time, bind, read, write, lift. cbn.
  destruct (p <? len (phase_elapsed_times s));
    [|exists (phase_elapsed_times s); by destruct s].
  destruct (setitem (phase_elapsed_times s) p e) as [l|] eqn:Hset; cbn.
  - exists l. split; [done|]. by apply setitem_length in Hset.
  - exists (phase_elapsed_times s). by destruct s.
Qed.

Lemma set_cycle_timing_shape (s : Optimizer) (l : list Z) :
  snd (set_cycle_timing l s)
  = if len l =? 4
    then with_cycle_number (cycle_number s + 1)
           (with_phase_elapsed_times [0%Q; 0%Q; 0%Q; 0%Q]
              (with_current_cycle_timings l s))
    else s.
Proof. unfold set_cycle_timing. by destruct (len l =? 4). Qed.

Lemma update_observation_time_shape (s : Optimizer) (lane : Z) (e : Q) :
  exists (times : list Q) (ready : list bool) (enabled : bool),
    snd (update_observation_time lane e s)
    = with_observation_enabled enabled
        (with_lanes_ready ready (with_lane_observation_times times s)).
Proof.
  assert (Hs : exists (times : list Q) (ready : list bool) (enabled : bool),
    s = with_observation_enabled enabled
          (with_lanes_ready ready (with_lane_observation_times times s))).
  { exists (lane_observation_times s), (lanes_ready s), (observation_enabled s).
    by destruct s. }
  unfold update_observation_time.
  destruct (lane <? 4); [|done].
  unfold bind, read, write, lift, ret, raise. cbn.
  destruct (setitem (lane_observation_times s) lane _) as [times|]; cbn; [|done].
  destruct (Qge_bool e _); cbn;
    [|by exists times, (lanes_ready s), (observation_enabled s)].
  destruct (getitem (lanes_ready s) lane) as [[|]|]; cbn;
    try by exists times, (lanes_ready s), (observation_enabled s).
  destruct (setitem (lanes_ready s) lane true) as [ready|]; cbn;
    [|by exists times, (lanes_ready s), (observation_enabled s)].
  destruct (getitem (observation_vehicle_counts s) lane); cbn;
    [|by exists times, ready, (observation_enabled s)].
  destruct (all ready); cbn;
    [by exists times, ready, false|by exists times, ready, (observation_enabled s)].
Qed.

Lemma record_observation_vehicle_count_shape (s : Optimizer) (lane n : Z) :
  exists counts : list Z,
    snd (record_observation_vehicle_count lane n s)
    = with_observation_vehicle_counts counts s.
Proof.
  unfold record_observation_vehicle_count.
  destruct (lane <? 4); [|exists (observation_vehicle_counts s); by destruct s].
  unfold bind, read, write, lift, ret, raise. cbn.
  destruct (getitem (observation_vehicle_counts s) lane) as [c|]; cbn;
    [|exists (observation_vehicle_counts s); by destruct s].
  destruct (setitem (observation_vehicle_counts s) lane (maxZ c n)) as [l|]; cbn;
    [by exists l|exists (observation_vehicle_counts s); by destruct s].
Qed.

(** ** Leaving the observation phase *)

Lemma four_slots {A} (l : list A) :
  length l = 4%nat -> exists a b c d, l = [a; b; c; d].
Proof.
  destruct l as [|a [|b [|c [|d [|]]]]]; try done. intros _. by exists a, b, c, d.
Qed.

Lemma finalize_observation_phase_eq (s : Optimizer) :
  well_formed s ->
  finalize_observation_phase s
  = if all (lanes_ready s)
    then (Ok (Some (bucket_duration <$> observation_vehicle_counts s)),
          with_observation_enabled false
            (with_phase_elapsed_times [0%Q; 0%Q; 0%Q; 0%Q] s))
    else (Ok None, s).
Proof.
  intros Hwf. unfold finalize_observation_phase, bind, read. cbn.
  destruct (all (lanes_ready s)); [|done].
  destruct (four_slots _ (wf_obs_counts _ Hwf)) as (a & b & c & d & ->).
  reflexivity.
Qed.

Lemma finalize_observation_phase_wf (s : Optimizer) :
  well_formed s -> well_formed (snd (finalize_observation_phase s)).
Proof.
  intros Hwf. rewrite finalize_observation_phase_eq by done.
  destruct (all (lanes_ready s)); [|done].
  destruct Hwf. by constructor.
Qed.

Lemma apply_op_wf (o : Op) (s : Optimizer) :
  well_formed s -> well_formed (apply_op o s).
Proof.
  destruct o as [c|]; cbn [apply_op];
    [apply after_well_formed|apply finalize_observation_phase_wf].
Qed.

Lemma run_ops_invariant (P : Optimizer -> Prop) :
  (forall o s, well_formed s -> P s -> P (apply_op o s)) ->
  forall ops s, well_formed s -> P s ->
    well_formed (run_ops ops s) /\ P (run_ops ops s).
Proof.
  intros Hstep ops. unfold run_ops.
  induction ops as [|o ops IH]; intros s Hwf HP; cbn [foldl]; [done|].
  apply IH; [by apply apply_op_wf|by apply Hstep].
Qed.

(** X1.  Whatever public mutators are called on a fresh optimizer, in
    whatever order and with whatever arguments (raising calls included),
    its six per-lane arrays keep exactly four slots and the window and
    yellow constants keep their values. *)
Theorem reachable_well_formed (ops : list Op) : well_formed (run_ops ops init).
Proof.
  apply (run_ops_invariant (fun _ => True)); [done|apply init_well_formed|done].
Qed.

(** ** Quantities that only move one way *)

Lemma apply_op_keeps_ready (o : Op) (s : Optimizer) (k : nat) :
  well_formed s -> lanes_ready s !! k = Some true ->
  lanes_ready (apply_op o s) !! k = Some true.
Proof.
  intros Hwf Hk. destruct o as [[p e|l|lane e|lane n]|]; cbn [apply_op]; try unfold after; cbn [exec].
  - by destruct (update_phase_elapsed_time_shape s p e) as (t & -> & _).
  - rewrite set_cycle_timing_shape. by destruct (len l =? 4).
  - destruct (index_cases 4 lane) as [[H _]|[[H _]|[H (k' & Hk' & _)]]].
    + by rewrite update_observation_time_above.
    + by rewrite update_observation_time_below.
    + destruct (update_observation_time_ready s lane e k' Hwf H Hk')
        as (r & Hr & -> & _).
      destruct (Qge_bool e (inject_Z 30) && negb r); [|done].
      destruct (decide (k = k')) as [->|Hne].
      * apply list_lookup_insert_eq. by apply lookup_lt_Some in Hr.
      * by rewrite list_lookup_insert_ne.
  - by destruct (record_observation_vehicle_count_shape s lane n) as (c & ->).
  - rewrite finalize_observation_phase_eq by done.
    by destruct (all (lanes_ready s)).
Qed.

Lemma apply_op_stays_controlling (o : Op) (s : Optimizer) :
  well_formed s -> observation_enabled s = false ->
  observation_enabled (apply_op o s) = false.
Proof.
  intros Hwf Hobs. destruct o as [c|]; cbn [apply_op].
  - by apply controlling_stays.
  - rewrite finalize_observation_phase_eq by done.
    by destruct (all (lanes_ready s)).
Qed.

(** X2.  Along any run of public mutators from a well-formed optimizer a
    lane that is ready stays ready, and a junction that has switched to
    controlling never returns to observing. *)
Theorem readiness_never_revoked (ops : list Op) (s : Optimizer) :
  well_formed s ->
  (forall k : nat, lanes_ready s !! k = Some true ->
     lanes_ready (run_ops ops s) !! k = Some true) /\
  (observation_enabled s = false ->
     observation_enabled (run_ops ops s) = false).
Proof.
  intros Hwf. split.
  - intros k Hk.
    apply (run_ops_invariant (fun s => lanes_ready s !! k = Some true)); try done.
    intros o s'. apply apply_op_keeps_ready.
  - intros Hobs.
    apply (run_ops_invariant (fun s => observation_enabled s = false)); try done.
    intros o s'. apply apply_op_stays_controlling.
Qed.

Lemma apply_op_keeps_cap (o : Op) (s : Optimizer) :
  well_formed s ->
  Forall (fun t => (t <= 30)%Q) (lane_observation_times s) ->
  Forall (fun t => (t <= 30)%Q) (lane_observation_times (apply_op o s)).
Proof.
  intros Hwf Hcap. destruct o as [[p e|l|lane e|lane n]|]; cbn [apply_op]; try unfold after; cbn [exec].
  - by destruct (update_phase_elapsed_time_shape s p e) as (t & -> & _).
  - rewrite set_cycle_timing_shape. by destruct (len l =? 4).
  - destruct (index_cases 4 lane) as [[H _]|[[H _]|[H (k & Hk & _)]]].
    + by rewrite update_observation_time_above.
    + by rewrite update_observation_time_below.
    + rewrite (update_observation_time_times s lane e k) by done.
      apply Forall_insert; [done|]. apply min_le_r.
  - by destruct (record_observation_vehicle_count_shape s lane n) as (c & ->).
  - rewrite finalize_observation_phase_eq by done.
    by destruct (all (lanes_ready s)).
Qed.

(** X3.  In every state reachable from a fresh optimizer no lane's stored
    observation time exceeds the 30-second window, whatever elapsed
    values the observation ticks were given. *)
Theorem observation_times_never_exceed_window (ops : list Op) (k : nat) (t : Q) :
  lane_observation_times (run_ops ops init) !! k = Some t -> (t <= 30)%Q.
Proof.
  intros Hk.
  assert (Hall : Forall (fun t => (t <= 30)%Q)
                   (lane_observation_times (run_ops ops init))).
  { apply (run_ops_invariant
             (fun s => Forall (fun t => (t <= 30)%Q) (lane_observation_times s))).
    - intros o s. apply apply_op_keeps_cap.
    - apply init_well_formed.
    - by repeat constructor. }
  by apply (proj1 (Forall_lookup _ _) Hall k t).
Qed.

Lemma apply_op_cycle_number (o : Op) (s : Optimizer) :
  well_formed s ->
  cycle_number (apply_op o s)
  = cycle_number s + (if is_install o then 1 else 0).
Proof.
  intros Hwf. destruct o as [[p e|l|lane e|lane n]|];
    cbn [apply_op is_install]; try unfold after; cbn [exec].
  - destruct (update_phase_elapsed_time_shape s p e) as (t & -> & _). cbn. lia.
  - rewrite set_cycle_timing_shape. destruct (len l =? 4); cbn; lia.
  - destruct (update_observation_time_shape s lane e) as (t & r & b & ->). cbn. lia.
  - destruct (record_observation_vehicle_count_shape s lane n) as (c & ->). cbn. lia.
  - rewrite finalize_observation_phase_eq by done.
    destruct (all (lanes_ready s)); cbn; lia.
Qed.

(** X4.  The cycle counter counts installs: after any run of public
    mutators from a fresh optimizer it equals the number of
    [set_cycle_timing] calls that were given a list of exactly four
    durations.  No other call, and no rejected install, moves it. *)
Theorem cycle_number_counts_installs (ops : list Op) :
  cycle_number (run_ops ops init)
  = Z.of_nat (length (List.filter is_install ops)).
Proof.
  assert (H : forall s, well_formed s ->
    cycle_number (run_ops ops s)
    = cycle_number s + Z.of_nat (length (List.filter is_install ops))).
  { unfold run_ops. induction ops as [|o ops IH]; intros s Hwf; cbn [foldl List.filter].
    - cbn. lia.
    - rewrite IH by (by apply apply_op_wf).
      rewrite apply_op_cycle_number by done.
      destruct (is_install o); cbn [length]; lia. }
  rewrite H by apply init_well_formed. cbn. lia.
Qed.

(** ** Peak vehicle count *)

(** X5.  For a lane in 0..3, recording a vehicle count during observation
    returns normally and stores the larger of the lane's previous peak
    and the new count; the other lanes' peaks and every other attribute
    stay as they were. *)
Theorem record_keeps_peak (s : Optimizer) (lane n : Z) :
  well_formed s -> 0 <= lane < 4 ->
  exists old : Z,
    observation_vehicle_counts s !! Z.to_nat lane = Some old /\
    record_observation_vehicle_count lane n s
    = (Ok tt,
       with_observation_vehicle_counts
         (<[Z.to_nat lane:=Z.max old n]> (observation_vehicle_counts s)) s) /\
    old <= Z.max old n /\ n <= Z.max old n.
Proof.
  intros Hwf Hlane.
  pose proof (len_4 _ (wf_obs_counts _ Hwf)) as Hlen.
  destruct (getitem_inside (observation_vehicle_counts s) lane) as (old & Hold & Hget);
    [lia|].
  exists old. split; [done|]. split; [|lia].
  unfold record_observation_vehicle_count.
  destruct (Z.ltb_spec lane 4); [|lia].
  unfold bind, read, write, lift, ret. cbn. rewrite Hget. cbn.
  rewrite setitem_inside by lia. cbn.
  do 3 f_equal. unfold maxZ. destruct (Z.ltb_spec old n); lia.
Qed.

(** ** Remaining green and signal state *)

Lemma get_green_time_inside (s : Optimizer) (lane : Z) (g : Z) (e : Q) :
  well_formed s -> 0 <= lane < 4 ->
  current_cycle_timings s !! Z.to_nat lane = Some g ->
  phase_elapsed_times s !! Z.to_nat lane = Some e ->
  get_green_time s lane
  = Ok (if Qlt_bool e (inject_Z g) then (inject_Z g - e)%Q else 0%Q).
Proof.
  intros Hwf Hlane Hg He. unfold get_green_time.
  rewrite (len_4 _ (wf_timings _ Hwf)).
  destruct (Z.geb_spec lane 4); [lia|].
  rewrite (getitem_lookup _ _ _ (proj1 Hlane) Hg).
  rewrite (getitem_lookup _ _ _ (proj1 Hlane) He).
  destruct (Qlt_bool e (inject_Z g)) eqn:Hlt; [|done].
  apply Qlt_bool_iff in Hlt. unfold max.
  assert (Hpos : Qlt_bool 0 (inject_Z g - e) = true) by (apply Qlt_bool_iff; lra).
  by rewrite Hpos.
Qed.

Lemma slots_inside (s : Optimizer) (lane : Z) :
  well_formed s -> 0 <= lane < 4 ->
  exists (g : Z) (e : Q),
    current_cycle_timings s !! Z.to_nat lane = Some g /\
    phase_elapsed_times s !! Z.to_nat lane = Some e.
Proof.
  intros Hwf Hlane.
  destruct (getitem_inside (current_cycle_timings s) lane) as (g & Hg & _).
  { rewrite (len_4 _ (wf_timings _ Hwf)). lia. }
  destruct (getitem_inside (phase_elapsed_times s) lane) as (e & He & _).
  { rewrite (len_4 _ (wf_elapsed _ Hwf)). lia. }
  by exists g, e.
Qed.

Lemma max_0_nonneg (x : Q) : (0 <= max 0%Q x)%Q.
Proof.
  unfold max. destruct (Qlt_bool 0 x) eqn:H; [|lra].
  apply Qlt_bool_iff in H. lra.
Qed.

Lemma max_0_pos (x : Q) : (0 < x)%Q -> max 0%Q x = x.
Proof.
  intros H. unfold max. by rewrite (proj2 (Qlt_bool_iff 0 x) H).
Qed.

Lemma get_green_time_rounded_inside (fsub : Q -> Q -> Q) (s : Optimizer)
    (lane : Z) (g : Z) (e : Q) :
  well_formed s -> 0 <= lane < 4 ->
  current_cycle_timings s !! Z.to_nat lane = Some g ->
  phase_elapsed_times s !! Z.to_nat lane = Some e ->
  get_green_time_rounded fsub s lane
  = Ok (if Qlt_bool e (inject_Z g) then max 0%Q (fsub (inject_Z g) e) else 0%Q).
Proof.
  intros Hwf Hlane Hg He. unfold get_green_time_rounded.
  rewrite (len_4 _ (wf_timings _ Hwf)).
  destruct (Z.geb_spec lane 4); [lia|].
  rewrite (getitem_lookup _ _ _ (proj1 Hlane) Hg).
  rewrite (getitem_lookup _ _ _ (proj1 Hlane) He).
  by destruct (Qlt_bool e (inject_Z g)).
Qed.

(** X6.  For a lane in 0..3 with green duration [g] and elapsed time [e]
    the remaining-green query returns normally a value [t] that is never
    negative: the larger of 0 and the float difference of [g] and [e]
    while [e < g], and 0 from then on.  A positive remaining green at an
    elapsed time that is not negative means the optimizer reports the
    lane GREEN.  Where the float difference of [g] and [e] is positive
    whenever [e < g], as a difference of two distinct doubles is, [t] is
    that difference while [e < g], and at an elapsed time that is not
    negative the remaining green is positive exactly when the lane reads
    GREEN.  With the exact difference the query is [get_green_time]. *)
Theorem green_time_matches_signal (fsub : Q -> Q -> Q) (s : Optimizer) (lane : Z) :
  well_formed s -> 0 <= lane < 4 ->
  exists (g : Z) (e t : Q),
    current_cycle_timings s !! Z.to_nat lane = Some g /\
    phase_elapsed_times s !! Z.to_nat lane = Some e /\
    get_green_time_rounded fsub s lane = Ok t /\
    (0 <= t)%Q /\
    ((e < inject_Z g)%Q -> t = max 0%Q (fsub (inject_Z g) e)) /\
    ((inject_Z g <= e)%Q -> t = 0%Q) /\
    ((0 <= e)%Q -> (0 < t)%Q -> get_signal_state s lane = Ok GREEN) /\
    (((e < inject_Z g)%Q -> (0 < fsub (inject_Z g) e)%Q) ->
       ((e < inject_Z g)%Q -> t = fsub (inject_Z g) e) /\
       ((0 <= e)%Q -> ((0 < t)%Q <-> get_signal_state s lane = Ok GREEN))) /\
    get_green_time_rounded Qminus s lane = get_green_time s lane.
Proof.
  intros Hwf Hlane.
  destruct (slots_inside s lane Hwf Hlane) as (g & e & Hg & He).
  exists g, e. eexists. split; [done|]. split; [done|].
  split; [by apply get_green_time_rounded_inside|].
  rewrite (get_signal_state_inside s lane g e) by done.
  unfold spec_signalState.
  destruct (Qlt_bool e (inject_Z g)) eqn:Hlt.
  - apply Qlt_bool_iff in Hlt.
    assert (Hgreen : (0 <= e)%Q -> (if g =? 0 then RED else GREEN) = GREEN).
    { intros Hpos. destruct (Z.eqb_spec g 0) as [->|Hne]; [|done].
      change (inject_Z 0) with 0%Q in Hlt. lra. }
    split; [apply max_0_nonneg|]. split; [done|]. split; [intros; lra|].
    split; [intros Hpos _; by rewrite Hgreen|].
    split; [|done].
    intros Hsign. rewrite (max_0_pos _ (Hsign Hlt)).
    split; [done|]. intros Hpos.
    split; [intros _; by rewrite Hgreen|intros _; by apply Hsign].
  - apply Qlt_bool_false_iff in Hlt.
    split; [lra|]. split; [intros; lra|]. split; [done|].
    split; [intros; lra|]. split; [|done].
    intros _. split; [intros; lra|].
    intros _. split; [intros; lra|].
    destruct (g =? 0); [done|].
    by destruct (Qlt_bool e (inject_Z (g + 3))).
Qed.

Lemma spec_signalState_stage (g : Z) (e1 e2 : Q) :
  (e1 <= e2)%Q ->
  stage (spec_signalState false g e1) <= stage (spec_signalState false g e2).
Proof.
  intros Hle. unfold spec_signalState.
  destruct (g =? 0); [done|].
  destruct (Qlt_bool e1 (inject_Z g)) eqn:H1, (Qlt_bool e2 (inject_Z g)) eqn:H2,
    (Qlt_bool e1 (inject_Z (g + 3))) eqn:H3,
    (Qlt_bool e2 (inject_Z (g + 3))) eqn:H4; cbn; try lia;
    rewrite ?Qlt_bool_iff, ?Qlt_bool_false_iff in *; lra.
Qed.

(** X7.  Within a cycle a lane's signal only moves forward.  For a lane
    in 0..3, if the worker reports elapsed time [e1] and later a larger
    [e2] with no install in between, then the state read after the second
    report is the same or a later one in the order GREEN, YELLOW, RED as
    the state read after the first. *)
Theorem signal_moves_forward (s : Optimizer) (lane : Z) (e1 e2 : Q) :
  well_formed s -> 0 <= lane < 4 -> (e1 <= e2)%Q ->
  exists st1 st2 : SignalState,
    get_signal_state (after (UpdatePhaseElapsedTime lane e1) s) lane = Ok st1 /\
    get_signal_state
      (after (UpdatePhaseElapsedTime lane e2)
         (after (UpdatePhaseElapsedTime lane e1) s)) lane = Ok st2 /\
    st1 <> OBSERVATION /\ st2 <> OBSERVATION /\
    stage st1 <= stage st2.
Proof.
  intros Hwf Hlane Hle.
  destruct (slots_inside s lane Hwf Hlane) as (g & e & Hg & He).
  pose proof (len_4 _ (wf_elapsed _ Hwf)) as Hlen.
  assert (Hstep : forall (s0 : Optimizer) (x : Q),
    well_formed s0 -> current_cycle_timings s0 !! Z.to_nat lane = Some g ->
    well_formed (after (UpdatePhaseElapsedTime lane x) s0) /\
    current_cycle_timings (after (UpdatePhaseElapsedTime lane x) s0) !! Z.to_nat lane
    = Some g /\
    get_signal_state (after (UpdatePhaseElapsedTime lane x) s0) lane
    = Ok (spec_signalState false g x)).
  { intros s0 x Hwf0 Hg0.
    pose proof (after_well_formed (UpdatePhaseElapsedTime lane x) s0 Hwf0) as Hwf1.
    pose proof (len_4 _ (wf_elapsed _ Hwf0)) as Hlen0.
    assert (Hafter : after (UpdatePhaseElapsedTime lane x) s0
      = with_phase_elapsed_times (<[Z.to_nat lane:=x]> (phase_elapsed_times s0)) s0).
    { unfold after. cbn [exec].
      rewrite (update_phase_elapsed_time_slot s0 lane x (Z.to_nat lane));
        [done|lia|]. apply index_inside. unfold len in Hlen0. lia. }
    split; [done|]. split; [by rewrite Hafter|].
    apply get_signal_state_inside; [done..| |].
    - by rewrite Hafter.
    - rewrite Hafter. cbn. apply list_lookup_insert_eq.
      rewrite (wf_elapsed _ Hwf0). lia. }
  destruct (Hstep s e1 Hwf Hg) as (Hwf1 & Hg1 & Hst1).
  destruct (Hstep _ e2 Hwf1 Hg1) as (_ & _ & Hst2).
  exists (spec_signalState false g e1), (spec_signalState false g e2).
  split; [done|]. split; [done|].
  split; [|split; [|by apply spec_signalState_stage]].
  - unfold spec_signalState. by repeat case_match.
  - unfold spec_signalState. by repeat case_match.
Qed.

(** X8.  Right after an install of four durations the optimizer reports
    every lane in 0..3 whose duration is positive as GREEN with its
    whole duration remaining, and every lane whose duration is 0 as RED
    with nothing remaining. *)
Theorem install_then_state (s : Optimizer) (durations : list Z) (lane g : Z) :
  well_formed s -> length durations = 4%nat -> 0 <= lane < 4 ->
  durations !! Z.to_nat lane = Some g -> 0 <= g ->
  let s' := snd (set_cycle_timing durations s) in
  get_signal_state s' lane = Ok (if g =? 0 then RED else GREEN) /\
  exists t : Q, get_green_time s' lane = Ok t /\ (t == inject_Z g)%Q.
Proof.
  intros Hwf Hlen Hlane Hg Hpos s'.
  assert (Hwf' : well_formed s') by (by apply set_cycle_timing_wf).
  assert (Hs' : s' = with_cycle_number (cycle_number s + 1)
           (with_phase_elapsed_times [0%Q; 0%Q; 0%Q; 0%Q]
              (with_current_cycle_timings durations s))).
  { subst s'. rewrite set_cycle_timing_shape. unfold len. rewrite Hlen. done. }
  assert (Hg' : current_cycle_timings s' !! Z.to_nat lane = Some g)
    by (by rewrite Hs').
  assert (He' : phase_elapsed_times s' !! Z.to_nat lane = Some 0%Q).
  { rewrite Hs'. cbn.
    assert (lane = 0 \/ lane = 1 \/ lane = 2 \/ lane = 3) as [->|[->|[->| ->]]]
      by lia; reflexivity. }
  split.
  - rewrite (get_signal_state_inside s' lane g 0%Q) by done.
    unfold spec_signalState. destruct (Z.eqb_spec g 0) as [->|Hne]; [done|].
    assert (Hlt : Qlt_bool 0 (inject_Z g) = true).
    { apply Qlt_bool_iff. change 0%Q with (inject_Z 0). rewrite <- Zlt_Qlt. lia. }
    by rewrite Hlt.
  - rewrite (get_green_time_inside s' lane g 0%Q) by done.
    eexists. split; [done|].
    destruct (Qlt_bool 0 (inject_Z g)) eqn:Hlt.
    + lra.
    + apply Qlt_bool_false_iff in Hlt.
      change 0%Q with (inject_Z 0) in Hlt. rewrite <- Zle_Qle in Hlt.
      assert (g = 0) as -> by lia. done.
Qed.

(** ** Range and order of predicted durations *)

(** X9.  Every duration the predictor returns is either 0 or one of the
    buckets between 15 and 55 seconds, hence inside the optimizer's
    minimum and maximum phase duration; a duration is 0 exactly for a
    count of 0; and among non-negative counts a larger count never gets a
    shorter green. *)
Theorem predicted_durations_bounded (counts : gmap Z Z) :
  (forall d : Z, d ∈ predict_next_cycle_timings counts ->
     d = 0 \/ (15 <= d <= 55 /\ min_phase_duration <= d <= max_phase_duration)) /\
  (forall c : Z, bucket_duration c = 0 <-> c = 0) /\
  (forall c1 c2 : Z, 0 <= c1 <= c2 -> bucket_duration c1 <= bucket_duration c2).
Proof.
  assert (Hb : forall c, bucket_duration c = 0 \/
                         (15 <= bucket_duration c <= 55 /\
                          min_phase_duration <= bucket_duration c <= max_phase_duration)).
  { intros c. unfold bucket_duration, min_phase_duration, max_phase_duration.
    repeat case_match; lia. }
  split; [|split].
  - intros d Hd. rewrite predict_next_cycle_timings_unfold in Hd.
    apply list_elem_of_fmap in Hd as (lane & -> & _). apply Hb.
  - intros c. unfold bucket_duration.
    destruct (Z.eqb_spec c 0); [done|]. repeat case_match; lia.
  - intros c1 c2 Hc. unfold bucket_duration.
    destruct (Z.eqb_spec c1 0), (Z.eqb_spec c2 0), (Z.ltb_spec c1 5),
      (Z.ltb_spec c2 5), (Z.ltb_spec c1 10), (Z.ltb_spec c2 10),
      (Z.ltb_spec c1 15), (Z.ltb_spec c2 15); lia.
Qed.

(** X10.  On a well-formed optimizer [finalize_observation_phase] does
    nothing and returns [None] while some lane is not ready.  Once all
    four are ready it returns the bucket durations of the four observed
    peak counts, zeroes the elapsed counters and leaves observation mode;
    the returned timings are not installed: the active timing vector
    and the cycle counter are as before. *)
Theorem finalize_observation_phase_outcome (s : Optimizer) :
  well_formed s ->
  (all (lanes_ready s) = false ->
     finalize_observation_phase s = (Ok None, s)) /\
  (all (lanes_ready s) = true ->
     exists s' : Optimizer,
       finalize_observation_phase s
       = (Ok (Some (bucket_duration <$> observation_vehicle_counts s)), s') /\
       phase_elapsed_times s' = [0%Q; 0%Q; 0%Q; 0%Q] /\
       observation_enabled s' = false /\
       current_cycle_timings s' = current_cycle_timings s /\
       cycle_number s' = cycle_number s /\
       lanes_ready s' = lanes_ready s /\
       observation_vehicle_counts s' = observation_vehicle_counts s /\
       lane_observation_times s' = lane_observation_times s).
Proof.
  intros Hwf. rewrite finalize_observation_phase_eq by done.
  split; intros ->; [done|].
  eexists. split; [done|]. by repeat split.
Qed.

(** ** Signal phases *)

(** X11.  For a [SignalPhase] at elapsed time [e]: while it reads GREEN
    its remaining green is the float difference of its duration and [e],
    and once it no longer reads GREEN its remaining green is 0; as the
    elapsed time grows the state only moves forward in the order GREEN,
    YELLOW, RED.  Where the float difference of the duration and [e] is
    positive whenever [e] is below the duration, as a difference of two
    distinct doubles is, the remaining green is never negative and the
    phase reads GREEN exactly when its remaining green is positive. *)
Theorem phase_state_and_remaining_green (fsub : Q -> Q -> Q) (p : SignalPhase)
    (e : Q) :
  (Phase.get_state p e = GREEN ->
     (e < inject_Z (duration p))%Q /\
     Phase.get_remaining_green_time fsub p e = fsub (inject_Z (duration p)) e) /\
  (Phase.get_state p e <> GREEN ->
     (inject_Z (duration p) <= e)%Q /\
     Phase.get_remaining_green_time fsub p e = 0%Q) /\
  (forall e' : Q, (e <= e')%Q ->
     stage (Phase.get_state p e) <= stage (Phase.get_state p e')) /\
  (((e < inject_Z (duration p))%Q -> (0 < fsub (inject_Z (duration p)) e)%Q) ->
     (0 <= Phase.get_remaining_green_time fsub p e)%Q /\
     (Phase.get_state p e = GREEN
      <-> (0 < Phase.get_remaining_green_time fsub p e)%Q)).
Proof.
  unfold Phase.get_state, Phase.get_remaining_green_time.
  destruct (Qlt_bool e (inject_Z (duration p))) eqn:Hlt.
  - apply Qlt_bool_iff in Hlt.
    split; [done|]. split; [done|]. split.
    + intros e' Hle. repeat case_match; cbn; lia.
    + intros Hsign. specialize (Hsign Hlt). split; [lra|done].
  - apply Qlt_bool_false_iff in Hlt.
    split; [by case_match|]. split; [done|]. split.
    + intros e' Hle.
      destruct (Qlt_bool e' (inject_Z (duration p))) eqn:H1;
        [apply Qlt_bool_iff in H1; lra|].
      destruct (Qlt_bool e (inject_Z (duration p + phase_yellow_time p))) eqn:H2,
        (Qlt_bool e' (inject_Z (duration p + phase_yellow_time p))) eqn:H3;
        cbn; try lia.
      apply Qlt_bool_false_iff in H2. apply Qlt_bool_iff in H3. lra.
    + intros _. split; [lra|].
      split; [by case_match|intros; lra].
Qed.

(** X12.  For a lane in 0..3 whose green duration is not 0 the
    optimizer's signal state is the state of a [SignalPhase] with that
    duration and the optimizer's yellow time at the lane's elapsed time.
    For a duration of 0 the optimizer answers RED, whereas such a phase
    would read YELLOW during its first three seconds. *)
Theorem optimizer_state_is_phase_state (s : Optimizer) (lane : Z) :
  well_formed s -> 0 <= lane < 4 ->
  exists (g : Z) (e : Q),
    current_cycle_timings s !! Z.to_nat lane = Some g /\
    phase_elapsed_times s !! Z.to_nat lane = Some e /\
    (g <> 0 ->
       get_signal_state s lane
       = Ok (Phase.get_state (mkPhase lane g (yellow_time s)) e)) /\
    (g = 0 -> get_signal_state s lane = Ok RED /\
       ((0 <= e)%Q -> (e < 3)%Q ->
        Phase.get_state (mkPhase lane g (yellow_time s)) e = YELLOW)).
Proof.
  intros Hwf Hlane.
  destruct (slots_inside s lane Hwf Hlane) as (g & e & Hg & He).
  exists g, e. split; [done|]. split; [done|].
  rewrite (get_signal_state_inside s lane g e) by done.
  unfold spec_signalState, Phase.get_state. cbn [duration phase_yellow_time].
  rewrite (wf_yellow _ Hwf). split.
  - intros Hne. apply Z.eqb_neq in Hne. rewrite Hne. by repeat case_match.
  - intros ->. split; [done|]. intros H0 H3.
    assert (H1 : Qlt_bool e (inject_Z 0) = false)
      by (apply Qlt_bool_false_iff; change (inject_Z 0) with 0%Q; lra).
    assert (H2 : Qlt_bool e (inject_Z (0 + 3)) = true)
      by (apply Qlt_bool_iff; change (inject_Z (0 + 3)) with 3%Q; lra).
    by rewrite H1, H2.
Qed.

(** ** Congestion levels *)

(** X13.  [LaneMetrics.update_congestion] and the predictor cut the
    vehicle count at the same thresholds 5, 10 and 15: for every count
    other than 0 the predicted green is 15, 25, 35 or 55 seconds
    according to whether the congestion level is low, medium, high or
    severe, and the level is always one of these four.  Only the count 0
    is treated differently: its level is low but its green is 0. *)
Theorem congestion_level_matches_bucket (c : Z) (m : LaneMetrics) :
  let level := congestion_level (update_congestion c m) in
  vehicle_count (update_congestion c m) = c /\
  (level = "low" \/ level = "medium" \/ level = "high" \/ level = "severe") /\
  (c <> 0 ->
     (level = "low" -> bucket_duration c = 15) /\
     (level = "medium" -> bucket_duration c = 25) /\
     (level = "high" -> bucket_duration c = 35) /\
     (level = "severe" -> bucket_duration c = 55)) /\
  (c = 0 -> level = "low" /\ bucket_duration c = 0).
Proof.
  cbn. unfold congestion_of, bucket_duration.
  split; [done|].
  destruct (Z.eqb_spec c 0) as [->|Hne]; [cbn; by intuition auto|].
  destruct (Z.ltb_spec c 5), (Z.ltb_spec c 10), (Z.ltb_spec c 15);
    try lia; split; auto; split; intros; repeat split; try done; lia.
Qed.

(** ** Lane analysis *)

(** X14.  [analyze_lane_conditions] on a non-empty list attributes the
    whole list to the lane of its first vehicle: the metrics returned
    carry the length of the list as vehicle count, the congestion level
    of that length and the list itself.  If that lane is in the
    optimizer's [lanes] dictionary the returned metrics are what the
    dictionary then holds for it; if not, nothing is stored.  No other
    lane's entry and no attribute of the optimizer changes.  On an empty
    list the answer is a fresh "low" record for lane 0 and nothing
    changes. *)
Theorem analyze_lane_conditions_outcome (v : VehicleData)
    (rest : list VehicleData) (j : Junction) :
  let batch := v :: rest in
  let lane := vehicle_lane_id v in
  let m := (analyze_lane_conditions batch j).1 in
  let j' := (analyze_lane_conditions batch j).2 in
  vehicle_count m = len batch /\
  congestion_level m = congestion_of (len batch) /\
  vehicles m = batch /\
  optimizer j' = optimizer j /\
  (forall other : Z, other <> lane -> lanes j' !! other = lanes j !! other) /\
  (forall stored : LaneMetrics, lanes j !! lane = Some stored ->
     lanes j' !! lane = Some m /\ metrics_lane_id m = metrics_lane_id stored) /\
  (lanes j !! lane = None -> j' = j /\ metrics_lane_id m = lane) /\
  analyze_lane_conditions [] j = (new_lane_metrics 0 0 "low", j).
Proof.
  cbv zeta. unfold analyze_lane_conditions.
  destruct (lanes j !! vehicle_lane_id v) as [stored|] eqn:Hl; cbn [fst snd].
  - do 4 (split; [done|]). split; [|split; [|split; [|done]]].
    + intros other Hne. cbn. by rewrite lookup_insert_ne.
    + intros stored' [= <-]. cbn. by rewrite lookup_insert_eq.
    + intros Hnone. discriminate Hnone.
  - do 4 (split; [done|]). split; [done|]. split; [|done].
    intros stored' Hsome. discriminate Hsome.
Qed.

(** ** Phase-duration optimisation *)

Lemma optimize_lane_shape (j : Junction) (item : Z * LaneMetrics) :
  exists ph : list SignalPhase,
    optimizer (snd (optimize_lane j item)) = with_phases ph (optimizer j) /\
    length ph = length (phases (optimizer j)).
Proof.
  assert (Hsame : exists ph : list SignalPhase,
    optimizer j = with_phases ph (optimizer j) /\
    length ph = length (phases (optimizer j))).
  { exists (phases (optimizer j)). by destruct (optimizer j). }
  destruct item as [lane_id metrics]. unfold optimize_lane.
  destruct (lane_id <? len (phases (optimizer j))); [|done].
  destruct (getitem (phases (optimizer j)) lane_id) as [p|]; [|done].
  destruct (setitem (phases (optimizer j)) lane_id _) as [ph|] eqn:Hset; [|done].
  exists ph. split; [done|]. by apply setitem_length in Hset.
Qed.

Lemma optimize_lanes_shape (items : list (Z * LaneMetrics)) : forall j : Junction,
  exists ph : list SignalPhase,
    optimizer (snd (optimize_lanes items j)) = with_phases ph (optimizer j) /\
    length ph = length (phases (optimizer j)).
Proof.
  induction items as [|item items IH]; intros j; cbn [optimize_lanes].
  - exists (phases (optimizer j)). cbn [snd]. by destruct (optimizer j).
  - destruct (optimize_lane_shape j item) as (ph & Hph & Hlen).
    destruct (optimize_lane j item) as [[[]|e] j1]; cbn [snd] in *.
    + destruct (IH j1) as (ph' & Hph' & Hlen').
      exists ph'. rewrite Hph', Hph. split; [done|].
      rewrite Hlen', Hph. cbn. done.
    + by exists ph.
Qed.

(** X15.  [optimize_phase_timing] writes only the [duration] fields of
    the phase objects (and the [lanes] dictionary): whatever items it is
    given, and whether or not it raises, the active timing vector, the
    elapsed counters and the cycle counter are unchanged, so every
    lane's signal state and remaining green read exactly as before. *)
Theorem optimize_phase_timing_leaves_signals (items : list (Z * LaneMetrics))
    (j : Junction) (lane : Z) :
  let o' := optimizer (snd (optimize_phase_timing items j)) in
  get_signal_state o' lane = get_signal_state (optimizer j) lane /\
  get_green_time o' lane = get_green_time (optimizer j) lane /\
  current_cycle_timings o' = current_cycle_timings (optimizer j) /\
  phase_elapsed_times o' = phase_elapsed_times (optimizer j) /\
  cycle_number o' = cycle_number (optimizer j) /\
  length (phases o') = length (phases (optimizer j)).
Proof.
  cbv zeta.
  assert (Hsnd : snd (optimize_phase_timing items j) = snd (optimize_lanes items j)).
  { unfold optimize_phase_timing. by destruct (optimize_lanes items j) as [[[]|e] j']. }
  rewrite Hsnd. destruct (optimize_lanes_shape items j) as (ph & -> & Hlen).
  unfold get_signal_state, get_green_time, len. cbn. by rewrite Hlen.
Qed.

Lemma new_duration_of_level (level : string) :
  maxZ min_phase_duration
    (minZ (int_of (inject_Z base_phase_duration
                   * default 1%Q (congestion_multiplier !! level))%Q)
       max_phase_duration)
  = if decide (level = "medium") then 36
    else if decide (level = "high") then 45
    else if decide (level = "severe") then 60
    else 30.
Proof.
  unfold congestion_multiplier.
  destruct (decide (level = "low")) as [->|H1]; [done|].
  destruct (decide (level = "medium")) as [->|H2]; [done|].
  destruct (decide (level = "high")) as [->|H3]; [done|].
  destruct (decide (level = "severe")) as [->|H4]; [done|].
  by rewrite !lookup_insert_ne, lookup_empty by done.
Qed.

(** X16.  Optimising a single lane in 0..3 returns the four phase
    durations with that lane's set by congestion level alone: 36 for
    medium, 45 for high, 60 for severe and 30 for low or any other
    level, always inside the minimum and maximum phase duration; the
    other lanes' durations are as before and the metrics become the
    lane's entry of [lanes]. *)
Theorem optimize_phase_timing_duration (j : Junction) (lane : Z) (m : LaneMetrics) :
  well_formed (optimizer j) -> 0 <= lane < 4 ->
  let d := if decide (congestion_level m = "medium") then 36
           else if decide (congestion_level m = "high") then 45
           else if decide (congestion_level m = "severe") then 60
           else 30 in
  exists j' : Junction,
    optimize_phase_timing [(lane, m)] j
    = (Ok (<[Z.to_nat lane:=d]> (duration <$> phases (optimizer j))), j') /\
    min_phase_duration <= d <= max_phase_duration /\
    lanes j' !! lane = Some m.
Proof.
  intros Hwf Hlane d.
  pose proof (len_4 _ (wf_phases _ Hwf)) as Hlen.
  destruct (getitem_inside (phases (optimizer j)) lane) as (p & Hp & Hget); [lia|].
  unfold optimize_phase_timing. cbn [optimize_lanes]. unfold optimize_lane.
  rewrite Hlen. destruct (Z.ltb_spec lane 4); [|lia].
  rewrite Hget, setitem_inside by lia.
  rewrite new_duration_of_level. fold d.
  eexists. split; [|split].
  - cbn. f_equal. f_equal. rewrite list_fmap_insert. done.
  - subst d. unfold min_phase_duration, max_phase_duration.
    repeat case_decide; lia.
  - cbn. by rewrite lookup_insert_eq.
Qed.

(** ** Next-green estimate of the lane worker *)

Lemma get_green_time_rounded_nonneg (fsub : Q -> Q -> Q) (s : Optimizer)
    (lane : Z) :
  well_formed s -> 0 <= lane < 4 ->
  exists t : Q, get_green_time_rounded fsub s lane = Ok t /\ (0 <= t)%Q.
Proof.
  intros Hwf Hlane.
  destruct (slots_inside s lane Hwf Hlane) as (g & e & Hg & He).
  rewrite (get_green_time_rounded_inside fsub s lane g e) by done.
  eexists. split; [done|].
  destruct (Qlt_bool e (inject_Z g)); [apply max_0_nonneg|lra].
Qed.

Lemma max_opposite_green_pair (fsub : Q -> Q -> Q) (s : Optimizer)
    (l1 l2 : Z) (a b : Q) :
  get_green_time_rounded fsub s l1 = Ok a ->
  get_green_time_rounded fsub s l2 = Ok b ->
  (0 <= a)%Q -> (0 <= b)%Q ->
  exists m : Q,
    VehicleDetector.max_opposite_green fsub s [l1; l2] = Ok m /\
    (m = 0%Q \/ m = a \/ m = b) /\ (m == Qmax a b)%Q.
Proof.
  intros Ha Hb Hpa Hpb. unfold VehicleDetector.max_opposite_green.
  cbn [foldl]. rewrite Ha, Hb. eexists. split; [done|].
  destruct (Qlt_bool 0 a) eqn:H1.
  - destruct (Qlt_bool a b) eqn:H2.
    + apply Qlt_bool_iff in H2. split; [by right; right|].
      rewrite Q.max_r; [done|lra].
    + apply Qlt_bool_false_iff in H2. split; [by right; left|].
      by rewrite Q.max_l.
  - apply Qlt_bool_false_iff in H1.
    destruct (Qlt_bool 0 b) eqn:H2.
    + apply Qlt_bool_iff in H2. split; [by right; right|].
      rewrite Q.max_r; [done|lra].
    + apply Qlt_bool_false_iff in H2. split; [by left|].
      rewrite Q.max_l; lra.
Qed.

(** X17.  For a lane in 0..3 of a well-formed optimizer the worker's
    next-green estimate is 0 unless the lane reads RED (so also
    throughout observation).  For a RED lane the two lanes of the other
    phase group (1 and 3 for lanes 0 and 2, 0 and 2 otherwise) answer
    remaining greens [a] and [b] that are not negative, the loop keeps
    the larger of them, [m] (one of 0, [a] and [b]), and the estimate is
    the larger of 0 and the float sum of [m], the yellow time 3 and the
    all-red time 2, added in that order; it is never negative.  Where
    the two float additions do not fall below the exact sums at their
    lower ends (adding 3 to [m], which is at least 0, gives at least 3,
    and adding 2 to that gives at least 5, as rounding to nearest does),
    the estimate is that float sum and at least 5 seconds. *)
Theorem next_green_time_outcome (fsub fadd : Q -> Q -> Q) (s : Optimizer)
    (lane : Z) :
  well_formed s -> 0 <= lane < 4 ->
  let st := VehicleDetector.get_signal_state (Some s) lane in
  let eta := VehicleDetector.get_next_green_time fsub fadd (Some s) lane in
  let l1 := if (lane =? 0) || (lane =? 2) then 1 else 0 in
  let l2 := if (lane =? 0) || (lane =? 2) then 3 else 2 in
  (st <> RED -> eta = 0%Q) /\
  (st = RED ->
     exists a b m : Q,
       get_green_time_rounded fsub s l1 = Ok a /\
       get_green_time_rounded fsub s l2 = Ok b /\
       (0 <= a)%Q /\ (0 <= b)%Q /\
       VehicleDetector.max_opposite_green fsub s [l1; l2] = Ok m /\
       (m = 0%Q \/ m = a \/ m = b) /\ (m == Qmax a b)%Q /\
       eta = max 0%Q (fadd (fadd m 3%Q) 2%Q) /\
       (0 <= eta)%Q /\
       ((3 <= fadd m 3%Q)%Q -> (5 <= fadd (fadd m 3%Q) 2%Q)%Q ->
        eta = fadd (fadd m 3%Q) 2%Q /\ (5 <= eta)%Q)).
Proof.
  intros Hwf Hlane st eta l1 l2. subst eta.
  unfold VehicleDetector.get_next_green_time. fold st.
  split.
  - intros Hne. by destruct st.
  - intros Hst. rewrite Hst.
    destruct (get_green_time_rounded_nonneg fsub s l1 Hwf) as (a & Ha & Hpa);
      [subst l1; case_match; lia|].
    destruct (get_green_time_rounded_nonneg fsub s l2 Hwf) as (b & Hb & Hpb);
      [subst l2; case_match; lia|].
    destruct (max_opposite_green_pair fsub s l1 l2 a b Ha Hb Hpa Hpb)
      as (m & Hm & Hone & Hmax).
    exists a, b, m. do 7 (split; [done|]).
    assert (Hlanes : (if (lane =? 0) || (lane =? 2) then [1; 3] else [0; 2])
                     = [l1; l2]) by (subst l1 l2; by case_match).
    rewrite Hlanes, Hm.
    unfold VehicleDetector.YELLOW_TIME, VehicleDetector.ALL_RED_TIME.
    change (inject_Z 3) with 3%Q. change (inject_Z 2) with 2%Q.
    split; [done|]. split; [apply max_0_nonneg|].
    intros _ Hfive. rewrite max_0_pos by lra. by split.
Qed.

(** ** Fallbacks of the lane worker's queries *)

(** X18.  The worker's two queries never raise.  Without an optimizer
    they answer OBSERVATION and 30 seconds.  With a well-formed
    optimizer in controlling mode a lane identifier of 4 or more reads
    RED with 0 seconds of green, while one below -4 makes the optimizer
    raise, which the worker turns into OBSERVATION and 30 seconds. *)
Theorem detector_queries_fall_back (s : Optimizer) (lane : Z) :
  well_formed s -> observation_enabled s = false ->
  VehicleDetector.get_signal_state None lane = OBSERVATION /\
  VehicleDetector.get_green_time None lane = 30%Q /\
  (4 <= lane ->
     VehicleDetector.get_signal_state (Some s) lane = RED /\
     VehicleDetector.get_green_time (Some s) lane = 0%Q) /\
  (lane < -4 ->
     VehicleDetector.get_signal_state (Some s) lane = OBSERVATION /\
     VehicleDetector.get_green_time (Some s) lane = 30%Q).
Proof.
  intros Hwf Hobs.
  pose proof (len_4 _ (wf_phases _ Hwf)) as Hp.
  pose proof (len_4 _ (wf_timings _ Hwf)) as Ht.
  split; [done|]. split; [done|].
  unfold VehicleDetector.get_signal_state, VehicleDetector.get_green_time.
  rewrite Hobs. unfold get_signal_state, get_green_time. rewrite Hp, Ht.
  split; intros Hlane.
  - by destruct (Z.geb_spec lane 4); [|lia].
  - destruct (Z.geb_spec lane 4); [lia|].
    destruct (Z.ltb_spec lane 4); [|lia].
    by rewrite getitem_below by lia.
Qed.

(** ** The frame clock and the cycle boundary *)

Ltac clock_tail Hne :=
  match goal with
  | |- context [update_phase_elapsed_time ?l ?e ?o1] =>
    let t := fresh "t" in
    let Hs := fresh "Hs" in
    destruct (update_phase_elapsed_time_shape o1 l e) as (t & Hs & _);
    destruct (update_phase_elapsed_time l e o1) as [[[]|?] ?];
    cbn [snd] in Hs; subst;
    [destruct (Qge_bool _ _); [rewrite Hne|]|];
    eexists; (split; [reflexivity|done])
  end.

(** X19.  Only the leader installs a cycle.  Whatever the time, the
    detector and the optimizer, one frame of a worker whose lane is not
    0 leaves the active timing vector and the cycle counter untouched,
    even when that worker's own elapsed time has passed the end of the
    cycle. *)
Theorem clock_installs_only_at_leader (now : Q) (d : VehicleDetector.Detector)
    (o : Optimizer) :
  VehicleDetector.lane_id d <> 0 ->
  exists o' : Optimizer,
    (VehicleDetector.process_frame_clock now d (Some o)).2 = Some o' /\
    current_cycle_timings o' = current_cycle_timings o /\
    cycle_number o' = cycle_number o.
Proof.
  intros Hne. apply Z.eqb_neq in Hne.
  unfold VehicleDetector.process_frame_clock.
  destruct (observation_enabled o && _).
  - cbv zeta.
    destruct (update_observation_time_shape o (VehicleDetector.lane_id d)
                (now - default 0%Q (VehicleDetector.observation_start_time d))%Q)
      as (t & r & b & Hshape).
    destruct (update_observation_time _ _ o) as [[[]|e] o'];
      cbn [snd] in Hshape; subst o'.
    + clock_tail Hne.
    + eexists; (split; [reflexivity|done]).
  - destruct (negb (observation_enabled o) && _); clock_tail Hne.
Qed.

(** X20.  At the leader (lane 0), a frame of a detector that has
    analysed its video before and has no observation start pending
    completes the cycle exactly when the elapsed time it reports, the
    float quotient of (frame count + 1) and 15, has reached the sum of
    the active durations plus four yellows.  It then installs the same
    duration for all four lanes, the bucket of the cumulative count
    divided by 30, zeroes all elapsed counters, advances the cycle
    counter by one and restarts the frame count at 0.  Before that the
    frame only stores the reported elapsed time for lane 0.  The first
    frame of a fresh leader is another case: while the junction is
    observing it sets the crossing lines, stamps the observation start
    and ticks the observation of lane 0.  With exact differences and
    quotients a frame of an analysed detector is [process_frame_clock]. *)
Theorem clock_completes_cycle (fsub fdiv : Q -> Q -> Q)
    (frame_lines : list VehicleDetector.Line) (started_at now : Q)
    (d : VehicleDetector.Detector) (o : Optimizer) :
  well_formed o -> VehicleDetector.lane_id d = 0 ->
  VehicleDetector.started (VehicleDetector.observation_start_time d) = false ->
  let elapsed :=
    fdiv (inject_Z (VehicleDetector.frame_count d + 1))
      (inject_Z VehicleDetector.fps) in
  let total := sum (current_cycle_timings o) + VehicleDetector.YELLOW_TIME * 4 in
  let b := bucket_duration (len (VehicleDetector.total_count d) `div` 30) in
  ((inject_Z total <= elapsed)%Q ->
     VehicleDetector.process_frame_timing fsub fdiv true frame_lines
       started_at now d (Some o)
     = (true,
        (Ok tt, VehicleDetector.with_frame_count 0 d,
         Some (with_cycle_number (cycle_number o + 1)
                 (with_phase_elapsed_times [0%Q; 0%Q; 0%Q; 0%Q]
                    (with_current_cycle_timings [b; b; b; b] o)))))) /\
  ((elapsed < inject_Z total)%Q ->
     VehicleDetector.process_frame_timing fsub fdiv true frame_lines
       started_at now d (Some o)
     = (true,
        (Ok tt,
         VehicleDetector.with_frame_count (VehicleDetector.frame_count d + 1) d,
         Some (with_phase_elapsed_times
                 (<[0%nat:=elapsed]> (phase_elapsed_times o)) o)))) /\
  (VehicleDetector.observation_start_time d = None ->
   observation_enabled o = true -> ~ (started_at == 0)%Q ->
     exists (d' : VehicleDetector.Detector) (o' : Optimizer),
       VehicleDetector.process_frame_timing fsub fdiv false frame_lines
         started_at now d (Some o)
       = (true, (Ok tt, d', Some o')) /\
       VehicleDetector.limit_lines d' = frame_lines /\
       VehicleDetector.observation_start_time d' = Some started_at /\
       VehicleDetector.observation_elapsed d' = fsub now started_at /\
       lane_observation_times o' !! 0%nat
       = Some (min (fsub now started_at) (inject_Z 30))) /\
  VehicleDetector.process_frame_timing Qminus Qdiv true frame_lines
    started_at now d (Some o)
  = (true, VehicleDetector.process_frame_clock now d (Some o)).
Proof.
  intros Hwf Hlane Hstarted elapsed total b.
  split; [|split; [|split; [|done]]].
  1,2: assert (Hupd : update_phase_elapsed_time 0 elapsed o
    = (Ok tt, with_phase_elapsed_times (<[0%nat:=elapsed]> (phase_elapsed_times o)) o));
    [apply (update_phase_elapsed_time_slot o 0 elapsed 0%nat);
      [rewrite (len_4 _ (wf_elapsed _ Hwf)); lia
      |by rewrite (wf_elapsed _ Hwf)]|];
    intros Hcmp; unfold VehicleDetector.process_frame_timing;
    rewrite Hstarted, !andb_false_r, Hlane; cbv zeta;
    cbn [VehicleDetector.frame_count VehicleDetector.with_frame_count
         VehicleDetector.total_count VehicleDetector.lane_id
         VehicleDetector.observation_start_time
         VehicleDetector.observation_elapsed VehicleDetector.limit_lines];
    fold elapsed; rewrite Hupd;
    cbn [current_cycle_timings with_phase_elapsed_times]; fold total.
  - assert (Hge : Qge_bool elapsed (inject_Z total) = true)
      by (by apply Qge_bool_iff).
    rewrite Hge. cbn [Z.eqb].
    fold b.
    assert (Hpred : predict_next_cycle_timings
                      (<[0:=len (VehicleDetector.total_count d) `div` 30]>
                       (<[1:=len (VehicleDetector.total_count d) `div` 30]>
                        (<[2:=len (VehicleDetector.total_count d) `div` 30]>
                         (<[3:=len (VehicleDetector.total_count d) `div` 30]> ∅))))
                    = [b; b; b; b]) by reflexivity.
    rewrite Hpred. reflexivity.
  - assert (Hlt : Qge_bool elapsed (inject_Z total) = false).
    { unfold Qge_bool. apply not_true_iff_false. rewrite Qle_bool_iff.
      by apply Qlt_not_le. }
    by rewrite Hlt.
  - intros Hnone Hobs Hnz.
    assert (Hk : index 4 0 = Some 0%nat) by (by apply index_inside).
    assert (Hz : 0 < 4) by lia.
    unfold VehicleDetector.process_frame_timing.
    cbn [VehicleDetector.with_limit_lines VehicleDetector.observation_start_time].
    rewrite Hnone, Hobs. cbv zeta.
    cbn [VehicleDetector.frame_count VehicleDetector.with_frame_count
         VehicleDetector.with_observation_start_time
         VehicleDetector.with_limit_lines
         VehicleDetector.total_count VehicleDetector.lane_id
         VehicleDetector.observation_start_time
         VehicleDetector.observation_elapsed VehicleDetector.limit_lines
         VehicleDetector.started andb].
    assert (Hne : Qeq_bool started_at 0 = false).
    { apply not_true_iff_false. intros Heq. by apply Qeq_bool_iff in Heq. }
    rewrite Hne. cbn [negb]. rewrite Hlane.
    change (default 0%Q (Some started_at)) with started_at.
    set (tick := fsub now started_at).
    pose proof (update_observation_time_times o 0 tick _ Hwf Hz Hk) as Htimes.
    pose proof (update_observation_time_wf o 0 tick Hwf) as Hwf1.
    destruct (update_observation_time_slot o 0 tick _ Hwf Hz Hk)
      as (r & _ & Hres).
    destruct (update_observation_time 0 tick o) as [res o1].
    injection Hres as -> _. cbn [snd] in Htimes, Hwf1.
    assert (Hstored : lane_observation_times o1 !! 0%nat
                      = Some (min tick (inject_Z 30))).
    { rewrite Htimes. apply list_lookup_insert_eq.
      rewrite (wf_obs_times _ Hwf). cbn. lia. }
    cbn [VehicleDetector.frame_count VehicleDetector.with_observation_elapsed
         VehicleDetector.total_count VehicleDetector.lane_id
         VehicleDetector.observation_start_time
         VehicleDetector.observation_elapsed VehicleDetector.limit_lines].
    match goal with
    | |- context [update_phase_elapsed_time 0 ?e o1] =>
      rewrite (update_phase_elapsed_time_slot o1 0 e 0%nat);
        [|rewrite (len_4 _ (wf_elapsed _ Hwf1)); lia
         |by rewrite (wf_elapsed _ Hwf1)]
    end.
    destruct (Qge_bool _ _); [|by eexists _, _].
    cbn [Z.eqb].
    match goal with
    | |- context [set_cycle_timing ?l ?s] =>
      pose proof (set_cycle_timing_shape s l) as Hshape;
      destruct (set_cycle_timing l s) as [[[]|e] o3] eqn:Hset
    end.
    + cbn [snd] in Hshape. subst o3. eexists _, _. split; [done|].
      do 3 (split; [done|]). by destruct (len _ =? 4).
    + unfold set_cycle_timing in Hset.
      destruct (len _ =? 4); discriminate Hset.
Qed.

(** ** Order of the queued items *)

Lemma drain_all {A} (k : nat) : forall q : Queue.t A,
  (length (Queue.items q) <= k)%nat ->
  drain k q = (Queue.items q, Queue.mk (Queue.maxsize q) []).
Proof.
  induction k as [|k IH]; intros [n l] Hlen; cbn [Queue.items Queue.maxsize] in *.
  - destruct l; [done|cbn in Hlen; lia].
  - cbn [drain]. unfold Queue.get_nowait. cbn [Queue.items Queue.maxsize].
    destruct l as [|x rest]; [done|].
    rewrite IH by (cbn in *; lia). done.
Qed.

(** X21.  The queues are first-in first-out.  After any run of pushes
    into a queue of positive capacity N, reading it empty returns the
    last N items that were queued or pushed, in the order they were
    pushed (oldest first); the next [get_nowait] then raises
    [queue.Empty] and leaves the queue empty. *)
Theorem queue_is_fifo {A} (q : Queue.t A) (xs : list A) :
  0 < Queue.maxsize q -> Queue.qsize q <= Queue.maxsize q ->
  let q' := snd (Queue.push_all q xs) in
  drain (Z.to_nat (Queue.maxsize q)) q'
  = (last_n (Z.to_nat (Queue.maxsize q)) (Queue.items q ++ xs),
     Queue.mk (Queue.maxsize q) []) /\
  Queue.get_nowait (snd (drain (Z.to_nat (Queue.maxsize q)) q'))
  = (Raise QueueEmpty, Queue.mk (Queue.maxsize q) []).
Proof.
  intros Hpos Hle q'. subst q'.
  rewrite push_all_keeps_last by done. cbn [snd].
  rewrite drain_all; cbn [Queue.items Queue.maxsize snd].
  - done.
  - rewrite last_n_length. lia.
Qed.

(** ** Frame pacing *)

Lemma getitem_Ok {A} (l : list A) (i : Z) (x : A) :
  getitem l i = Ok x ->
  exists k : nat, index (length l) i = Some k /\ l !! k = Some x.
Proof.
  unfold getitem. destruct (index (length l) i) as [k|]; [|done].
  destruct (l !! k) as [y|] eqn:Hy; [|done]. intros [= <-]. by exists k.
Qed.

(** X22.  Frames of one feed are paced.  After a frame was accepted at
    time [now1], which stores [now1] as the feed's timestamp, the next
    call for the same feed at time [now2] is accepted exactly when the
    float difference of [now2] and [now1] is at least the float quotient
    of 1 and 15; an accepted call stores [now2] as the feed's timestamp,
    a rejected call leaves every feed's timestamp as it was, and the
    list of timestamps keeps its length. *)
Theorem frames_are_paced (fsub fdiv : Q -> Q -> Q) (now1 now2 : Q) (feed : Z)
    (l l1 l2 : list Q) (b : bool) :
  should_process_frame fsub fdiv now1 feed l = (Ok true, l1) ->
  should_process_frame fsub fdiv now2 feed l1 = (Ok b, l2) ->
  getitem l1 feed = Ok now1 /\
  (b = true <-> (fdiv 1%Q 15%Q <= fsub now2 now1)%Q) /\
  (b = true -> setitem l1 feed now2 = Ok l2 /\ getitem l2 feed = Ok now2) /\
  (b = false -> l2 = l1) /\
  length l2 = length l.
Proof.
  unfold should_process_frame. change (inject_Z 15) with 15%Q. intros H1 H2.
  destruct (getitem l feed) as [last|] eqn:Hget; [|done].
  apply getitem_Ok in Hget as (k & Hk & Hlast).
  destruct (Qge_bool (fsub now1 last) (fdiv 1%Q 15%Q)); [|done].
  unfold setitem in H1. rewrite Hk in H1. injection H1 as <-.
  assert (Hin : (k < length l)%nat) by (by apply lookup_lt_Some in Hlast).
  assert (Hget1 : getitem (<[k:=now1]> l) feed = Ok now1).
  { unfold getitem. by rewrite length_insert, Hk, list_lookup_insert_eq. }
  split; [done|]. rewrite Hget1 in H2.
  destruct (Qge_bool (fsub now2 now1) (fdiv 1%Q 15%Q)) eqn:Hge.
  - unfold setitem in H2 |- *. rewrite length_insert, Hk in H2 |- *.
    injection H2 as <- <-. apply Qge_bool_iff in Hge.
    split; [done|]. split; [|split; [done|by rewrite !length_insert]].
    intros _. split; [done|].
    unfold getitem. rewrite !length_insert, Hk, list_lookup_insert_eq; [done|].
    by rewrite length_insert.
  - injection H2 as <- <-.
    split; [|split; [done|split; [done|by rewrite length_insert]]].
    split; [done|]. intros Hle. apply Qge_bool_iff in Hle. congruence.
Qed.

(** ** Negative lane identifiers *)

Lemma getitem_wraps {A} (l : list A) (i : Z) :
  - len l <= i < 0 -> getitem l i = getitem l (i + len l).
Proof.
  intros Hi. unfold getitem, len in *.
  rewrite index_wraps by lia. by rewrite index_inside by lia.
Qed.

Lemma setitem_wraps {A} (l : list A) (i : Z) (x : A) :
  - len l <= i < 0 -> setitem l i x = setitem l (i + len l) x.
Proof.
  intros Hi. unfold setitem, len in *.
  rewrite index_wraps by lia. by rewrite index_inside by lia.
Qed.

(** X23.  Lane identifiers -4..-1 are not rejected either: on a
    well-formed optimizer each of the five lane operations behaves for
    such an identifier exactly as it does for the identifier plus 4, so
    lane -1 reads and writes lane 3's slots, lane -4 lane 0's. *)
Theorem negative_lane_aliases (s : Optimizer) (lane : Z) (e : Q) (n : Z) :
  well_formed s -> -4 <= lane < 0 ->
  get_signal_state s lane = get_signal_state s (lane + 4) /\
  get_green_time s lane = get_green_time s (lane + 4) /\
  update_observation_time lane e s = update_observation_time (lane + 4) e s /\
  record_observation_vehicle_count lane n s
  = record_observation_vehicle_count (lane + 4) n s /\
  update_phase_elapsed_time lane e s = update_phase_elapsed_time (lane + 4) e s.
Proof.
  intros Hwf Hlane.
  pose proof (len_4 _ (wf_phases _ Hwf)) as Hp.
  pose proof (len_4 _ (wf_timings _ Hwf)) as Ht.
  pose proof (len_4 _ (wf_elapsed _ Hwf)) as He.
  pose proof (len_4 _ (wf_obs_counts _ Hwf)) as Hc.
  assert (Hk : index 4 lane = Some (Z.to_nat (lane + 4)))
    by (apply (index_wraps 4); lia).
  assert (Hk' : index 4 (lane + 4) = Some (Z.to_nat (lane + 4)))
    by (apply (index_inside 4); lia).
  split; [|split; [|split; [|split]]].
  - unfold get_signal_state. rewrite Hp, Ht.
    destruct (Z.geb_spec lane 4), (Z.geb_spec (lane + 4) 4); try lia.
    destruct (Z.ltb_spec lane 4), (Z.ltb_spec (lane + 4) 4); try lia.
    rewrite (getitem_wraps (current_cycle_timings s) lane) by lia.
    rewrite (getitem_wraps (phase_elapsed_times s) lane) by lia.
    by rewrite Ht, He.
  - unfold get_green_time. rewrite Ht.
    destruct (Z.geb_spec lane 4), (Z.geb_spec (lane + 4) 4); try lia.
    rewrite (getitem_wraps (current_cycle_timings s) lane) by lia.
    rewrite (getitem_wraps (phase_elapsed_times s) lane) by lia.
    by rewrite Ht, He.
  - destruct (update_observation_time_slot s lane e _ Hwf ltac:(lia) Hk)
      as (r & Hr & ->).
    destruct (update_observation_time_slot s (lane + 4) e _ Hwf ltac:(lia) Hk')
      as (r' & Hr' & ->).
    rewrite Hr in Hr'. by injection Hr' as <-.
  - unfold record_observation_vehicle_count.
    destruct (Z.ltb_spec lane 4), (Z.ltb_spec (lane + 4) 4); try lia.
    unfold bind, read, write, lift. cbn.
    rewrite (getitem_wraps (observation_vehicle_counts s) lane) by lia.
    rewrite Hc.
    destruct (getitem (observation_vehicle_counts s) (lane + 4)) as [c|]; [|done].
    cbn. rewrite (setitem_wraps (observation_vehicle_counts s) lane) by lia.
    by rewrite Hc.
  - rewrite (update_phase_elapsed_time_slot s lane e (Z.to_nat (lane + 4)));
      [|lia|by rewrite (wf_elapsed _ Hwf)].
    rewrite (update_phase_elapsed_time_slot s (lane + 4) e (Z.to_nat (lane + 4)));
      [done|lia|by rewrite (wf_elapsed _ Hwf)].
Qed.

(** ** Peak counts along a run *)

Lemma record_observation_vehicle_count_slot (s : Optimizer) (lane n : Z) (k : nat) :
  well_formed s -> lane < 4 -> index 4 lane = Some k ->
  exists old : Z,
    observation_vehicle_counts s !! k = Some old /\
    record_observation_vehicle_count lane n s
    = (Ok tt,
       with_observation_vehicle_counts
         (<[k:=Z.max old n]> (observation_vehicle_counts s)) s).
Proof.
  intros Hwf Hlt Hk. pose proof (index_Some_lt _ _ _ Hk) as Hk4.
  destruct (lookup_lt_is_Some_2 (observation_vehicle_counts s) k) as [old Hold].
  { rewrite (wf_obs_counts _ Hwf). lia. }
  exists old. split; [done|].
  unfold record_observation_vehicle_count.
  destruct (Z.ltb_spec lane 4); [|lia].
  unfold bind, read, write, lift, ret, getitem, setitem. cbn.
  rewrite (wf_obs_counts _ Hwf), Hk, Hold. cbn.
  do 3 f_equal. unfold maxZ. destruct (Z.ltb_spec old n); lia.
Qed.

Lemma apply_op_keeps_peak (o : Op) (s : Optimizer) (k : nat) (c : Z) :
  well_formed s ->
  (exists c' : Z, observation_vehicle_counts s !! k = Some c' /\ c <= c') ->
  exists c' : Z, observation_vehicle_counts (apply_op o s) !! k = Some c' /\ c <= c'.
Proof.
  intros Hwf (c0 & Hc0 & Hle).
  destruct o as [[p e|l|lane e|lane n]|]; cbn [apply_op]; try unfold after; cbn [exec].
  - destruct (update_phase_elapsed_time_shape s p e) as (t & -> & _). by exists c0.
  - rewrite set_cycle_timing_shape. destruct (len l =? 4); by exists c0.
  - destruct (update_observation_time_shape s lane e) as (t & r & b & ->).
    by exists c0.
  - destruct (index_cases 4 lane) as [[H _]|[[H _]|[H (k' & Hk' & _)]]].
    + rewrite record_observation_vehicle_count_above by done. by exists c0.
    + rewrite record_observation_vehicle_count_below by done. by exists c0.
    + destruct (record_observation_vehicle_count_slot s lane n k' Hwf H Hk')
        as (old & Hold & ->). cbn.
      destruct (decide (k = k')) as [->|Hne].
      * exists (Z.max old n). split.
        -- apply list_lookup_insert_eq. by apply lookup_lt_Some in Hold.
        -- rewrite Hold in Hc0. injection Hc0 as ->. lia.
      * exists c0. by rewrite list_lookup_insert_ne.
  - rewrite finalize_observation_phase_eq by done.
    destruct (all (lanes_ready s)); by exists c0.
Qed.

(** X24.  The observed peak of a lane never goes down: along any run of
    public mutators from a well-formed optimizer, each slot of the
    observation counts holds at least what it held at the start. *)
Theorem peak_never_decreases (ops : list Op) (s : Optimizer) (k : nat) (c : Z) :
  well_formed s -> observation_vehicle_counts s !! k = Some c ->
  exists c' : Z,
    observation_vehicle_counts (run_ops ops s) !! k = Some c' /\ c <= c'.
Proof.
  intros Hwf Hc.
  apply (run_ops_invariant
           (fun s => exists c' : Z,
              observation_vehicle_counts s !! k = Some c' /\ c <= c')).
  - intros o s'. apply apply_op_keeps_peak.
  - done.
  - exists c. split; [done|lia].
Qed.

(** ** The frame clock during observation *)

(** X25.  While the junction is observing, a frame of a worker for a
    lane in 0..3 whose observation started at [start] returns normally,
    remembers [now - start] as the worker's observation time, and leaves
    [min(now - start, 30)] as the lane's stored observation time in the
    optimizer, whatever else the frame does to the cycle. *)
Theorem clock_observation_tick (now start : Q) (d : VehicleDetector.Detector)
    (o : Optimizer) :
  well_formed o -> observation_enabled o = true ->
  VehicleDetector.observation_start_time d = Some start -> ~ (start == 0)%Q ->
  0 <= VehicleDetector.lane_id d < 4 ->
  exists (d' : VehicleDetector.Detector) (o' : Optimizer),
    VehicleDetector.process_frame_clock now d (Some o) = (Ok tt, d', Some o') /\
    VehicleDetector.observation_elapsed d' = (now - start)%Q /\
    lane_observation_times o' !! Z.to_nat (VehicleDetector.lane_id d)
    = Some (min (now - start)%Q (inject_Z 30)).
Proof.
  intros Hwf Hobs Hstart Hnz Hlane.
  set (lane := VehicleDetector.lane_id d) in *.
  assert (Hk : index 4 lane = Some (Z.to_nat lane)) by (apply index_inside; lia).
  assert (Hstarted : VehicleDetector.started
                       (VehicleDetector.observation_start_time d) = true).
  { rewrite Hstart. cbn. apply negb_true_iff, not_true_iff_false.
    intros Heq. by apply Qeq_bool_iff in Heq. }
  unfold VehicleDetector.process_frame_clock.
  rewrite Hobs, Hstarted, Hstart. cbn [andb]. cbv zeta. fold lane.
  change (default 0%Q (Some start)) with start.
  pose proof (update_observation_time_times o lane (now - start)%Q _ Hwf
                (proj2 Hlane) Hk) as Htimes.
  pose proof (update_observation_time_wf o lane (now - start)%Q Hwf) as Hwf1.
  destruct (update_observation_time_slot o lane (now - start)%Q _ Hwf
              (proj2 Hlane) Hk) as (r & _ & Hres).
  destruct (update_observation_time lane (now - start)%Q o) as [res o1].
  injection Hres as -> _. cbn [snd] in Htimes, Hwf1.
  assert (Hstored : lane_observation_times o1 !! Z.to_nat lane
                    = Some (min (now - start)%Q (inject_Z 30))).
  { rewrite Htimes. apply list_lookup_insert_eq.
    rewrite (wf_obs_times _ Hwf). lia. }
  match goal with
  | |- context [update_phase_elapsed_time lane ?e o1] =>
    rewrite (update_phase_elapsed_time_slot o1 lane e (Z.to_nat lane));
      [|rewrite (len_4 _ (wf_elapsed _ Hwf1)); lia
       |rewrite (wf_elapsed _ Hwf1); apply index_inside; lia]
  end.
  destruct (Qge_bool _ _); [|by eexists _, _].
  destruct (lane =? 0); [|by eexists _, _].
  match goal with
  | |- context [set_cycle_timing ?l ?s] =>
    pose proof (set_cycle_timing_shape s l) as Hshape;
    destruct (set_cycle_timing l s) as [[[]|e] o3] eqn:Hset
  end.
  - cbn [snd] in Hshape. subst o3. eexists _, _. split; [done|]. split; [done|].
    by destruct (len _ =? 4).
  - unfold set_cycle_timing in Hset.
    destruct (len _ =? 4); discriminate Hset.
Qed.

(** ** Metrics computed by a detector *)

Lemma slice_to_length {A} (l : list A) (n : Z) :
  0 <= n -> len (slice_to l n) = Z.min n (len l).
Proof.
  intros Hn. unfold slice_to, len.
  destruct (Z.leb_spec 0 n); [|lia]. rewrite length_take. lia.
Qed.

(** X26.  [calculate_lane_metrics] with a non-negative count reports as
    vehicle count the count itself when no vehicle types are given, and
    otherwise the smaller of the count and the number of types given,
    with the congestion level of that number.  When that number is
    positive the metrics are stored as the entry of the detector's lane
    if the optimizer knows the lane; when it is 0 the answer is a fresh
    "low" record for lane 0, whatever the detector's lane, and nothing
    is stored. *)
Theorem calculate_lane_metrics_outcome (clock : nat -> Q) (lane count : Z)
    (types : list string) (j : Junction) :
  0 <= count ->
  let m := (calculate_lane_metrics clock lane count types j).1 in
  let j' := (calculate_lane_metrics clock lane count types j).2 in
  let counted :=
    match types with [] => count | _ => Z.min count (len types) end in
  (counted = 0 -> m = new_lane_metrics 0 0 "low" /\ j' = j) /\
  (0 < counted ->
     vehicle_count m = counted /\
     congestion_level m = congestion_of counted /\
     optimizer j' = optimizer j /\
     (forall stored : LaneMetrics, lanes j !! lane = Some stored ->
        lanes j' !! lane = Some m) /\
     (lanes j !! lane = None -> j' = j /\ metrics_lane_id m = lane)).
Proof.
  intros Hcount. cbv zeta. unfold calculate_lane_metrics.
  set (tys := match types with
              | [] => replicate (Z.to_nat count) "car"
              | _ => types
              end).
  set (counted := match types with [] => count | _ => Z.min count (len types) end).
  assert (Hlen : len (slice_to tys count) = counted).
  { rewrite slice_to_length by done. subst tys counted.
    destruct types; [|done]. unfold len. rewrite length_replicate. lia. }
  destruct (slice_to tys count) as [|x xs] eqn:Hslice.
  - cbn [imap]. unfold len in Hlen. cbn in Hlen. split; [done|]. intros Hpos. lia.
  - assert (Hpos : 0 < counted) by (unfold len in Hlen; cbn in Hlen; lia).
    split; [lia|]. intros _.
    assert (Hblen : forall f : nat -> string -> VehicleData,
              len (imap f (x :: xs)) = counted).
    { intros f. unfold len in *. by rewrite length_imap. }
    cbn [imap]. unfold analyze_lane_conditions.
    cbn [vehicle_lane_id].
    destruct (lanes j !! lane) as [stored|] eqn:Hl; cbn [fst snd].
    + cbn [vehicle_count congestion_level with_vehicles update_congestion optimizer lanes].
      change (?a :: imap ?g xs) with (imap (fun i v_type =>
            mkVehicleData (Z.of_nat i)
              (default "car" (vehicle_type_map !! v_type)) lane
              (Some (clock i))) (x :: xs)).
      rewrite Hblen. do 3 (split; [done|]). split.
      * intros stored' _. by rewrite lookup_insert_eq.
      * intros Hnone. discriminate Hnone.
    + cbn [vehicle_count congestion_level with_vehicles update_congestion
           metrics_lane_id new_lane_metrics].
      change (?a :: imap ?g xs) with (imap (fun i v_type =>
            mkVehicleData (Z.of_nat i)
              (default "car" (vehicle_type_map !! v_type)) lane
              (Some (clock i))) (x :: xs)).
      rewrite Hblen. do 3 (split; [done|]). split; [|done].
      intros stored' Hsome. discriminate Hsome.
Qed.

(** ** Upload file names *)

Lemma after_last_dot_none (s : string) :
  has_dot s = false -> after_last_dot s = None.
Proof.
  induction s as [|c rest IH]; [done|]. cbn.
  intros H. apply orb_false_iff in H as [Hc Hrest].
  by rewrite (IH Hrest), Hc.
Qed.

Lemma after_last_dot_app (stem ext : string) :
  has_dot ext = false ->
  after_last_dot (stem +:+ String (Ascii.ascii_of_nat 46) ext) = Some ext /\
  has_dot (stem +:+ String (Ascii.ascii_of_nat 46) ext) = true.
Proof.
  intros Hext.
  induction stem as [|c stem [IH1 IH2]].
  - change ("" +:+ String (Ascii.ascii_of_nat 46) ext)
      with (String (Ascii.ascii_of_nat 46) ext).
    cbn [after_last_dot has_dot]. by rewrite (after_last_dot_none ext Hext).
  - change (String c stem +:+ String (Ascii.ascii_of_nat 46) ext)
      with (String c (stem +:+ String (Ascii.ascii_of_nat 46) ext)).
    cbn [after_last_dot has_dot]. rewrite IH1, IH2. by rewrite orb_true_r.
Qed.

Lemma is_dot_lower_char (c : Ascii.ascii) : is_dot (lower_char c) = is_dot c.
Proof. by destruct c as [[] [] [] [] [] [] [] []]. Qed.

Lemma lower_char_idem (c : Ascii.ascii) : lower_char (lower_char c) = lower_char c.
Proof. by destruct c as [[] [] [] [] [] [] [] []]. Qed.

Lemma has_dot_lower (s : string) : has_dot (lower s) = has_dot s.
Proof.
  induction s as [|c rest IH]; [done|]. cbn. by rewrite is_dot_lower_char, IH.
Qed.

Lemma lower_idem (s : string) : lower (lower s) = lower s.
Proof.
  induction s as [|c rest IH]; [done|]. cbn. by rewrite lower_char_idem, IH.
Qed.

(** X27.  A file name with an ASCII extension is accepted for upload
    exactly when what follows its last dot, lower-cased, is one of mp4,
    avi, mov, mkv, flv and wmv: only the last extension counts, its case
    does not matter, and what precedes the last dot is irrelevant.  A
    name without a dot is never accepted. *)
Theorem allowed_file_by_last_extension (stem ext : string) :
  has_dot ext = false -> all_plain ext = true ->
  let dot := String (Ascii.ascii_of_nat 46) EmptyString in
  allowed_file (stem +:+ dot +:+ ext)
  = bool_decide (lower ext ∈ ALLOWED_EXTENSIONS) /\
  allowed_file (stem +:+ dot +:+ lower ext) = allowed_file (stem +:+ dot +:+ ext) /\
  (forall stem' : string,
     allowed_file (stem' +:+ dot +:+ ext) = allowed_file (stem +:+ dot +:+ ext)) /\
  allowed_file ext = false.
Proof.
  intros Hext _ dot. subst dot.
  assert (Hdot : forall e : string,
    String (Ascii.ascii_of_nat 46) EmptyString +:+ e
    = String (Ascii.ascii_of_nat 46) e) by done.
  rewrite !Hdot.
  assert (Hallowed : forall (st e : string), has_dot e = false ->
    allowed_file (st +:+ String (Ascii.ascii_of_nat 46) e)
    = bool_decide (lower e ∈ ALLOWED_EXTENSIONS)).
  { intros st e He. unfold allowed_file.
    destruct (after_last_dot_app st e He) as [-> ->]. done. }
  split; [by apply Hallowed|]. split; [|split].
  - rewrite !Hallowed; [|done|by rewrite has_dot_lower].
    by rewrite lower_idem.
  - intros stem'. by rewrite !Hallowed.
  - unfold allowed_file. by rewrite Hext.
Qed.

Example upload_names :
  allowed_file "clip.MP4" = true /\
  allowed_file "archive.tar.mkv" = true /\
  allowed_file "clip.mp4.exe" = false /\
  allowed_file "mp4" = false /\
  allowed_file "clip." = false.
Proof. by vm_compute. Qed.

(** ** The further statements at concrete inputs *)

Lemma readiness_never_revoked_witness :
  well_formed (after (UpdateObservationTime 0 30%Q) init) /\
  lanes_ready
    (run_ops [Public (UpdateObservationTime 0 5%Q); FinalizeObservationPhase]
       (after (UpdateObservationTime 0 30%Q) init)) !! 0%nat = Some true.
Proof.
  assert (Hwf : well_formed (after (UpdateObservationTime 0 30%Q) init))
    by (apply after_well_formed, init_well_formed).
  split; [exact Hwf|].
  destruct (readiness_never_revoked
              [Public (UpdateObservationTime 0 5%Q); FinalizeObservationPhase]
              (after (UpdateObservationTime 0 30%Q) init) Hwf) as [Hready _].
  apply Hready. reflexivity.
Defined.

Lemma observation_times_never_exceed_window_witness :
  lane_observation_times
    (run_ops [Public (UpdateObservationTime 1 500%Q)] init) !! 1%nat
  = Some 30%Q /\ (30 <= 30)%Q.
Proof.
  assert (Hk : lane_observation_times
                 (run_ops [Public (UpdateObservationTime 1 500%Q)] init) !! 1%nat
               = Some 30%Q) by reflexivity.
  split; [exact Hk|].
  exact (observation_times_never_exceed_window
           [Public (UpdateObservationTime 1 500%Q)] 1 30%Q Hk).
Defined.

Lemma record_keeps_peak_witness :
  well_formed init /\ 0 <= 2 < 4 /\
  exists old : Z,
    observation_vehicle_counts init !! Z.to_nat 2 = Some old /\
    record_observation_vehicle_count 2 7 init
    = (Ok tt,
       with_observation_vehicle_counts
         (<[Z.to_nat 2:=Z.max old 7]> (observation_vehicle_counts init)) init).
Proof.
  assert (Hlane : 0 <= 2 < 4) by lia.
  split; [exact init_well_formed|]. split; [exact Hlane|].
  destruct (record_keeps_peak init 2 7 init_well_formed Hlane)
    as (old & Hold & Hcall & _).
  exists old. split; [exact Hold|exact Hcall].
Defined.

Lemma green_time_matches_signal_witness :
  well_formed (controlling_at 10%Q) /\ 0 <= 0 < 4 /\
  exists t : Q,
    get_green_time_rounded Qminus (controlling_at 10%Q) 0 = Ok t /\
    (0 <= t)%Q /\
    get_green_time_rounded Qminus (controlling_at 10%Q) 0
    = get_green_time (controlling_at 10%Q) 0.
Proof.
  assert (Hwf : well_formed (controlling_at 10%Q)) by (by constructor).
  assert (Hlane : 0 <= 0 < 4) by lia.
  split; [exact Hwf|]. split; [exact Hlane|].
  destruct (green_time_matches_signal Qminus (controlling_at 10%Q) 0 Hwf Hlane)
    as (g & e & t & _ & _ & Ht & Hpos & _ & _ & _ & _ & Hexact).
  exists t. split; [exact Ht|]. split; [exact Hpos|exact Hexact].
Defined.

Lemma signal_moves_forward_witness :
  well_formed init /\ 0 <= 0 < 4 /\ (10 <= 31)%Q /\
  exists st1 st2 : SignalState,
    get_signal_state (after (UpdatePhaseElapsedTime 0 10%Q) init) 0 = Ok st1 /\
    get_signal_state
      (after (UpdatePhaseElapsedTime 0 31%Q)
         (after (UpdatePhaseElapsedTime 0 10%Q) init)) 0 = Ok st2 /\
    stage st1 <= stage st2.
Proof.
  assert (Hlane : 0 <= 0 < 4) by lia.
  assert (Hle : (10 <= 31)%Q) by (apply Qle_bool_iff; reflexivity).
  split; [exact init_well_formed|]. split; [exact Hlane|]. split; [exact Hle|].
  destruct (signal_moves_forward init 0 10%Q 31%Q init_well_formed Hlane Hle)
    as (st1 & st2 & H1 & H2 & _ & _ & Hstage).
  exists st1, st2. split; [exact H1|]. split; [exact H2|exact Hstage].
Defined.

Lemma install_then_state_witness :
  well_formed init /\ length [15; 25; 0; 55] = 4%nat /\ 0 <= 2 < 4 /\
  get_signal_state (snd (set_cycle_timing [15; 25; 0; 55] init)) 2 = Ok RED /\
  get_signal_state (snd (set_cycle_timing [15; 25; 0; 55] init)) 3 = Ok GREEN.
Proof.
  assert (Hlen : length [15; 25; 0; 55] = 4%nat) by reflexivity.
  assert (H2 : 0 <= 2 < 4) by lia.
  assert (H3 : 0 <= 3 < 4) by lia.
  split; [exact init_well_formed|]. split; [exact Hlen|]. split; [exact H2|].
  destruct (install_then_state init [15; 25; 0; 55] 2 0 init_well_formed Hlen H2
              eq_refl ltac:(lia)) as [Hred _].
  destruct (install_then_state init [15; 25; 0; 55] 3 55 init_well_formed Hlen H3
              eq_refl ltac:(lia)) as [Hgreen _].
  split; [exact Hred|exact Hgreen].
Defined.

Lemma finalize_observation_phase_outcome_witness :
  well_formed init /\ finalize_observation_phase init = (Ok None, init).
Proof.
  split; [exact init_well_formed|].
  destruct (finalize_observation_phase_outcome init init_well_formed) as [Hnone _].
  apply Hnone. reflexivity.
Defined.

Lemma phase_state_and_remaining_green_witness :
  Phase.get_state (mkPhase 0 30 3) 10%Q = GREEN /\
  Phase.get_remaining_green_time Qminus (mkPhase 0 30 3) 10%Q = 20%Q /\
  (0 < Phase.get_remaining_green_time Qminus (mkPhase 0 30 3) 10%Q)%Q.
Proof.
  destruct (phase_state_and_remaining_green Qminus (mkPhase 0 30 3) 10%Q)
    as (_ & _ & _ & Hsign).
  assert (Hpos : (10 < inject_Z 30)%Q -> (0 < inject_Z 30 - 10)%Q)
    by (intros _; reflexivity).
  destruct (Hsign Hpos) as [_ Hiff].
  split; [reflexivity|]. split; [reflexivity|].
  apply Hiff. reflexivity.
Defined.

Lemma optimizer_state_is_phase_state_witness :
  well_formed (controlling_at 31%Q) /\ 0 <= 0 < 4 /\
  get_signal_state (controlling_at 31%Q) 0
  = Ok (Phase.get_state (mkPhase 0 30 3) 31%Q).
Proof.
  assert (Hwf : well_formed (controlling_at 31%Q)) by (by constructor).
  assert (Hlane : 0 <= 0 < 4) by lia.
  split; [exact Hwf|]. split; [exact Hlane|].
  destruct (optimizer_state_is_phase_state (controlling_at 31%Q) 0 Hwf Hlane)
    as (g & e & Hg & He & Hphase & _).
  injection Hg as <-. injection He as <-.
  apply Hphase. lia.
Defined.

Lemma optimize_phase_timing_duration_witness :
  well_formed (optimizer init_junction) /\ 0 <= 1 < 4 /\
  exists j' : Junction,
    optimize_phase_timing [(1, new_lane_metrics 1 12 "high")] init_junction
    = (Ok [30; 45; 0; 0], j').
Proof.
  assert (Hlane : 0 <= 1 < 4) by lia.
  split; [exact init_well_formed|]. split; [exact Hlane|].
  destruct (optimize_phase_timing_duration init_junction 1
              (new_lane_metrics 1 12 "high") init_well_formed Hlane)
    as (j' & Hcall & _).
  exists j'. exact Hcall.
Defined.

Lemma next_green_time_outcome_witness :
  well_formed (controlling_at 10%Q) /\ 0 <= 2 < 4 /\
  VehicleDetector.get_signal_state (Some (controlling_at 10%Q)) 2 = RED /\
  (5 <= VehicleDetector.get_next_green_time Qminus Qplus
          (Some (controlling_at 10%Q)) 2)%Q.
Proof.
  assert (Hwf : well_formed (controlling_at 10%Q)) by (by constructor).
  assert (Hlane : 0 <= 2 < 4) by lia.
  split; [exact Hwf|]. split; [exact Hlane|]. split; [reflexivity|].
  destruct (next_green_time_outcome Qminus Qplus (controlling_at 10%Q) 2 Hwf Hlane)
    as [_ Hred].
  destruct (Hred eq_refl)
    as (a & b & m & _ & _ & Hpa & _ & _ & _ & Hmax & _ & _ & Hfive).
  assert (Hm : (0 <= m)%Q).
  { rewrite Hmax. apply (Qle_trans _ a); [exact Hpa|apply Q.le_max_l]. }
  apply Hfive; lra.
Defined.

Lemma detector_queries_fall_back_witness :
  well_formed (controlling_at 10%Q) /\
  observation_enabled (controlling_at 10%Q) = false /\
  VehicleDetector.get_signal_state (Some (controlling_at 10%Q)) (-9) = OBSERVATION /\
  VehicleDetector.get_green_time (Some (controlling_at 10%Q)) 9 = 0%Q.
Proof.
  assert (Hwf : well_formed (controlling_at 10%Q)) by (by constructor).
  split; [exact Hwf|]. split; [reflexivity|].
  destruct (detector_queries_fall_back (controlling_at 10%Q) (-9) Hwf eq_refl)
    as (_ & _ & _ & Hbelow).
  destruct (detector_queries_fall_back (controlling_at 10%Q) 9 Hwf eq_refl)
    as (_ & _ & Habove & _).
  split; [exact (proj1 (Hbelow ltac:(lia)))|exact (proj2 (Habove ltac:(lia)))].
Defined.

Lemma clock_installs_only_at_leader_witness :
  1 <> 0 /\
  exists o' : Optimizer,
    (VehicleDetector.process_frame_clock 200%Q
       (VehicleDetector.mkDetector 1 2000 None 30%Q [] [])
       (Some (controlling_at 100%Q))).2 = Some o' /\
    current_cycle_timings o' = [30; 22; 0; 0] /\
    cycle_number o' = 0.
Proof.
  assert (Hne : 1 <> 0) by lia.
  split; [exact Hne|].
  exact (clock_installs_only_at_leader 200%Q
           (VehicleDetector.mkDetector 1 2000 None 30%Q [] [])
           (controlling_at 100%Q) Hne).
Defined.

Lemma clock_completes_cycle_witness :
  well_formed (controlling_at 63%Q) /\
  VehicleDetector.frame_count
    (VehicleDetector.process_frame_timing Qminus Qdiv true sample_lines
       100%Q 200%Q
       (VehicleDetector.mkDetector 0 959 None 30%Q [] sample_lines)
       (Some (controlling_at 63%Q))).2.1.2 = 0 /\
  cycle_number (controlling_at 63%Q) + 1 = 1.
Proof.
  assert (Hwf : well_formed (controlling_at 63%Q)) by (by constructor).
  split; [exact Hwf|].
  destruct (clock_completes_cycle Qminus Qdiv sample_lines 100%Q 200%Q
              (VehicleDetector.mkDetector 0 959 None 30%Q [] sample_lines)
              (controlling_at 63%Q) Hwf eq_refl eq_refl) as [Hdone _].
  rewrite Hdone; [split; reflexivity|].
  apply Qle_bool_iff. reflexivity.
Defined.

Lemma queue_is_fifo_witness :
  0 < Queue.maxsize (@Queue.frame_queue Z) /\
  Queue.qsize (@Queue.frame_queue Z) <= Queue.maxsize (@Queue.frame_queue Z) /\
  drain 2 (snd (Queue.push_all Queue.frame_queue [1; 2; 3; 4]))
  = ([3; 4], Queue.mk 2 []).
Proof.
  assert (Hpos : 0 < Queue.maxsize (@Queue.frame_queue Z)) by (cbn; lia).
  assert (Hle : Queue.qsize (@Queue.frame_queue Z)
                <= Queue.maxsize (@Queue.frame_queue Z)) by (by vm_compute).
  split; [exact Hpos|]. split; [exact Hle|].
  exact (proj1 (queue_is_fifo Queue.frame_queue [1; 2; 3; 4] Hpos Hle)).
Defined.

Lemma frames_are_paced_witness :
  should_process_frame Qminus Qdiv 1%Q 0 [0%Q; 0%Q; 0%Q; 0%Q]
  = (Ok true, [1%Q; 0%Q; 0%Q; 0%Q]) /\
  should_process_frame Qminus Qdiv (21 # 20)%Q 0 [1%Q; 0%Q; 0%Q; 0%Q]
  = (Ok false, [1%Q; 0%Q; 0%Q; 0%Q]) /\
  ~ (1 / 15 <= (21 # 20) - 1)%Q.
Proof.
  assert (H1 : should_process_frame Qminus Qdiv 1%Q 0 [0%Q; 0%Q; 0%Q; 0%Q]
               = (Ok true, [1%Q; 0%Q; 0%Q; 0%Q])) by reflexivity.
  assert (H2 : should_process_frame Qminus Qdiv (21 # 20)%Q 0 [1%Q; 0%Q; 0%Q; 0%Q]
               = (Ok false, [1%Q; 0%Q; 0%Q; 0%Q])) by reflexivity.
  split; [exact H1|]. split; [exact H2|].
  destruct (frames_are_paced Qminus Qdiv 1%Q (21 # 20)%Q 0 _ _ _ false H1 H2)
    as (_ & Hiff & _).
  intros Hle. apply Hiff in Hle. discriminate Hle.
Defined.

Lemma negative_lane_aliases_witness :
  well_formed init /\ -4 <= -1 < 0 /\
  update_observation_time (-1) 7%Q init = update_observation_time 3 7%Q init.
Proof.
  assert (Hlane : -4 <= -1 < 0) by lia.
  split; [exact init_well_formed|]. split; [exact Hlane|].
  destruct (negative_lane_aliases init (-1) 7%Q 0 init_well_formed Hlane)
    as (_ & _ & Hobs & _).
  exact Hobs.
Defined.

Lemma peak_never_decreases_witness :
  well_formed init /\
  exists c' : Z,
    observation_vehicle_counts
      (run_ops [Public (RecordObservationVehicleCount 0 9);
                Public (RecordObservationVehicleCount 0 4)] init) !! 0%nat
    = Some c' /\ 0 <= c'.
Proof.
  split; [exact init_well_formed|].
  exact (peak_never_decreases
           [Public (RecordObservationVehicleCount 0 9);
            Public (RecordObservationVehicleCount 0 4)]
           init 0 0 init_well_formed eq_refl).
Defined.

Lemma clock_observation_tick_witness :
  well_formed init /\ 0 <= 2 < 4 /\
  exists (d' : VehicleDetector.Detector) (o' : Optimizer),
    VehicleDetector.process_frame_clock 145%Q
      (VehicleDetector.mkDetector 2 10 (Some 100%Q) 0%Q [] []) (Some init)
    = (Ok tt, d', Some o') /\
    lane_observation_times o' !! 2%nat = Some (min (145 - 100)%Q (inject_Z 30)).
Proof.
  assert (Hlane : 0 <= 2 < 4) by lia.
  assert (Hnz : ~ (100 == 0)%Q) by (intros H; discriminate H).
  split; [exact init_well_formed|]. split; [exact Hlane|].
  destruct (clock_observation_tick 145%Q 100%Q
              (VehicleDetector.mkDetector 2 10 (Some 100%Q) 0%Q [] []) init
              init_well_formed eq_refl eq_refl Hnz Hlane)
    as (d' & o' & Hcall & _ & Hstored).
  exists d', o'. split; [exact Hcall|exact Hstored].
Defined.

Lemma calculate_lane_metrics_outcome_witness :
  0 <= 7 /\
  vehicle_count
    (calculate_lane_metrics (fun _ => 0%Q) 1 7 ["car"; "bus"; "truck"] init_junction).1
  = 3.
Proof.
  assert (Hcount : 0 <= 7) by lia.
  split; [exact Hcount|].
  destruct (calculate_lane_metrics_outcome (fun _ => 0%Q) 1 7
              ["car"; "bus"; "truck"] init_junction Hcount) as [_ Hpos].
  destruct (Hpos ltac:(reflexivity)) as (Hvc & _).
  exact Hvc.
Defined.

Lemma allowed_file_by_last_extension_witness :
  has_dot "MP4" = false /\ all_plain "MP4" = true /\
  allowed_file "clip.final.MP4" = true.
Proof.
  assert (Hdot : has_dot "MP4" = false) by reflexivity.
  assert (Hplain : all_plain "MP4" = true) by reflexivity.
  split; [exact Hdot|]. split; [exact Hplain|].
  destruct (allowed_file_by_last_extension "clip.final" "MP4" Hdot Hplain)
    as [Hallowed _].
  exact Hallowed.
Defined.
